(** * Canopy movers of the Raven hydrological framework

    A shallow embedding of [VegetationMovers.cpp] (canopy evaporation,
    canopy snow sublimation, canopy drip) and of the properties its
    specification states about them.

    Number model.  A C++ [double] is embedded as an exact rational [Q]:
    sums, products, comparisons and [min]/[max] are those of the rationals,
    rounding is not modelled.  A quotient whose divisor is zero has no
    rational value (IEEE arithmetic yields an infinity or a NaN there); it
    is embedded as the outcome [Fault ZeroDivisor].  An array access outside
    the array is embedded as [Fault OutOfRange].  [ExitGracefully] ends the
    run; it is embedded as the outcome [Exit].  Where a property turns on
    the rounding of the doubles, the lines it is about are embedded a second
    time on binary64 floats, in [Binary64]. *)

From Stdlib Require Import Floats.PrimFloat.
From Stdlib Require Import QArith Lqa ZArith String Bool Lia List.
Import ListNotations.
Local Open Scope Q_scope.
Set Warnings "-inexact-float".

(* ================================================================== *)
(** ** Outcomes of a call *)
(* ================================================================== *)

(** Exit codes handed to [ExitGracefully] in this file. *)
Inductive exitcode : Type := BAD_DATA | STUB.

Inductive fault : Type := OutOfRange | ZeroDivisor.

Inductive outcome (A : Type) : Type :=
| Ret (a : A)
| Exit (statement : string) (code : exitcode)
| Fault (f : fault).

Arguments Ret {A} a.
Arguments Exit {A} statement code.
Arguments Fault {A} f.

Definition bind {A B : Type} (c : outcome A) (k : A -> outcome B) : outcome B :=
  match c with
  | Ret a => k a
  | Exit s code => Exit s code
  | Fault f => Fault f
  end.

Notation "x <- c ;; k" := (bind c (fun x => k))
  (at level 61, c at next level, right associativity).
Notation "' pat <- c ;; k" := (bind c (fun x => match x with pat => k end))
  (at level 61, pat pattern, c at next level, right associativity).
Notation "c ;;; k" := (bind c (fun _ => k))
  (at level 61, right associativity).

(** Modelled from the spec: [ExitGracefully] of RavenInclude.h is absent
    from the sources at hand; section 7 of the specification says that both
    error kinds halt execution, so the call never returns to its caller. *)
Definition ExitGracefully {A : Type} (statement : string) (code : exitcode)
  : outcome A := Exit statement code.

Definition ExitGracefullyIf (condition : bool) (statement : string)
  (code : exitcode) : outcome unit :=
  if condition then Exit statement code else Ret tt.

(* ================================================================== *)
(** ** Doubles and arrays of doubles *)
(* ================================================================== *)

(** Modelled from the spec: the two-argument [max] and [min] on doubles
    come from RavenInclude.h, which is absent; the specification uses them
    as the mathematical maximum and minimum. *)
Definition max (r l : Q) : Q := if Qle_bool l r then r else l.
Definition min (r l : Q) : Q := if Qle_bool r l then r else l.

(** Modelled from the spec: the smoothed threshold helpers of
    RavenInclude.h are absent.  This file calls them with smoothing
    coefficient [0.0] only, where section 4.4 of the specification reads
    them as plain [max] and [min]. *)
Definition threshPositive (val : Q) : Q := max val 0.
Definition threshMin (v1 v2 smooth_coeff : Q) : Q := min v1 v2.
Definition threshMax (v1 v2 smooth_coeff : Q) : Q := max v1 v2.

(** [a / b] on doubles. *)
Definition ddiv (a b : Q) : outcome Q :=
  if Qeq_bool b 0 then Fault ZeroDivisor else Ret (a / b).

Infix "//" := ddiv (at level 40, left associativity).

(** [a[i]] read through a [const double *]. *)
Definition read (a : list Q) (i : Z) : outcome Q :=
  if (i <? 0)%Z then Fault OutOfRange
  else match nth_error a (Z.to_nat i) with
       | Some v => Ret v
       | None => Fault OutOfRange
       end.

Fixpoint replace_nth (a : list Q) (i : nat) (v : Q) : option (list Q) :=
  match a, i with
  | [], _ => None
  | _ :: a', O => Some (v :: a')
  | x :: a', S i' =>
      match replace_nth a' i' v with
      | Some r => Some (x :: r)
      | None => None
      end
  end.

(** [a[i] = v] through a [double *]. *)
Definition write (a : list Q) (i : Z) (v : Q) : outcome (list Q) :=
  if (i <? 0)%Z then Fault OutOfRange
  else match replace_nth a (Z.to_nat i) v with
       | Some r => Ret r
       | None => Fault OutOfRange
       end.

(* ================================================================== *)
(** ** Collaborators: registry, spatial unit, options *)
(* ================================================================== *)

(** The state-variable types this file names. *)
Inductive sv_type : Type := CANOPY | CANOPY_SNOW | ATMOSPHERE | AET | TRUNK.

(** Modelled from the spec: the sentinel of RavenInclude.h for an absent
    state variable; Raven declares it as [-1]. *)
Definition DOESNT_EXIST : Z := (-1)%Z.

(** The part of [CModel] the movers use: the index of a state variable, or
    [DOESNT_EXIST]. *)
Record CModel : Type := { GetStateVarIndex : sv_type -> Z }.

(** Modelled from the spec: the [HRU_type] enumeration is declared in
    RavenInclude.h; the movers distinguish standard and wetland units from
    all the others. *)
Inductive HRU_type : Type := HRU_STANDARD | HRU_WETLAND | HRU_OTHER.

Definition HRU_type_eqb (a b : HRU_type) : bool :=
  match a, b with
  | HRU_STANDARD, HRU_STANDARD => true
  | HRU_WETLAND, HRU_WETLAND => true
  | HRU_OTHER, HRU_OTHER => true
  | _, _ => false
  end.

Record surface_struct : Type := { forest_coverage : Q }.
Record veg_var_struct : Type := { capacity : Q }.
Record veg_struct : Type :=
  { trunk_fraction : Q; stemflow_frac : Q; drip_proportion : Q }.
Record force_struct : Type := { PET : Q; wind_vel : Q }.

Record CHydroUnit : Type :=
  { GetHRUType : HRU_type;
    GetSurfaceProps : surface_struct;
    GetVegVarProps : veg_var_struct;
    GetVegetationProps : veg_struct;
    GetForcingFunctions : force_struct }.

Record optStruct : Type := { timestep : Q; suppressCompetitiveET : bool }.

(** The movers pass the time structure on and never inspect it. *)
Record time_struct : Type := { model_time : Q }.

(** The guard every mover starts with:
    [(GetHRUType()!=HRU_STANDARD) && (GetHRUType()!=HRU_WETLAND)]. *)
Definition not_applicable (pHRU : CHydroUnit) : bool :=
  negb (HRU_type_eqb (GetHRUType pHRU) HRU_STANDARD)
  && negb (HRU_type_eqb (GetHRUType pHRU) HRU_WETLAND).

(** The connection arrays of [CHydroProcessABC], sized by
    [DynamicSpecifyConnections]. *)
Record CHydroProcessABC : Type :=
  { nConnections : nat; iFrom : list Z; iTo : list Z }.

Definition at_ (l : list Z) (q : nat) : Z := nth q l DOESNT_EXIST.

(** Lines 122, 125-129 of canopy evaporation and 301, 303-307 of canopy
    sublimation, which are the same text: the value of the local [PET] when
    the algorithm selector is inspected. *)
Definition RemainingPET (pModel : CModel) (state_vars : list Q)
  (pHRU : CHydroUnit) (Options : optStruct) : outcome Q :=
  let PET := max (PET (GetForcingFunctions pHRU)) 0 in
  if negb (suppressCompetitiveET Options) then
    aet <- read state_vars (GetStateVarIndex pModel AET) ;;
    used <- aet // timestep Options ;;
    let PET := PET - used in
    Ret (max PET 0)
  else Ret PET.

(* ================================================================== *)
(** ** Out-parameters of the participating-list queries *)
(* ================================================================== *)

(** Modelled from the spec: [class_type] is declared in RavenInclude.h,
    which is absent; these are the three classes the canopy movers name. *)
Inductive class_type : Type := CLASS_LANDUSE | CLASS_VEGETATION | CLASS_GLOBAL.

Fixpoint replace_at {A : Type} (a : list A) (i : nat) (v : A)
  : option (list A) :=
  match a, i with
  | [], _ => None
  | _ :: a', O => Some (v :: a')
  | x :: a', S i' =>
      match replace_at a' i' v with
      | Some r => Some (x :: r)
      | None => None
      end
  end.

(** [a[i] = v] through a pointer to an array of any element type. *)
Definition store {A : Type} (a : list A) (i : Z) (v : A) : outcome (list A) :=
  if (i <? 0)%Z then Fault OutOfRange
  else match replace_at a (Z.to_nat i) v with
       | Some r => Ret r
       | None => Fault OutOfRange
       end.

Definition sv_type_eqb (a b : sv_type) : bool :=
  match a, b with
  | CANOPY, CANOPY => true
  | CANOPY_SNOW, CANOPY_SNOW => true
  | ATMOSPHERE, ATMOSPHERE => true
  | AET, AET => true
  | TRUNK, TRUNK => true
  | _, _ => false
  end.

(* ================================================================== *)
(** ** Canopy evaporation *)
(* ================================================================== *)

(** The three enumerators of VegetationMovers.h, and [CANEVP_UNDEFINED] for
    any other value the selector may hold: the [else] branches of the
    source are written for it. *)
Inductive canevap_type : Type :=
| CANEVP_RUTTER
| CANEVP_MAXIMUM
| CANEVP_ALL
| CANEVP_UNDEFINED.

Module CmvCanopyEvap.

Record t : Type := { type : canevap_type; conn : CHydroProcessABC }.

(** The constructor: two connections, canopy to atmosphere and the
    evapotranspiration ledger to itself. *)
Definition CmvCanopyEvap (pModel : CModel) (cetype : canevap_type) : t :=
  {| type := cetype;
     conn := {| nConnections := 2;
                iFrom := [GetStateVarIndex pModel CANOPY;
                          GetStateVarIndex pModel AET];
                iTo := [GetStateVarIndex pModel ATMOSPHERE;
                        GetStateVarIndex pModel AET] |} |}.

Definition GetRatesOfChange (pModel : CModel) (this : t)
  (state_vars : list Q) (pHRU : CHydroUnit) (Options : optStruct)
  (tt : time_struct) (rates : list Q) : outcome (list Q) :=
  if not_applicable pHRU then Ret rates else
  let Fc := forest_coverage (GetSurfaceProps pHRU) in
  let cap := capacity (GetVegVarProps pHRU) in
  rates <- write rates 0 0 ;;
  if Qeq_bool Fc 0 then Ret rates else
  canopy <- read state_vars (at_ (iFrom (conn this)) 0) ;;
  let stor := min (max canopy 0) (cap * Fc) in
  PET <- RemainingPET pModel state_vars pHRU Options ;;
  '(rates, PETused) <-
    match type this with
    | CANEVP_RUTTER =>
        let Ft := trunk_fraction (GetVegetationProps pHRU) in
        let Ft := if (GetStateVarIndex pModel TRUNK =? DOESNT_EXIST)%Z
                  then 0 else Ft in
        sat <- stor // (cap * Fc) ;;
        let rate := (1 - Ft) * Fc * PET * sat in
        rates <- write rates 0 rate ;;
        Ret (rates, rate)
    | CANEVP_MAXIMUM =>
        let rate := Fc * PET in
        rates <- write rates 0 rate ;;
        Ret (rates, rate)
    | CANEVP_ALL =>
        rate <- canopy // timestep Options ;;
        rates <- write rates 0 rate ;;
        Ret (rates, rate)
    | CANEVP_UNDEFINED =>
        ExitGracefully "CmvCanopyEvap: this process not coded yet" STUB
    end ;;
  write rates 1 PETused.

Definition ApplyConstraints (this : t)
  (state_vars : list Q) (pHRU : CHydroUnit) (Options : optStruct)
  (tt : time_struct) (rates : list Q) : outcome (list Q) :=
  if not_applicable pHRU then Ret rates else
  oldRates <- read rates 0 ;;
  (* must be positive *)
  rates <- write rates 0 (max oldRates 0) ;;
  (* cant remove more than is there *)
  r0 <- read rates 0 ;;
  canopy <- read state_vars (at_ (iFrom (conn this)) 0) ;;
  avail <- canopy // timestep Options ;;
  rates <- write rates 0 (min r0 avail) ;;
  (* update AET *)
  r0 <- read rates 0 ;;
  r1 <- read rates 1 ;;
  write rates 1 (r1 - (oldRates - r0)).

(** [Initialize]: the first connection must run from a canopy entry to an
    atmosphere entry.  [GetStateVarType] is the accessor of [CModel] that
    gives the type of the state variable at an index. *)
Definition Initialize (GetStateVarType : Z -> sv_type) (this : t)
  : outcome unit :=
  ExitGracefullyIf
    (negb (sv_type_eqb (GetStateVarType (at_ (iFrom (conn this)) 0)) CANOPY))
    "CmvCanopyEvap::Initialize:Canopy evaporation must come from canopy unit"
    BAD_DATA ;;;
  ExitGracefullyIf
    (negb (sv_type_eqb (GetStateVarType (at_ (iTo (conn this)) 0)) ATMOSPHERE))
    "CmvCanopyEvap::Initialize:Canopy evaporation must go to atmosphere"
    BAD_DATA.

(** [GetParticipatingParamList]: the names go to [aP], their classes to
    [aPC], their number is returned as [nP]. *)
Definition GetParticipatingParamList (this : t) (aP : list string)
  (aPC : list class_type) : outcome (list string * list class_type * Z) :=
  match type this with
  | CANEVP_RUTTER =>
      aP <- store aP 0 "FOREST_COVERAGE"%string ;;
      aPC <- store aPC 0 CLASS_LANDUSE ;;
      aP <- store aP 1 "MAX_CAPACITY"%string ;;
      aPC <- store aPC 1 CLASS_VEGETATION ;;
      aP <- store aP 2 "TRUNK_FRACTION"%string ;;
      aPC <- store aPC 2 CLASS_VEGETATION ;;
      Ret (aP, aPC, 3%Z)
  | CANEVP_MAXIMUM =>
      aP <- store aP 0 "FOREST_COVERAGE"%string ;;
      aPC <- store aPC 0 CLASS_LANDUSE ;;
      Ret (aP, aPC, 1%Z)
  | CANEVP_ALL => Ret (aP, aPC, 0%Z)
  | CANEVP_UNDEFINED =>
      ExitGracefully
        "CmvCanopyEvap::GetParticipatingParamList: undefined canopy evaporation algorithm"
        BAD_DATA
  end.

(** [GetParticipatingStateVarList], a static query: the selector is not
    looked at. *)
Definition GetParticipatingStateVarList (cetype : canevap_type)
  (aSV : list sv_type) (aLev : list Z)
  : outcome (list sv_type * list Z * Z) :=
  aSV <- store aSV 0 CANOPY ;;
  aLev <- store aLev 0 DOESNT_EXIST ;;
  aSV <- store aSV 1 ATMOSPHERE ;;
  aLev <- store aLev 1 DOESNT_EXIST ;;
  aSV <- store aSV 2 AET ;;
  aLev <- store aLev 2 DOESNT_EXIST ;;
  Ret (aSV, aLev, 3%Z).

End CmvCanopyEvap.

(* ================================================================== *)
(** ** Canopy snow sublimation *)
(* ================================================================== *)

(** Modelled from the spec: [sublimation_type] is declared in SnowMovers.h,
    which is absent.  The source names [SUBLIM_MAXIMUM], [SUBLIM_ALL] and
    [SUBLIM_SVERDRUP]; section 4.3 of the specification groups every
    remaining selector under the wind-driven variants ([SUBLIM_OTHER]). *)
Inductive sublimation_type : Type :=
| SUBLIM_MAXIMUM
| SUBLIM_ALL
| SUBLIM_SVERDRUP
| SUBLIM_OTHER.

Module CmvCanopySublimation.

Record t : Type := { type : sublimation_type; conn : CHydroProcessABC }.

Definition CmvCanopySublimation (pModel : CModel) (cetype : sublimation_type)
  : t :=
  {| type := cetype;
     conn := {| nConnections := 2;
                iFrom := [GetStateVarIndex pModel CANOPY_SNOW;
                          GetStateVarIndex pModel AET];
                iTo := [GetStateVarIndex pModel ATMOSPHERE;
                        GetStateVarIndex pModel AET] |} |}.

Section WithSublimationRate.

(** [SublimationRate] is defined in Sublimation.cpp and only declared
    here; the mover is embedded for an arbitrary one. *)
Variable SublimationRate :
  list Q -> CHydroUnit -> optStruct -> time_struct -> Q ->
  sublimation_type -> outcome Q.

Definition GetRatesOfChange (pModel : CModel) (this : t)
  (state_vars : list Q) (pHRU : CHydroUnit) (Options : optStruct)
  (tt : time_struct) (rates : list Q) : outcome (list Q) :=
  if not_applicable pHRU then Ret rates else
  let Fc := forest_coverage (GetSurfaceProps pHRU) in
  rates <- write rates 0 0 ;;
  if Qeq_bool Fc 0 then Ret rates else
  PET <- RemainingPET pModel state_vars pHRU Options ;;
  '(rates, PETused) <-
    match type this with
    | SUBLIM_MAXIMUM =>
        let rate := Fc * PET in
        rates <- write rates 0 rate ;;
        Ret (rates, rate)
    | SUBLIM_ALL =>
        snow <- read state_vars (at_ (iFrom (conn this)) 0) ;;
        rate <- snow // timestep Options ;;
        rates <- write rates 0 rate ;;
        Ret (rates, rate)
    | SUBLIM_SVERDRUP | SUBLIM_OTHER =>
        let wind_vel := wind_vel (GetForcingFunctions pHRU) in
        @ExitGracefully unit
          "SUBLIMATION CANOPY - must adjust wind velocity" STUB ;;;
        subl <- SublimationRate state_vars pHRU Options tt wind_vel
                  (type this) ;;
        rates <- write rates 0 (Fc * subl) ;;
        Ret (rates, 0)
    end ;;
  write rates 1 PETused.

End WithSublimationRate.

Definition ApplyConstraints (this : t)
  (state_vars : list Q) (pHRU : CHydroUnit) (Options : optStruct)
  (tt : time_struct) (rates : list Q) : outcome (list Q) :=
  if not_applicable pHRU then Ret rates else
  oldRates <- read rates 0 ;;
  (* cant remove more than is there *)
  snow <- read state_vars (at_ (iFrom (conn this)) 0) ;;
  avail <- snow // timestep Options ;;
  rates <- write rates 0 (min oldRates avail) ;;
  (* update AET *)
  r0 <- read rates 0 ;;
  r1 <- read rates 1 ;;
  write rates 1 (r1 - (oldRates - r0)).

Definition Initialize (GetStateVarType : Z -> sv_type) (this : t)
  : outcome unit :=
  ExitGracefullyIf
    (negb (sv_type_eqb (GetStateVarType (at_ (iFrom (conn this)) 0))
             CANOPY_SNOW))
    "CmvCanopySublimation::Initialize:Canopy evaporation must come from canopy unit"
    BAD_DATA ;;;
  ExitGracefullyIf
    (negb (sv_type_eqb (GetStateVarType (at_ (iTo (conn this)) 0)) ATMOSPHERE))
    "CmvCanopySublimation::Initialize:Canopy evaporation must go to atmosphere"
    BAD_DATA.

(** [GetParticipatingParamList]: there is no failing branch, every
    selector past the first two has no parameters. *)
Definition GetParticipatingParamList (this : t) (aP : list string)
  (aPC : list class_type) : outcome (list string * list class_type * Z) :=
  match type this with
  | SUBLIM_MAXIMUM =>
      aP <- store aP 0 "FOREST_COVERAGE"%string ;;
      aPC <- store aPC 0 CLASS_LANDUSE ;;
      Ret (aP, aPC, 1%Z)
  | SUBLIM_SVERDRUP =>
      aP <- store aP 0 "SNOW_ROUGHNESS"%string ;;
      aPC <- store aPC 0 CLASS_GLOBAL ;;
      Ret (aP, aPC, 1%Z)
  | SUBLIM_ALL | SUBLIM_OTHER => Ret (aP, aPC, 0%Z)
  end.

Definition GetParticipatingStateVarList (cs_type : sublimation_type)
  (aSV : list sv_type) (aLev : list Z)
  : outcome (list sv_type * list Z * Z) :=
  aSV <- store aSV 0 CANOPY_SNOW ;;
  aLev <- store aLev 0 DOESNT_EXIST ;;
  aSV <- store aSV 1 ATMOSPHERE ;;
  aLev <- store aLev 1 DOESNT_EXIST ;;
  aSV <- store aSV 2 AET ;;
  aLev <- store aLev 2 DOESNT_EXIST ;;
  Ret (aSV, aLev, 3%Z).

End CmvCanopySublimation.

(* ================================================================== *)
(** ** Canopy drip *)
(* ================================================================== *)

(** The two enumerators of VegetationMovers.h, and [CANDRIP_UNDEFINED] for
    any other value of the selector. *)
Inductive candrip_type : Type :=
| CANDRIP_RUTTER
| CANDRIP_SLOWDRAIN
| CANDRIP_UNDEFINED.

Module CmvCanopyDrip.

Record t : Type := { type : candrip_type; conn : CHydroProcessABC }.

Definition CmvCanopyDrip (pModel : CModel) (cdtype : candrip_type)
  (to_index : Z) : outcome t :=
  ExitGracefullyIf (to_index =? DOESNT_EXIST)%Z
    "CmvCanopyDrip Constructor: invalid to compartment specified"
    BAD_DATA ;;;
  let iCan := GetStateVarIndex pModel CANOPY in
  Ret {| type := cdtype;
         conn := {| nConnections := 1;
                    iFrom := [iCan];
                    iTo := [to_index] |} |}.

Definition GetRatesOfChange (pModel : CModel) (this : t)
  (state_vars : list Q) (pHRU : CHydroUnit) (Options : optStruct)
  (tt : time_struct) (rates : list Q) : outcome (list Q) :=
  if not_applicable pHRU then Ret rates else
  rates <- write rates 0 0 ;;
  let Fc := forest_coverage (GetSurfaceProps pHRU) in
  if Qeq_bool Fc 0 then Ret rates else
  stor <- read state_vars (at_ (iFrom (conn this)) 0) ;;
  let cap := capacity (GetVegVarProps pHRU) in
  match type this with
  | CANDRIP_RUTTER =>
      let p := stemflow_frac (GetVegetationProps pHRU) in
      let p := if (GetStateVarIndex pModel TRUNK <? 0)%Z then 0 else p in
      over <- (stor - Fc * cap) // timestep Options ;;
      write rates 0 ((1 - p) * threshMax over 0 0)
  | CANDRIP_SLOWDRAIN =>
      let drip := drip_proportion (GetVegetationProps pHRU) in
      over <- (stor - Fc * cap) // timestep Options ;;
      perFc <- stor // Fc ;;
      perFc' <- stor // Fc ;;
      perStep <- perFc' // timestep Options ;;
      write rates 0
        (threshPositive over + threshMin (drip * perFc) perStep 0)
  | CANDRIP_UNDEFINED => Ret rates
  end.

Definition ApplyConstraints (this : t)
  (state_vars : list Q) (pHRU : CHydroUnit) (Options : optStruct)
  (tt : time_struct) (rates : list Q) : outcome (list Q) :=
  if not_applicable pHRU then Ret rates else
  (* cant remove more than is there *)
  r0 <- read rates 0 ;;
  stor <- read state_vars (at_ (iFrom (conn this)) 0) ;;
  avail <- stor // timestep Options ;;
  write rates 0 (threshMin r0 avail 0).

(** [Initialize]: only the source of the drip is checked; the destination
    is the caller's choice. *)
Definition Initialize (GetStateVarType : Z -> sv_type) (this : t)
  : outcome unit :=
  ExitGracefullyIf
    (negb (sv_type_eqb (GetStateVarType (at_ (iFrom (conn this)) 0)) CANOPY))
    "CmvCanopyDrip::Initialize:Canopy drip must come from canopy unit"
    BAD_DATA.

Definition GetParticipatingParamList (this : t) (aP : list string)
  (aPC : list class_type) : outcome (list string * list class_type * Z) :=
  match type this with
  | CANDRIP_RUTTER =>
      aP <- store aP 0 "FOREST_COVERAGE"%string ;;
      aPC <- store aPC 0 CLASS_LANDUSE ;;
      aP <- store aP 1 "MAX_CAPACITY"%string ;;
      aPC <- store aPC 1 CLASS_VEGETATION ;;
      aP <- store aP 2 "STEMFLOW_FRAC"%string ;;
      aPC <- store aPC 2 CLASS_VEGETATION ;;
      Ret (aP, aPC, 3%Z)
  | CANDRIP_SLOWDRAIN =>
      aP <- store aP 0 "DRIP_PROPORTION"%string ;;
      aPC <- store aPC 0 CLASS_VEGETATION ;;
      aP <- store aP 1 "MAX_CAPACITY"%string ;;
      aPC <- store aPC 1 CLASS_VEGETATION ;;
      aP <- store aP 2 "FOREST_COVERAGE"%string ;;
      aPC <- store aPC 2 CLASS_LANDUSE ;;
      Ret (aP, aPC, 3%Z)
  | CANDRIP_UNDEFINED =>
      ExitGracefully
        "CmvCanopyDrip::GetParticipatingParamList: undefined canopy drip algorithm"
        BAD_DATA
  end.

(** [GetParticipatingStateVarList]: the destination is not declared, it is
    the caller's. *)
Definition GetParticipatingStateVarList (cdtype : candrip_type)
  (aSV : list sv_type) (aLev : list Z)
  : outcome (list sv_type * list Z * Z) :=
  aSV <- store aSV 0 CANOPY ;;
  aLev <- store aLev 0 DOESNT_EXIST ;;
  Ret (aSV, aLev, 1%Z).

End CmvCanopyDrip.

(* ================================================================== *)
(** ** The process interface *)
(* ================================================================== *)

(** The movers behind the virtual interface of [CHydroProcessABC]. *)
Inductive CanopyProcess : Type :=
| Evaporation (p : CmvCanopyEvap.t)
| Sublimation (p : CmvCanopySublimation.t)
| Drip (p : CmvCanopyDrip.t).

Definition connections (p : CanopyProcess) : CHydroProcessABC :=
  match p with
  | Evaporation e => CmvCanopyEvap.conn e
  | Sublimation s => CmvCanopySublimation.conn s
  | Drip d => CmvCanopyDrip.conn d
  end.

Section Dispatch.

Variable SublimationRate :
  list Q -> CHydroUnit -> optStruct -> time_struct -> Q ->
  sublimation_type -> outcome Q.

Definition GetRatesOfChange (pModel : CModel) (p : CanopyProcess)
  (state_vars : list Q) (pHRU : CHydroUnit) (Options : optStruct)
  (tt : time_struct) (rates : list Q) : outcome (list Q) :=
  match p with
  | Evaporation e =>
      CmvCanopyEvap.GetRatesOfChange pModel e state_vars pHRU Options tt rates
  | Sublimation s =>
      CmvCanopySublimation.GetRatesOfChange SublimationRate pModel s
        state_vars pHRU Options tt rates
  | Drip d =>
      CmvCanopyDrip.GetRatesOfChange pModel d state_vars pHRU Options tt rates
  end.

End Dispatch.

Definition ApplyConstraints (p : CanopyProcess)
  (state_vars : list Q) (pHRU : CHydroUnit) (Options : optStruct)
  (tt : time_struct) (rates : list Q) : outcome (list Q) :=
  match p with
  | Evaporation e =>
      CmvCanopyEvap.ApplyConstraints e state_vars pHRU Options tt rates
  | Sublimation s =>
      CmvCanopySublimation.ApplyConstraints s state_vars pHRU Options tt rates
  | Drip d =>
      CmvCanopyDrip.ApplyConstraints d state_vars pHRU Options tt rates
  end.

(** A unit the movers apply to. *)
Definition applicable (pHRU : CHydroUnit) : Prop :=
  GetHRUType pHRU = HRU_STANDARD \/ GetHRUType pHRU = HRU_WETLAND.

(** A sample registry, unit and options for concrete runs: canopy at index
    0, canopy snow at 1, atmosphere at 2, the ledger at 3, no trunk. *)
Definition registry_no_trunk : CModel :=
  {| GetStateVarIndex := fun sv =>
       match sv with
       | CANOPY => 0 | CANOPY_SNOW => 1 | ATMOSPHERE => 2 | AET => 3
       | TRUNK => DOESNT_EXIST
       end%Z |}.

Definition registry_with_trunk : CModel :=
  {| GetStateVarIndex := fun sv =>
       match sv with
       | CANOPY => 0 | CANOPY_SNOW => 1 | ATMOSPHERE => 2 | AET => 3
       | TRUNK => 4
       end%Z |}.

Definition mkHRU (ty : HRU_type) (Fc cap Ft p drip pet : Q) : CHydroUnit :=
  {| GetHRUType := ty;
     GetSurfaceProps := {| forest_coverage := Fc |};
     GetVegVarProps := {| capacity := cap |};
     GetVegetationProps :=
       {| trunk_fraction := Ft; stemflow_frac := p; drip_proportion := drip |};
     GetForcingFunctions := {| PET := pet; wind_vel := 0 |} |}.

Definition mkOptions (dt : Q) (suppress : bool) : optStruct :=
  {| timestep := dt; suppressCompetitiveET := suppress |}.

Definition t0 : time_struct := {| model_time := 0 |}.

Definition NoSublimationRate (_ : list Q) (_ : CHydroUnit) (_ : optStruct)
  (_ : time_struct) (_ : Q) (_ : sublimation_type) : outcome Q := Ret 0.

(** A process as one of the three constructors builds it. *)
Inductive constructed (pModel : CModel) : CanopyProcess -> Prop :=
| constructed_evap (cetype : canevap_type) :
    constructed pModel
      (Evaporation (CmvCanopyEvap.CmvCanopyEvap pModel cetype))
| constructed_subl (cetype : sublimation_type) :
    constructed pModel
      (Sublimation (CmvCanopySublimation.CmvCanopySublimation pModel cetype))
| constructed_drip (cdtype : candrip_type) (to_index : Z)
    (d : CmvCanopyDrip.t) :
    CmvCanopyDrip.CmvCanopyDrip pModel cdtype to_index = Ret d ->
    constructed pModel (Drip d).

(** The index of the compartment a process draws from, [iFrom[0]]. *)
Definition source (p : CanopyProcess) : Z := at_ (iFrom (connections p)) 0.

(** The processes that keep the evapotranspiration ledger in [rates[1]]. *)
Definition credits_AET (p : CanopyProcess) : bool :=
  match p with
  | Evaporation _ | Sublimation _ => true
  | Drip _ => false
  end.

(* ================================================================== *)
(** ** The timestep of one unit *)
(* ================================================================== *)

(** Modelled from the spec: the integrator is an external collaborator and
    is absent from the sources.  Sections 2, 5 and 6 of the specification
    give its contract: it goes through the processes in order; for each it
    calls [GetRatesOfChange] and then [ApplyConstraints] on the rate vector
    the first call produced, one entry per connection; it then applies the
    rates to the state vector, so that the next process reads the ledger
    the earlier ones left.  A connection moves [rate * timestep] from its
    source to its destination; on the ledger connection, whose source and
    destination are the same entry, the amount accumulates (the ledger is
    the running total of the consumption).  The rate vector is handed over
    zeroed, which is what makes the early returns of [GetRatesOfChange] the
    zero rates of section 4.1. *)
Definition MoveMass (Options : optStruct) (state_vars : list Q)
  (from to : Z) (rate : Q) : outcome (list Q) :=
  let moved := rate * timestep Options in
  if (from =? to)%Z then
    total <- read state_vars to ;;
    write state_vars to (total + moved)
  else
    source_value <- read state_vars from ;;
    state_vars <- write state_vars from (source_value - moved) ;;
    target_value <- read state_vars to ;;
    write state_vars to (target_value + moved).

(** Modelled from the spec: the rates of a process applied to the state
    vector, connection by connection (see [MoveMass]). *)
Fixpoint ApplyRates (Options : optStruct) (froms tos : list Z)
  (rates : list Q) (state_vars : list Q) : outcome (list Q) :=
  match froms, tos, rates with
  | from :: froms', to :: tos', rate :: rates' =>
      state_vars <- MoveMass Options state_vars from to rate ;;
      ApplyRates Options froms' tos' rates' state_vars
  | _, _, _ => Ret state_vars
  end.

Section Timestep.

Variable SublimationRate :
  list Q -> CHydroUnit -> optStruct -> time_struct -> Q ->
  sublimation_type -> outcome Q.

(** Modelled from the spec: one process of the timestep (see [MoveMass]);
    the result is the new state vector and the constrained rate vector. *)
Definition RunProcess (pModel : CModel) (p : CanopyProcess)
  (state_vars : list Q) (pHRU : CHydroUnit) (Options : optStruct)
  (tt : time_struct) : outcome (list Q * list Q) :=
  let zeroed := repeat 0 (nConnections (connections p)) in
  rates <- GetRatesOfChange SublimationRate pModel p state_vars pHRU Options
             tt zeroed ;;
  rates <- ApplyConstraints p state_vars pHRU Options tt rates ;;
  state_vars <- ApplyRates Options (iFrom (connections p))
                  (iTo (connections p)) rates state_vars ;;
  Ret (state_vars, rates).

(** Modelled from the spec: the processes of one timestep in order (see
    [MoveMass]); the result is the final state vector and the constrained
    rate vector of every process. *)
Fixpoint RunTimestep (pModel : CModel) (processes : list CanopyProcess)
  (state_vars : list Q) (pHRU : CHydroUnit) (Options : optStruct)
  (tt : time_struct) : outcome (list Q * list (list Q)) :=
  match processes with
  | [] => Ret (state_vars, [])
  | p :: later =>
      '(state_vars, rates) <- RunProcess pModel p state_vars pHRU Options tt ;;
      '(state_vars, log) <- RunTimestep pModel later state_vars pHRU Options
                              tt ;;
      Ret (state_vars, rates :: log)
  end.

End Timestep.

(** The evapotranspiration a constrained rate vector records, [rates[1]]. *)
Definition consumption (rates : list Q) : Q := nth 1 rates 0.

Fixpoint total_consumption (log : list (list Q)) : Q :=
  match log with
  | [] => 0
  | rates :: later => consumption rates + total_consumption later
  end.

(** The variants whose rate is a share of the remaining potential
    evapotranspiration: Rutter and Maximum evaporation, Maximum
    sublimation.  The All variants take the whole storage instead. *)
Definition PET_limited (p : CanopyProcess) : bool :=
  match p with
  | Evaporation e =>
      match CmvCanopyEvap.type e with
      | CANEVP_RUTTER | CANEVP_MAXIMUM => true
      | CANEVP_ALL | CANEVP_UNDEFINED => false
      end
  | Sublimation s =>
      match CmvCanopySublimation.type s with
      | SUBLIM_MAXIMUM => true
      | SUBLIM_ALL | SUBLIM_SVERDRUP | SUBLIM_OTHER => false
      end
  | Drip _ => false
  end.

(** The state vector holds the compartments the canopy movers touch, and
    the ledger is an entry of its own. *)
Definition registered (pModel : CModel) (state_vars : list Q) : Prop :=
  (forall sv : sv_type,
      sv <> TRUNK ->
      (0 <= GetStateVarIndex pModel sv < Z.of_nat (length state_vars))%Z)
  /\ (forall sv : sv_type,
         sv <> AET -> GetStateVarIndex pModel sv <> GetStateVarIndex pModel AET).

(* ================================================================== *)
(** ** Vocabulary of the properties *)
(* ================================================================== *)

(** Whether the constraint of a process clamps the rate from below: only
    canopy evaporation has the line [rates[0]=max(rates[0],0.0)]. *)
Definition lower_clamp (p : CanopyProcess) : bool :=
  match p with
  | Evaporation _ => true
  | Sublimation _ | Drip _ => false
  end.

Definition drip_to_atmosphere : CmvCanopyDrip.t :=
  {| CmvCanopyDrip.type := CANDRIP_RUTTER;
     CmvCanopyDrip.conn :=
       {| nConnections := 1; iFrom := [0%Z]; iTo := [2%Z] |} |}.

(** The rate vectors whose entries are all zero. *)
Definition zero_rates (rates : list Q) : Prop :=
  Forall (fun r => r == 0) rates.

(** The selectors of canopy sublimation that have a formula of their own
    in this file. *)
Definition sublimation_coded (ty : sublimation_type) : bool :=
  match ty with
  | SUBLIM_MAXIMUM | SUBLIM_ALL => true
  | SUBLIM_SVERDRUP | SUBLIM_OTHER => false
  end.

(** The participating-list queries behind the process interface. *)
Definition GetParticipatingParamList (p : CanopyProcess) (aP : list string)
  (aPC : list class_type) : outcome (list string * list class_type * Z) :=
  match p with
  | Evaporation e => CmvCanopyEvap.GetParticipatingParamList e aP aPC
  | Sublimation s => CmvCanopySublimation.GetParticipatingParamList s aP aPC
  | Drip d => CmvCanopyDrip.GetParticipatingParamList d aP aPC
  end.

(** The static query of the class of a process, at the selector the
    process holds. *)
Definition GetParticipatingStateVarList (p : CanopyProcess)
  (aSV : list sv_type) (aLev : list Z)
  : outcome (list sv_type * list Z * Z) :=
  match p with
  | Evaporation e =>
      CmvCanopyEvap.GetParticipatingStateVarList (CmvCanopyEvap.type e)
        aSV aLev
  | Sublimation s =>
      CmvCanopySublimation.GetParticipatingStateVarList
        (CmvCanopySublimation.type s) aSV aLev
  | Drip d =>
      CmvCanopyDrip.GetParticipatingStateVarList (CmvCanopyDrip.type d)
        aSV aLev
  end.

Definition Initialize (GetStateVarType : Z -> sv_type) (p : CanopyProcess)
  : outcome unit :=
  match p with
  | Evaporation e => CmvCanopyEvap.Initialize GetStateVarType e
  | Sublimation s => CmvCanopySublimation.Initialize GetStateVarType s
  | Drip d => CmvCanopyDrip.Initialize GetStateVarType d
  end.

(** What a query declares: the first [n] entries of its two arrays. *)
Definition declared {A B : Type} (r : list A * list B * Z) : list (A * B) :=
  let '(names, kinds, n) := r in firstn (Z.to_nat n) (combine names kinds).

(** Whether the selector of a process is one of the declared enumerators
    (canopy sublimation has no other selector in this file). *)
Definition selector_defined (p : CanopyProcess) : bool :=
  match p with
  | Evaporation e =>
      match CmvCanopyEvap.type e with
      | CANEVP_UNDEFINED => false
      | _ => true
      end
  | Sublimation _ => true
  | Drip d =>
      match CmvCanopyDrip.type d with
      | CANDRIP_UNDEFINED => false
      | _ => true
      end
  end.

(** The state variable a process must draw from. *)
Definition source_type (p : CanopyProcess) : sv_type :=
  match p with
  | Evaporation _ | Drip _ => CANOPY
  | Sublimation _ => CANOPY_SNOW
  end.

Section Pair.

Variable SublimationRate :
  list Q -> CHydroUnit -> optStruct -> time_struct -> Q ->
  sublimation_type -> outcome Q.

(** The two calls of the per-timestep interface in their order:
    [ApplyConstraints] receives the rate vector [GetRatesOfChange] left. *)
Definition ConstrainedRates (pModel : CModel) (p : CanopyProcess)
  (state_vars : list Q) (pHRU : CHydroUnit) (Options : optStruct)
  (tt : time_struct) (rates : list Q) : outcome (list Q) :=
  rates <- GetRatesOfChange SublimationRate pModel p state_vars pHRU Options
             tt rates ;;
  ApplyConstraints p state_vars pHRU Options tt rates.

End Pair.

(** Rate vectors equal entry by entry as rationals. *)
Definition same_rates (a b : list Q) : Prop := Forall2 Qeq a b.

(** The parameters each selector asks for, as a table; it is what
    [GetParticipatingParamList] is compared with. *)
Definition parameter_table (p : CanopyProcess) : list (string * class_type) :=
  match p with
  | Evaporation e =>
      match CmvCanopyEvap.type e with
      | CANEVP_RUTTER =>
          [("FOREST_COVERAGE"%string, CLASS_LANDUSE);
           ("MAX_CAPACITY"%string, CLASS_VEGETATION);
           ("TRUNK_FRACTION"%string, CLASS_VEGETATION)]
      | CANEVP_MAXIMUM => [("FOREST_COVERAGE"%string, CLASS_LANDUSE)]
      | CANEVP_ALL | CANEVP_UNDEFINED => []
      end
  | Sublimation s =>
      match CmvCanopySublimation.type s with
      | SUBLIM_MAXIMUM => [("FOREST_COVERAGE"%string, CLASS_LANDUSE)]
      | SUBLIM_SVERDRUP => [("SNOW_ROUGHNESS"%string, CLASS_GLOBAL)]
      | SUBLIM_ALL | SUBLIM_OTHER => []
      end
  | Drip d =>
      match CmvCanopyDrip.type d with
      | CANDRIP_RUTTER =>
          [("FOREST_COVERAGE"%string, CLASS_LANDUSE);
           ("MAX_CAPACITY"%string, CLASS_VEGETATION);
           ("STEMFLOW_FRAC"%string, CLASS_VEGETATION)]
      | CANDRIP_SLOWDRAIN =>
          [("DRIP_PROPORTION"%string, CLASS_VEGETATION);
           ("MAX_CAPACITY"%string, CLASS_VEGETATION);
           ("FOREST_COVERAGE"%string, CLASS_LANDUSE)]
      | CANDRIP_UNDEFINED => []
      end
  end.

(** Whether [GetRatesOfChange] has a formula for the selector of a
    process: it has for the three enumerators of canopy evaporation and for
    Maximum and All sublimation; canopy drip leaves the rate at zero for a
    selector it does not know. *)
Definition has_formula (p : CanopyProcess) : bool :=
  match p with
  | Evaporation e =>
      match CmvCanopyEvap.type e with
      | CANEVP_UNDEFINED => false
      | _ => true
      end
  | Sublimation s => sublimation_coded (CmvCanopySublimation.type s)
  | Drip _ => true
  end.

(** The number of leading entries of the rate vector a process writes. *)
Definition entries_written (p : CanopyProcess) : nat :=
  if credits_AET p then 2%nat else 1%nat.

(** [b] has the length of [a] and its entries from index [n] on. *)
Definition frame (n : nat) (a b : list Q) : Prop :=
  length b = length a
  /\ forall i, (n <= i)%nat -> nth_error b i = nth_error a i.

(* ================================================================== *)
(** ** The Rutter lines on binary64 doubles *)
(* ================================================================== *)

Module Binary64.

Local Open Scope float_scope.

(** Modelled from the spec: [max] and [min] of RavenInclude.h, as above,
    on doubles. *)
Definition max (r l : float) : float := if l <=? r then r else l.
Definition min (r l : float) : float := if r <=? l then r else l.

(** Lines 122, 125-129 of canopy evaporation on doubles: the local [PET]
    from the forcing PET, the ledger entry and the timestep. *)
Definition RemainingPET (suppressCompetitiveET : bool)
  (forcing_PET currentAET timestep : float) : float :=
  let PET := max forcing_PET 0 in
  if negb suppressCompetitiveET then
    let PET := PET - currentAET / timestep in
    max PET 0
  else PET.

(** Lines 117-118, 123 and 133-136 of canopy evaporation on doubles: the
    Rutter rate from the forest coverage, the capacity, the trunk fraction,
    the canopy storage and the local [PET]; [trunk_index] is
    [GetStateVarIndex(TRUNK)]. *)
Definition Rutter_rate (trunk_index : Z)
  (Fc cap trunk_fraction canopy PET : float) : float :=
  let stor := min (max canopy 0) (cap * Fc) in
  let Ft := trunk_fraction in
  let Ft := if (trunk_index =? DOESNT_EXIST)%Z then 0 else Ft in
  (1 - Ft) * Fc * PET * (stor / (cap * Fc)).

End Binary64.

(* ================================================================== *)
(** ** Basic facts *)
(* ================================================================== *)

Lemma Qle_bool_false (a b : Q) : Qle_bool a b = false -> b < a.
Proof.
  intros E. apply Qnot_le_lt. intros H.
  apply Qle_bool_iff in H. congruence.
Qed.

(** Case analysis on every comparison [min] and [max] make. *)
Ltac minmax :=
  unfold threshMin, threshMax, threshPositive, min, max in *;
  repeat match goal with
    | |- context [Qle_bool ?a ?b] =>
        let E := fresh "E" in
        destruct (Qle_bool a b) eqn:E;
        [apply Qle_bool_iff in E | apply Qle_bool_false in E]
    end.

Lemma max_lower (r l : Q) : l <= max r l.
Proof. minmax; lra. Qed.

Lemma max_left (r l : Q) : r <= max r l.
Proof. minmax; lra. Qed.

Lemma min_upper (r l : Q) : min r l <= l.
Proof. minmax; lra. Qed.

Lemma min_left (r l : Q) : min r l <= r.
Proof. minmax; lra. Qed.

Lemma min_lower (r l c : Q) : c <= r -> c <= l -> c <= min r l.
Proof. intros; minmax; lra. Qed.

Lemma ddiv_defined (a b : Q) : ~ b == 0 -> a // b = Ret (a / b).
Proof.
  intros Hb. unfold ddiv.
  destruct (Qeq_bool b 0) eqn:E; [|reflexivity].
  apply Qeq_bool_iff in E. contradiction.
Qed.

Lemma ddiv_zero (a b : Q) : b == 0 -> a // b = Fault ZeroDivisor.
Proof.
  intros Hb. unfold ddiv.
  apply Qeq_bool_iff in Hb. now rewrite Hb.
Qed.

Lemma applicable_guard (pHRU : CHydroUnit) :
  applicable pHRU -> not_applicable pHRU = false.
Proof. unfold applicable, not_applicable. intros [-> | ->]; reflexivity. Qed.

Lemma not_applicable_guard (pHRU : CHydroUnit) :
  ~ applicable pHRU -> not_applicable pHRU = true.
Proof.
  unfold applicable, not_applicable.
  destruct (GetHRUType pHRU); intros H; try reflexivity;
    exfalso; apply H; auto.
Qed.

Lemma Qeq_bool_false (a b : Q) : ~ a == b -> Qeq_bool a b = false.
Proof.
  intros H. destruct (Qeq_bool a b) eqn:E; [|reflexivity].
  apply Qeq_bool_iff in E. contradiction.
Qed.

Lemma drip_source (pModel : CModel) (cdtype : candrip_type) (to_index : Z)
  (d : CmvCanopyDrip.t) :
  CmvCanopyDrip.CmvCanopyDrip pModel cdtype to_index = Ret d ->
  d = {| CmvCanopyDrip.type := cdtype;
         CmvCanopyDrip.conn :=
           {| nConnections := 1;
              iFrom := [GetStateVarIndex pModel CANOPY];
              iTo := [to_index] |} |}.
Proof.
  unfold CmvCanopyDrip.CmvCanopyDrip, ExitGracefullyIf.
  destruct (to_index =? DOESNT_EXIST)%Z; simpl; congruence.
Qed.

(* ================================================================== *)
(** ** Constraint application *)
(* ================================================================== *)

(** C1 (no overdraft).  For every canopy process, every state vector, every
    applicable unit, every positive timestep and every rate vector of the
    process's size, [ApplyConstraints] returns, and the rate it leaves in
    entry 0 is at most the source storage divided by the timestep. *)
Theorem ApplyConstraints_no_overdraft (pModel : CModel) (p : CanopyProcess)
  (state_vars : list Q) (pHRU : CHydroUnit) (Options : optStruct)
  (tt : time_struct) (rates : list Q) (storage : Q) :
  constructed pModel p ->
  applicable pHRU ->
  0 < timestep Options ->
  length rates = nConnections (connections p) ->
  read state_vars (source p) = Ret storage ->
  exists rates' r0',
    ApplyConstraints p state_vars pHRU Options tt rates = Ret rates'
    /\ nth_error rates' 0 = Some r0'
    /\ r0' <= storage / timestep Options.
Proof.
  intros Hp Happ Hdt Hlen Hsrc.
  assert (Hnz : ~ timestep Options == 0) by lra.
  destruct Hp as [ty | ty | ty to_index d Hd].
  - destruct rates as [|r0 [|r1 [|]]]; try discriminate Hlen.
    unfold source in Hsrc. simpl in Hsrc |- *.
    unfold CmvCanopyEvap.ApplyConstraints.
    rewrite (applicable_guard _ Happ). simpl.
    rewrite Hsrc. simpl. rewrite (ddiv_defined _ _ Hnz). simpl.
    eexists; eexists; repeat split. apply min_upper.
  - destruct rates as [|r0 [|r1 [|]]]; try discriminate Hlen.
    unfold source in Hsrc. simpl in Hsrc |- *.
    unfold CmvCanopySublimation.ApplyConstraints.
    rewrite (applicable_guard _ Happ). simpl.
    rewrite Hsrc. simpl. rewrite (ddiv_defined _ _ Hnz). simpl.
    eexists; eexists; repeat split. apply min_upper.
  - apply drip_source in Hd. subst d.
    destruct rates as [|r0 [|]]; try discriminate Hlen.
    unfold source in Hsrc. simpl in Hsrc |- *.
    unfold CmvCanopyDrip.ApplyConstraints.
    rewrite (applicable_guard _ Happ). simpl.
    rewrite Hsrc. simpl. rewrite (ddiv_defined _ _ Hnz). simpl.
    eexists; eexists; repeat split. apply min_upper.
Qed.

Lemma ApplyConstraints_no_overdraft_witness :
  exists rates' r0',
    ApplyConstraints
      (Evaporation (CmvCanopyEvap.CmvCanopyEvap registry_no_trunk CANEVP_RUTTER))
      [2; 0; 0; 0] (mkHRU HRU_STANDARD 0.5 4 0 0 0 4) (mkOptions 1 false) t0
      [5; 5] = Ret rates'
    /\ nth_error rates' 0 = Some r0'
    /\ r0' <= 2 / timestep (mkOptions 1 false).
Proof.
  apply (ApplyConstraints_no_overdraft registry_no_trunk).
  - constructor.
  - left; reflexivity.
  - reflexivity.
  - reflexivity.
  - reflexivity.
Defined.

Lemma drip_to_atmosphere_constructed :
  CmvCanopyDrip.CmvCanopyDrip registry_no_trunk CANDRIP_RUTTER 2
  = Ret drip_to_atmosphere.
Proof. reflexivity. Qed.

(** C2, as stated, fails.  Sublimation has no lower clamp, so a negative
    incoming rate stays negative; drip takes the minimum with the available
    storage, so a negative storage makes the rate negative.  Both runs are
    on an applicable unit with timestep 1. *)
Lemma ApplyConstraints_negative_rate :
  (constructed registry_no_trunk
     (Sublimation
        (CmvCanopySublimation.CmvCanopySublimation registry_no_trunk
           SUBLIM_MAXIMUM))
   /\ applicable (mkHRU HRU_STANDARD 0.5 4 0 0 0 4)
   /\ 0 < timestep (mkOptions 1 false)
   /\ ApplyConstraints
        (Sublimation
           (CmvCanopySublimation.CmvCanopySublimation registry_no_trunk
              SUBLIM_MAXIMUM))
        [0; 5; 0; 0] (mkHRU HRU_STANDARD 0.5 4 0 0 0 4) (mkOptions 1 false)
        t0 [-1; -1] = Ret [-1; -1]
   /\ ~ 0 <= -1)
  /\
  (constructed registry_no_trunk (Drip drip_to_atmosphere)
   /\ ApplyConstraints (Drip drip_to_atmosphere)
        [-2; 0; 0; 0] (mkHRU HRU_STANDARD 0.5 4 0 0 0 4) (mkOptions 1 false)
        t0 [1] = Ret [-2]
   /\ ~ 0 <= -2).
Proof.
  split.
  - split; [constructor|].
    split; [left; reflexivity|].
    split; [reflexivity|].
    split; [reflexivity|].
    lra.
  - split; [exact (constructed_drip _ _ _ _ drip_to_atmosphere_constructed)|].
    split; [reflexivity|].
    lra.
Qed.

(** C2 (amended).  For every constructed canopy process, applicable unit
    and positive timestep, when the source storage is not negative and
    either the process is canopy evaporation (whose constraint clamps at
    zero) or the incoming rate is not negative, [ApplyConstraints] returns
    and the rate it leaves in entry 0 is not negative. *)
Theorem ApplyConstraints_nonnegative (pModel : CModel) (p : CanopyProcess)
  (state_vars : list Q) (pHRU : CHydroUnit) (Options : optStruct)
  (tt : time_struct) (rates : list Q) (storage r0 : Q) :
  constructed pModel p ->
  applicable pHRU ->
  0 < timestep Options ->
  length rates = nConnections (connections p) ->
  read state_vars (source p) = Ret storage ->
  0 <= storage ->
  nth_error rates 0 = Some r0 ->
  lower_clamp p = true \/ 0 <= r0 ->
  exists rates' r0',
    ApplyConstraints p state_vars pHRU Options tt rates = Ret rates'
    /\ nth_error rates' 0 = Some r0'
    /\ 0 <= r0'.
Proof.
  intros Hp Happ Hdt Hlen Hsrc Hsto Hr0 Hlow.
  assert (Hnz : ~ timestep Options == 0) by lra.
  assert (Hav : 0 <= storage / timestep Options).
  { apply Qle_shift_div_l; [exact Hdt | lra]. }
  destruct Hp as [ty | ty | ty to_index d Hd].
  - destruct rates as [|x [|r1 [|]]]; try discriminate Hlen.
    injection Hr0 as ->.
    unfold source in Hsrc. simpl in Hsrc |- *.
    unfold CmvCanopyEvap.ApplyConstraints.
    rewrite (applicable_guard _ Happ). simpl.
    rewrite Hsrc. simpl. rewrite (ddiv_defined _ _ Hnz). simpl.
    eexists; eexists; repeat split.
    apply min_lower; [apply max_lower | exact Hav].
  - destruct rates as [|x [|r1 [|]]]; try discriminate Hlen.
    injection Hr0 as ->.
    destruct Hlow as [Hlow | Hlow]; [discriminate Hlow|].
    unfold source in Hsrc. simpl in Hsrc |- *.
    unfold CmvCanopySublimation.ApplyConstraints.
    rewrite (applicable_guard _ Happ). simpl.
    rewrite Hsrc. simpl. rewrite (ddiv_defined _ _ Hnz). simpl.
    eexists; eexists; repeat split.
    apply min_lower; assumption.
  - apply drip_source in Hd. subst d.
    destruct rates as [|x [|]]; try discriminate Hlen.
    injection Hr0 as ->.
    destruct Hlow as [Hlow | Hlow]; [discriminate Hlow|].
    unfold source in Hsrc. simpl in Hsrc |- *.
    unfold CmvCanopyDrip.ApplyConstraints.
    rewrite (applicable_guard _ Happ). simpl.
    rewrite Hsrc. simpl. rewrite (ddiv_defined _ _ Hnz). simpl.
    eexists; eexists; repeat split.
    unfold threshMin. apply min_lower; assumption.
Qed.

Lemma ApplyConstraints_nonnegative_witness :
  exists rates' r0',
    ApplyConstraints
      (Sublimation
         (CmvCanopySublimation.CmvCanopySublimation registry_no_trunk
            SUBLIM_ALL))
      [0; 2; 0; 0] (mkHRU HRU_WETLAND 0.5 4 0 0 0 4) (mkOptions 1 false) t0
      [5; 5] = Ret rates'
    /\ nth_error rates' 0 = Some r0'
    /\ 0 <= r0'.
Proof.
  apply (ApplyConstraints_nonnegative registry_no_trunk _ _ _ _ _ _ 2 5).
  - constructor.
  - right; reflexivity.
  - reflexivity.
  - reflexivity.
  - reflexivity.
  - unfold Qle; simpl; lia.
  - reflexivity.
  - right; unfold Qle; simpl; lia.
Defined.

(** C3 (ledger reconciliation).  For canopy evaporation and canopy
    sublimation on an applicable unit, [ApplyConstraints] turns the rate
    vector [r0; r1] into [r0'; r1 - (r0 - r0')], where [r0'] is the clamped
    rate: the ledger entry moves by exactly the clamping delta, and stays
    as it was when clamping leaves the rate as it was.  In Scenario D
    (rate 5, storage 2, timestep 1) the clamped rate is 2 and the ledger
    entry is 3 lower. *)
Theorem ApplyConstraints_ledger_delta :
  (forall (pModel : CModel) (p : CanopyProcess) (state_vars : list Q)
          (pHRU : CHydroUnit) (Options : optStruct) (tt : time_struct)
          (r0 r1 storage : Q),
      constructed pModel p ->
      credits_AET p = true ->
      applicable pHRU ->
      ~ timestep Options == 0 ->
      read state_vars (source p) = Ret storage ->
      exists r0',
        ApplyConstraints p state_vars pHRU Options tt [r0; r1]
        = Ret [r0'; r1 - (r0 - r0')]
        /\ r0' = (if lower_clamp p
                  then min (max r0 0) (storage / timestep Options)
                  else min r0 (storage / timestep Options))
        /\ (r0' == r0 -> r1 - (r0 - r0') == r1))
  /\
  (forall ledger : Q,
      exists r0' r1',
        ApplyConstraints
          (Evaporation
             (CmvCanopyEvap.CmvCanopyEvap registry_no_trunk CANEVP_MAXIMUM))
          [2; 0; 0; 0] (mkHRU HRU_STANDARD 0.5 4 0 0 0 4)
          (mkOptions 1 false) t0 [5; ledger] = Ret [r0'; r1']
        /\ r0' == 2 /\ r1' == ledger - 3).
Proof.
  split.
  - intros pModel p sv pHRU Options tt r0 r1 storage Hp Hled Happ Hnz Hsrc.
    destruct Hp as [ty | ty | ty to_index d Hd]; [| |discriminate Hled].
    + unfold source in Hsrc. simpl in Hsrc |- *.
      unfold CmvCanopyEvap.ApplyConstraints.
      rewrite (applicable_guard _ Happ). simpl.
      rewrite Hsrc. simpl. rewrite (ddiv_defined _ _ Hnz). simpl.
      eexists; repeat split. intros H. rewrite H. lra.
    + unfold source in Hsrc. simpl in Hsrc |- *.
      unfold CmvCanopySublimation.ApplyConstraints.
      rewrite (applicable_guard _ Happ). simpl.
      rewrite Hsrc. simpl. rewrite (ddiv_defined _ _ Hnz). simpl.
      eexists; repeat split. intros H. rewrite H. lra.
  - intros ledger. eexists; eexists. split; [reflexivity|].
    split; [reflexivity|].
    vm_compute min. lra.
Qed.

Lemma ApplyConstraints_ledger_delta_witness :
  exists r0',
    ApplyConstraints
      (Sublimation
         (CmvCanopySublimation.CmvCanopySublimation registry_no_trunk
            SUBLIM_MAXIMUM))
      [0; 2; 0; 0] (mkHRU HRU_STANDARD 0.5 4 0 0 0 4) (mkOptions 1 false) t0
      [5; 4] = Ret [r0'; 4 - (5 - r0')]
    /\ r0' = (if lower_clamp
                   (Sublimation
                      (CmvCanopySublimation.CmvCanopySublimation
                         registry_no_trunk SUBLIM_MAXIMUM))
              then min (max 5 0) (2 / timestep (mkOptions 1 false))
              else min 5 (2 / timestep (mkOptions 1 false)))
    /\ (r0' == 5 -> 4 - (5 - r0') == 4).
Proof.
  apply (proj1 ApplyConstraints_ledger_delta registry_no_trunk).
  - constructor.
  - reflexivity.
  - left; reflexivity.
  - discriminate.
  - reflexivity.
Defined.

(* ================================================================== *)
(** ** Rate computation *)
(* ================================================================== *)

(** C6 (the budget of potential evapotranspiration).  With competitive-ET
    suppression enabled the budget is [max PET 0]; with suppression
    disabled it is [max (max PET 0 - AET / timestep) 0], where [AET] is the
    ledger entry of the state vector.  Canopy evaporation and canopy
    sublimation use that budget: on an applicable unit with positive forest
    coverage their Maximum variants return [Fc * budget] in both
    entries. *)
Theorem RemainingPET_budget (pModel : CModel) (state_vars : list Q)
  (pHRU : CHydroUnit) (Options : optStruct) :
  (suppressCompetitiveET Options = true ->
   RemainingPET pModel state_vars pHRU Options
   = Ret (max (PET (GetForcingFunctions pHRU)) 0))
  /\
  (forall currentAET : Q,
      suppressCompetitiveET Options = false ->
      ~ timestep Options == 0 ->
      read state_vars (GetStateVarIndex pModel AET) = Ret currentAET ->
      RemainingPET pModel state_vars pHRU Options
      = Ret (max (max (PET (GetForcingFunctions pHRU)) 0
                  - currentAET / timestep Options) 0))
  /\
  (forall (SublimationRate :
             list Q -> CHydroUnit -> optStruct -> time_struct -> Q ->
             sublimation_type -> outcome Q)
          (p : CanopyProcess) (tt : time_struct) (r0 r1 storage budget : Q),
      p = Evaporation (CmvCanopyEvap.CmvCanopyEvap pModel CANEVP_MAXIMUM)
      \/ p = Sublimation
               (CmvCanopySublimation.CmvCanopySublimation pModel
                  SUBLIM_MAXIMUM) ->
      applicable pHRU ->
      0 < forest_coverage (GetSurfaceProps pHRU) ->
      read state_vars (source p) = Ret storage ->
      RemainingPET pModel state_vars pHRU Options = Ret budget ->
      GetRatesOfChange SublimationRate pModel p state_vars pHRU Options tt
        [r0; r1]
      = Ret [forest_coverage (GetSurfaceProps pHRU) * budget;
             forest_coverage (GetSurfaceProps pHRU) * budget]).
Proof.
  split; [|split].
  - intros Hs. unfold RemainingPET. rewrite Hs. reflexivity.
  - intros aet Hs Hnz Hrd. unfold RemainingPET. rewrite Hs. simpl.
    rewrite Hrd. simpl. rewrite (ddiv_defined _ _ Hnz). reflexivity.
  - intros SR p tt r0 r1 storage budget Hp Happ HFc Hsrc Hb.
    assert (HFc0 : ~ forest_coverage (GetSurfaceProps pHRU) == 0) by lra.
    destruct Hp as [-> | ->]; unfold source in Hsrc; simpl in Hsrc |- *.
    + unfold CmvCanopyEvap.GetRatesOfChange.
      rewrite (applicable_guard _ Happ). simpl.
      rewrite (Qeq_bool_false _ _ HFc0). rewrite Hsrc. simpl.
      rewrite Hb. reflexivity.
    + unfold CmvCanopySublimation.GetRatesOfChange.
      rewrite (applicable_guard _ Happ). simpl.
      rewrite (Qeq_bool_false _ _ HFc0). rewrite Hb. reflexivity.
Qed.

Lemma RemainingPET_budget_witness :
  RemainingPET registry_no_trunk [2; 0; 0; 1]
    (mkHRU HRU_STANDARD 0.5 4 0 0 0 4) (mkOptions 2 false)
  = Ret (max (max (PET (GetForcingFunctions
                          (mkHRU HRU_STANDARD 0.5 4 0 0 0 4))) 0
              - 1 / timestep (mkOptions 2 false)) 0).
Proof.
  apply (proj1 (proj2 (RemainingPET_budget registry_no_trunk [2; 0; 0; 1]
                         (mkHRU HRU_STANDARD 0.5 4 0 0 0 4)
                         (mkOptions 2 false)))).
  - reflexivity.
  - discriminate.
  - reflexivity.
Defined.

(** The run of the Rutter variant past its guards, when the divisor
    [cap * Fc] is not zero. *)
Lemma Rutter_run (pModel : CModel) (state_vars : list Q) (pHRU : CHydroUnit)
  (Options : optStruct) (tt : time_struct) (r0 r1 storage budget : Q) :
  let Fc := forest_coverage (GetSurfaceProps pHRU) in
  let cap := capacity (GetVegVarProps pHRU) in
  let Ft := if (GetStateVarIndex pModel TRUNK =? DOESNT_EXIST)%Z
            then 0 else trunk_fraction (GetVegetationProps pHRU) in
  let rate := (1 - Ft) * Fc * budget
              * (min (max storage 0) (cap * Fc) / (cap * Fc)) in
  applicable pHRU ->
  ~ cap * Fc == 0 ->
  read state_vars (GetStateVarIndex pModel CANOPY) = Ret storage ->
  RemainingPET pModel state_vars pHRU Options = Ret budget ->
  CmvCanopyEvap.GetRatesOfChange pModel
    (CmvCanopyEvap.CmvCanopyEvap pModel CANEVP_RUTTER)
    state_vars pHRU Options tt [r0; r1] = Ret [rate; rate].
Proof.
  intros Fc cap Ft rate Happ Hden Hsrc Hb.
  assert (HFc0 : ~ Fc == 0).
  { intros H. apply Hden. rewrite H. ring. }
  unfold CmvCanopyEvap.GetRatesOfChange.
  rewrite (applicable_guard _ Happ).
  cbn [CmvCanopyEvap.CmvCanopyEvap CmvCanopyEvap.conn CmvCanopyEvap.type
       iFrom at_ nth write replace_nth Z.ltb Z.compare Z.to_nat bind].
  fold Fc cap. rewrite (Qeq_bool_false _ _ HFc0).
  rewrite Hsrc. cbn [bind]. rewrite Hb. cbn [bind].
  rewrite (ddiv_defined _ _ Hden). reflexivity.
Qed.




(** C7, as stated, fails: on a unit that is neither standard nor wetland
    the rate vector comes back as it went in, and on an applicable unit
    without forest the ledger entry comes back as it went in. *)
Lemma GetRatesOfChange_keeps_prior_contents :
  (~ applicable (mkHRU HRU_OTHER 0.5 4 0 0 0 4)
   /\ GetRatesOfChange NoSublimationRate registry_no_trunk
        (Evaporation
           (CmvCanopyEvap.CmvCanopyEvap registry_no_trunk CANEVP_MAXIMUM))
        [2; 0; 0; 0] (mkHRU HRU_OTHER 0.5 4 0 0 0 4) (mkOptions 1 false) t0
        [5; 7] = Ret [5; 7]
   /\ ~ zero_rates [5; 7])
  /\
  (applicable (mkHRU HRU_STANDARD 0 4 0 0 0 4)
   /\ forest_coverage (GetSurfaceProps (mkHRU HRU_STANDARD 0 4 0 0 0 4)) == 0
   /\ GetRatesOfChange NoSublimationRate registry_no_trunk
        (Evaporation
           (CmvCanopyEvap.CmvCanopyEvap registry_no_trunk CANEVP_MAXIMUM))
        [2; 0; 0; 0] (mkHRU HRU_STANDARD 0 4 0 0 0 4) (mkOptions 1 false) t0
        [5; 7] = Ret [0; 7]
   /\ ~ zero_rates [0; 7]).
Proof.
  split.
  - split.
    { intros [H | H]; discriminate H. }
    split; [reflexivity|].
    intros H. inversion H as [|x l H5 _]. discriminate H5.
  - split; [left; reflexivity|].
    split; [reflexivity|].
    split; [reflexivity|].
    intros H. inversion H as [|x l _ H']. inversion H' as [|y l' H7 _].
    discriminate H7.
Qed.

(** C7 (amended).  On a unit that is neither standard nor wetland
    [GetRatesOfChange] of every canopy process returns the rate vector as
    it received it; on an applicable unit with zero forest coverage it sets
    entry 0 to zero and returns the other entries as it received them.  So
    every entry returned is zero when every entry passed in was zero,
    whatever the potential evapotranspiration and the storage. *)
Theorem GetRatesOfChange_short_circuit
  (SublimationRate :
     list Q -> CHydroUnit -> optStruct -> time_struct -> Q ->
     sublimation_type -> outcome Q)
  (pModel : CModel) (p : CanopyProcess) (state_vars : list Q)
  (pHRU : CHydroUnit) (Options : optStruct) (tt : time_struct)
  (r0 : Q) (others : list Q) :
  (~ applicable pHRU ->
   GetRatesOfChange SublimationRate pModel p state_vars pHRU Options tt
     (r0 :: others) = Ret (r0 :: others))
  /\
  (applicable pHRU ->
   forest_coverage (GetSurfaceProps pHRU) == 0 ->
   GetRatesOfChange SublimationRate pModel p state_vars pHRU Options tt
     (r0 :: others) = Ret (0 :: others))
  /\
  (~ applicable pHRU \/ forest_coverage (GetSurfaceProps pHRU) == 0 ->
   zero_rates (r0 :: others) ->
   exists rates',
     GetRatesOfChange SublimationRate pModel p state_vars pHRU Options tt
       (r0 :: others) = Ret rates'
     /\ zero_rates rates').
Proof.
  assert (Hna : ~ applicable pHRU ->
                GetRatesOfChange SublimationRate pModel p state_vars pHRU
                  Options tt (r0 :: others) = Ret (r0 :: others)).
  { intros H. apply not_applicable_guard in H.
    destruct p; simpl;
      [unfold CmvCanopyEvap.GetRatesOfChange
      |unfold CmvCanopySublimation.GetRatesOfChange
      |unfold CmvCanopyDrip.GetRatesOfChange];
      rewrite H; reflexivity. }
  assert (Hfc : applicable pHRU ->
                forest_coverage (GetSurfaceProps pHRU) == 0 ->
                GetRatesOfChange SublimationRate pModel p state_vars pHRU
                  Options tt (r0 :: others) = Ret (0 :: others)).
  { intros H H0. apply applicable_guard in H. apply Qeq_bool_iff in H0.
    destruct p; simpl;
      [unfold CmvCanopyEvap.GetRatesOfChange
      |unfold CmvCanopySublimation.GetRatesOfChange
      |unfold CmvCanopyDrip.GetRatesOfChange];
      rewrite H; simpl; rewrite H0; reflexivity. }
  split; [exact Hna|]. split; [exact Hfc|].
  intros Hcase Hzero.
  destruct (not_applicable pHRU) eqn:Hg.
  - exists (r0 :: others). split; [|exact Hzero].
    apply Hna. intros Happ. apply applicable_guard in Happ. congruence.
  - destruct Hcase as [Hcase | Hcase].
    + apply not_applicable_guard in Hcase. congruence.
    + exists (0 :: others). split.
      * apply Hfc; [|exact Hcase].
        unfold applicable. unfold not_applicable in Hg.
        destruct (GetHRUType pHRU); auto; discriminate Hg.
      * inversion Hzero; subst. constructor; [reflexivity | assumption].
Qed.

Lemma GetRatesOfChange_short_circuit_witness :
  GetRatesOfChange NoSublimationRate registry_no_trunk
    (Sublimation
       (CmvCanopySublimation.CmvCanopySublimation registry_no_trunk
          SUBLIM_ALL))
    [2; 3; 0; 0] (mkHRU HRU_WETLAND 0 4 0 0 0 4) (mkOptions 1 false) t0
    [5; 7] = Ret [0; 7]
  /\ GetRatesOfChange NoSublimationRate registry_no_trunk
       (Drip drip_to_atmosphere) [2; 0; 0; 0]
       (mkHRU HRU_OTHER 0.5 4 0 0 0 4) (mkOptions 1 false) t0 [6]
     = Ret [6].
Proof.
  split.
  - apply (proj1 (proj2 (GetRatesOfChange_short_circuit NoSublimationRate
                           registry_no_trunk
                           (Sublimation
                              (CmvCanopySublimation.CmvCanopySublimation
                                 registry_no_trunk SUBLIM_ALL))
                           [2; 3; 0; 0] (mkHRU HRU_WETLAND 0 4 0 0 0 4)
                           (mkOptions 1 false) t0 5 [7]))).
    + right; reflexivity.
    + reflexivity.
  - apply (proj1 (GetRatesOfChange_short_circuit NoSublimationRate
                    registry_no_trunk (Drip drip_to_atmosphere) [2; 0; 0; 0]
                    (mkHRU HRU_OTHER 0.5 4 0 0 0 4) (mkOptions 1 false) t0
                    6 [])).
    intros [H | H]; discriminate H.
Defined.

(** C8 (Rutter drip).  On an applicable unit with positive forest coverage
    the Rutter variant of canopy drip returns
    [(1 - p) * max ((storage - Fc * cap) / timestep) 0] in entry 0, where
    [p] is the stemflow fraction, taken as 0 when no TRUNK state variable
    is registered.  In Scenario C the rate is 0.8. *)
Theorem GetRatesOfChange_drip_Rutter :
  (forall (pModel : CModel) (to_index : Z) (d : CmvCanopyDrip.t)
          (state_vars : list Q) (pHRU : CHydroUnit) (Options : optStruct)
          (tt : time_struct) (r0 storage : Q),
      let Fc := forest_coverage (GetSurfaceProps pHRU) in
      let cap := capacity (GetVegVarProps pHRU) in
      let p := stemflow_frac (GetVegetationProps pHRU) in
      CmvCanopyDrip.CmvCanopyDrip pModel CANDRIP_RUTTER to_index = Ret d ->
      applicable pHRU ->
      0 < Fc ->
      ~ timestep Options == 0 ->
      read state_vars (GetStateVarIndex pModel CANOPY) = Ret storage ->
      exists rate,
        CmvCanopyDrip.GetRatesOfChange pModel d state_vars pHRU Options tt
          [r0] = Ret [rate]
        /\ (GetStateVarIndex pModel TRUNK = DOESNT_EXIST ->
            rate == (1 - 0)
                    * max ((storage - Fc * cap) / timestep Options) 0)
        /\ ((0 <= GetStateVarIndex pModel TRUNK)%Z ->
            rate == (1 - p)
                    * max ((storage - Fc * cap) / timestep Options) 0))
  /\
  (exists d rate,
      CmvCanopyDrip.CmvCanopyDrip registry_with_trunk CANDRIP_RUTTER 2%Z = Ret d
      /\ CmvCanopyDrip.GetRatesOfChange registry_with_trunk d
           [3; 0; 0; 0; 0] (mkHRU HRU_STANDARD 0.5 4 0 0.2 0 0)
           (mkOptions 1 false) t0 [0] = Ret [rate]
      /\ rate == 0.8).
Proof.
  split.
  - intros pModel to_index d sv pHRU Options tt r0 storage Fc cap p
      Hd Happ HFc Hnz Hsrc.
    assert (HFc0 : ~ Fc == 0) by lra.
    apply drip_source in Hd. subst d.
    unfold CmvCanopyDrip.GetRatesOfChange.
    rewrite (applicable_guard _ Happ).
    cbn [CmvCanopyDrip.conn CmvCanopyDrip.type
         iFrom at_ nth write replace_nth Z.ltb Z.compare Z.to_nat bind].
    fold Fc cap p. rewrite (Qeq_bool_false _ _ HFc0).
    rewrite Hsrc. cbn [bind]. rewrite (ddiv_defined _ _ Hnz).
    cbn [bind]. unfold threshMax.
    eexists. split; [reflexivity|]. split; intros Ht.
    + rewrite Ht. reflexivity.
    + apply Z.ltb_ge in Ht. rewrite Ht. reflexivity.
  - eexists; eexists. split; [reflexivity|]. split; reflexivity.
Qed.

Lemma GetRatesOfChange_drip_Rutter_witness :
  exists rate,
    CmvCanopyDrip.GetRatesOfChange registry_no_trunk drip_to_atmosphere
      [3; 0; 0; 0] (mkHRU HRU_WETLAND 0.5 4 0 0.2 0 0)
      (mkOptions 2 false) t0 [7] = Ret [rate]
    /\ (GetStateVarIndex registry_no_trunk TRUNK = DOESNT_EXIST ->
        rate == (1 - 0) * max ((3 - 0.5 * 4) / timestep (mkOptions 2 false)) 0)
    /\ ((0 <= GetStateVarIndex registry_no_trunk TRUNK)%Z ->
        rate == (1 - 0.2)
                * max ((3 - 0.5 * 4) / timestep (mkOptions 2 false)) 0).
Proof.
  apply (proj1 GetRatesOfChange_drip_Rutter registry_no_trunk 2%Z
           drip_to_atmosphere [3; 0; 0; 0]
           (mkHRU HRU_WETLAND 0.5 4 0 0.2 0 0) (mkOptions 2 false) t0 7 3).
  - reflexivity.
  - right; reflexivity.
  - reflexivity.
  - discriminate.
  - reflexivity.
Defined.

(** C9 (stubs are fatal).  On an applicable unit with positive forest
    coverage, [GetRatesOfChange] of canopy evaporation with a selector
    other than Rutter, Maximum and All, and of canopy sublimation with a
    selector other than Maximum and All, ends in [ExitGracefully] with code
    [STUB]: no rate vector is returned, whatever the external sublimation
    formula computes. *)
Theorem GetRatesOfChange_stub_is_fatal
  (SublimationRate :
     list Q -> CHydroUnit -> optStruct -> time_struct -> Q ->
     sublimation_type -> outcome Q)
  (pModel : CModel) (state_vars : list Q) (pHRU : CHydroUnit)
  (Options : optStruct) (tt : time_struct) (r0 r1 budget : Q) :
  applicable pHRU ->
  0 < forest_coverage (GetSurfaceProps pHRU) ->
  RemainingPET pModel state_vars pHRU Options = Ret budget ->
  (forall (cetype : canevap_type) (storage : Q),
      cetype <> CANEVP_RUTTER ->
      cetype <> CANEVP_MAXIMUM ->
      cetype <> CANEVP_ALL ->
      read state_vars (GetStateVarIndex pModel CANOPY) = Ret storage ->
      GetRatesOfChange SublimationRate pModel
        (Evaporation (CmvCanopyEvap.CmvCanopyEvap pModel cetype))
        state_vars pHRU Options tt [r0; r1]
      = Exit "CmvCanopyEvap: this process not coded yet" STUB)
  /\
  (forall cetype : sublimation_type,
      sublimation_coded cetype = false ->
      GetRatesOfChange SublimationRate pModel
        (Sublimation
           (CmvCanopySublimation.CmvCanopySublimation pModel cetype))
        state_vars pHRU Options tt [r0; r1]
      = Exit "SUBLIMATION CANOPY - must adjust wind velocity" STUB).
Proof.
  intros Happ HFc Hb.
  assert (HFc0 : ~ forest_coverage (GetSurfaceProps pHRU) == 0) by lra.
  split.
  - intros cetype storage H1 H2 H3 Hsrc.
    destruct cetype; try congruence.
    simpl. unfold CmvCanopyEvap.GetRatesOfChange.
    rewrite (applicable_guard _ Happ).
    cbn [CmvCanopyEvap.CmvCanopyEvap CmvCanopyEvap.conn CmvCanopyEvap.type
         iFrom at_ nth write replace_nth Z.ltb Z.compare Z.to_nat bind].
    rewrite (Qeq_bool_false _ _ HFc0), Hsrc. cbn [bind].
    rewrite Hb. reflexivity.
  - intros cetype Hty.
    simpl. unfold CmvCanopySublimation.GetRatesOfChange.
    rewrite (applicable_guard _ Happ).
    cbn [CmvCanopySublimation.CmvCanopySublimation CmvCanopySublimation.conn
         CmvCanopySublimation.type
         iFrom at_ nth write replace_nth Z.ltb Z.compare Z.to_nat bind].
    rewrite (Qeq_bool_false _ _ HFc0), Hb.
    destruct cetype; try discriminate Hty; reflexivity.
Qed.

Lemma GetRatesOfChange_stub_is_fatal_witness :
  GetRatesOfChange NoSublimationRate registry_no_trunk
    (Evaporation
       (CmvCanopyEvap.CmvCanopyEvap registry_no_trunk CANEVP_UNDEFINED))
    [2; 1; 0; 0] (mkHRU HRU_STANDARD 0.5 4 0 0 0 4) (mkOptions 1 false)
    t0 [0; 0]
  = Exit "CmvCanopyEvap: this process not coded yet" STUB
  /\ GetRatesOfChange NoSublimationRate registry_no_trunk
       (Sublimation
          (CmvCanopySublimation.CmvCanopySublimation registry_no_trunk
             SUBLIM_SVERDRUP))
       [2; 1; 0; 0] (mkHRU HRU_STANDARD 0.5 4 0 0 0 4) (mkOptions 1 false)
       t0 [0; 0]
     = Exit "SUBLIMATION CANOPY - must adjust wind velocity" STUB.
Proof.
  destruct (GetRatesOfChange_stub_is_fatal NoSublimationRate
              registry_no_trunk [2; 1; 0; 0]
              (mkHRU HRU_STANDARD 0.5 4 0 0 0 4) (mkOptions 1 false) t0
              0 0 4 (or_introl eq_refl) eq_refl eq_refl) as [Hevap Hsubl].
  split.
  - apply (Hevap CANEVP_UNDEFINED 2); try discriminate. reflexivity.
  - apply (Hsubl SUBLIM_SVERDRUP). reflexivity.
Defined.

(** C10, as stated, fails: the quotient is defined without a positive
    capacity too.  With capacity -1 and forest coverage 0.6 on an
    applicable unit the divisor is -0.6, the storage 2 is clamped to -0.6
    and the call returns the rate 2.4 in both entries. *)
Lemma Rutter_negative_capacity_returns :
  applicable (mkHRU HRU_STANDARD 0.6 (-1) 0.3 0 0 4)
  /\ 0 < forest_coverage (GetSurfaceProps (mkHRU HRU_STANDARD 0.6 (-1) 0.3 0 0 4))
  /\ ~ 0 < capacity (GetVegVarProps (mkHRU HRU_STANDARD 0.6 (-1) 0.3 0 0 4))
  /\ exists rate,
       CmvCanopyEvap.GetRatesOfChange registry_no_trunk
         (CmvCanopyEvap.CmvCanopyEvap registry_no_trunk CANEVP_RUTTER)
         [2; 0; 0; 0] (mkHRU HRU_STANDARD 0.6 (-1) 0.3 0 0 4)
         (mkOptions 1 false) t0 [0; 0] = Ret [rate; rate]
       /\ rate == 2.4
       /\ PrimFloat.eqb
            (Binary64.Rutter_rate DOESNT_EXIST 0.6 (-1) 0.3 2
               (Binary64.RemainingPET false 4 0 1))
            2.4 = true.
Proof.
  split; [left; reflexivity|]. split; [reflexivity|].
  split; [intros H; discriminate H|].
  eexists. split; [reflexivity|]. split; [reflexivity|].
  vm_compute. reflexivity.
Qed.

(** C10 (amended).  The Rutter variant of canopy evaporation divides by
    [cap * Fc] without a guard on [cap].  On an applicable unit with
    positive forest coverage the quotient is defined, and the call returns
    a rate, exactly when the capacity is not zero: so for a capacity that
    is not negative, only when it is positive.  When the capacity is zero
    the clamped storage is zero and the call ends in the quotient of zero
    by zero, [Fault ZeroDivisor]; on the doubles of the code that quotient
    is a NaN, and so is the rate (here for forest coverage 0.6, storage 2
    and PET 4). *)
Theorem GetRatesOfChange_Rutter_capacity (pModel : CModel)
  (state_vars : list Q) (pHRU : CHydroUnit) (Options : optStruct)
  (tt : time_struct) (r0 r1 storage budget : Q) :
  let Fc := forest_coverage (GetSurfaceProps pHRU) in
  let cap := capacity (GetVegVarProps pHRU) in
  let run := CmvCanopyEvap.GetRatesOfChange pModel
               (CmvCanopyEvap.CmvCanopyEvap pModel CANEVP_RUTTER)
               state_vars pHRU Options tt [r0; r1] in
  applicable pHRU ->
  0 < Fc ->
  read state_vars (GetStateVarIndex pModel CANOPY) = Ret storage ->
  RemainingPET pModel state_vars pHRU Options = Ret budget ->
  (0 < cap -> exists rate, run = Ret [rate; rate])
  /\ (cap == 0 ->
      min (max storage 0) (cap * Fc) == 0 /\ run = Fault ZeroDivisor)
  /\ ((exists rates', run = Ret rates') <-> ~ cap == 0)
  /\ (0 <= cap -> (exists rates', run = Ret rates') -> 0 < cap)
  /\ PrimFloat.is_nan
       (Binary64.Rutter_rate DOESNT_EXIST 0.6 0 0.3 2
          (Binary64.RemainingPET false 4 0 1)) = true.
Proof.
  intros Fc cap run Happ HFc Hsrc Hb.
  assert (HFc0 : ~ Fc == 0) by lra.
  assert (Hzero : cap == 0 -> run = Fault ZeroDivisor).
  { intros Hcap. unfold run, CmvCanopyEvap.GetRatesOfChange.
    rewrite (applicable_guard _ Happ).
    cbn [CmvCanopyEvap.CmvCanopyEvap CmvCanopyEvap.conn CmvCanopyEvap.type
         iFrom at_ nth write replace_nth Z.ltb Z.compare Z.to_nat bind].
    fold Fc cap. rewrite (Qeq_bool_false _ _ HFc0), Hsrc. cbn [bind].
    rewrite Hb. cbn [bind].
    rewrite ddiv_zero; [reflexivity|]. rewrite Hcap. ring. }
  assert (Hreturns : ~ cap == 0 -> exists rate, run = Ret [rate; rate]).
  { intros Hcap.
    assert (Hden : ~ cap * Fc == 0).
    { intros H. apply Qmult_integral in H. destruct H; contradiction. }
    eexists. unfold run.
    apply (Rutter_run pModel state_vars pHRU Options tt r0 r1 storage budget
             Happ Hden Hsrc Hb). }
  assert (Honly : (exists rates', run = Ret rates') -> ~ cap == 0).
  { intros [rates' Hrun] Hcap. rewrite (Hzero Hcap) in Hrun.
    discriminate Hrun. }
  split; [|split; [|split; [split|split]]].
  - intros Hcap. apply Hreturns. lra.
  - intros Hcap. split; [|exact (Hzero Hcap)].
    assert (Hden : cap * Fc == 0) by (rewrite Hcap; ring).
    pose proof (max_lower storage 0) as Hm.
    pose proof (min_upper (max storage 0) (cap * Fc)) as Hu.
    pose proof (min_lower (max storage 0) (cap * Fc) 0 Hm) as Hl.
    apply Qle_antisym; [lra | apply Hl; lra].
  - exact Honly.
  - intros Hcap. destruct (Hreturns Hcap) as [rate Hrun]. eauto.
  - intros Hcap Hrun. apply Honly in Hrun. lra.
  - vm_compute. reflexivity.
Qed.

Lemma GetRatesOfChange_Rutter_capacity_witness :
  min (max 2 0)
    (capacity (GetVegVarProps (mkHRU HRU_STANDARD 0.6 0 0.3 0 0 4))
     * forest_coverage (GetSurfaceProps (mkHRU HRU_STANDARD 0.6 0 0.3 0 0 4)))
  == 0
  /\ CmvCanopyEvap.GetRatesOfChange registry_no_trunk
       (CmvCanopyEvap.CmvCanopyEvap registry_no_trunk CANEVP_RUTTER)
       [2; 0; 0; 0] (mkHRU HRU_STANDARD 0.6 0 0.3 0 0 4)
       (mkOptions 1 false) t0 [0; 0] = Fault ZeroDivisor.
Proof.
  apply (proj1 (proj2 (GetRatesOfChange_Rutter_capacity registry_no_trunk
                         [2; 0; 0; 0] (mkHRU HRU_STANDARD 0.6 0 0.3 0 0 4)
                         (mkOptions 1 false) t0 0 0 2 4
                         (or_introl eq_refl) eq_refl eq_refl eq_refl))).
  reflexivity.
Defined.

(* ================================================================== *)
(** ** Arrays *)
(* ================================================================== *)

Lemma replace_nth_some (a : list Q) (i : nat) (v : Q) :
  (i < length a)%nat ->
  exists a',
    replace_nth a i v = Some a'
    /\ length a' = length a
    /\ nth_error a' i = Some v
    /\ forall j, j <> i -> nth_error a' j = nth_error a j.
Proof.
  revert i. induction a as [|x a IH]; intros i Hi; simpl in Hi; [lia|].
  destruct i as [|i].
  - exists (v :: a). repeat split.
    intros j Hj. destruct j; [contradiction | reflexivity].
  - destruct (IH i) as [a' [Hr [Hl [Hn Ho]]]]; [lia|].
    exists (x :: a'). simpl. rewrite Hr. repeat split.
    + simpl. now rewrite Hl.
    + exact Hn.
    + intros j Hj. destruct j; [reflexivity|].
      simpl. apply Ho. intros ->. contradiction.
Qed.

Lemma read_defined (a : list Q) (i : Z) :
  (0 <= i < Z.of_nat (length a))%Z -> exists v, read a i = Ret v.
Proof.
  intros Hi. unfold read.
  destruct (i <? 0)%Z eqn:E; [apply Z.ltb_lt in E; lia|].
  destruct (nth_error a (Z.to_nat i)) eqn:En; [eauto|].
  apply nth_error_None in En. lia.
Qed.

Lemma write_defined (a : list Q) (i : Z) (v : Q) :
  (0 <= i < Z.of_nat (length a))%Z ->
  exists a',
    write a i v = Ret a'
    /\ length a' = length a
    /\ read a' i = Ret v
    /\ forall j, j <> i -> read a' j = read a j.
Proof.
  intros Hi. unfold write, read.
  destruct (i <? 0)%Z eqn:E; [apply Z.ltb_lt in E; lia|].
  destruct (replace_nth_some a (Z.to_nat i) v) as [a' [Hr [Hl [Hn Ho]]]];
    [lia|].
  exists a'. rewrite Hr, Hn. repeat split; [exact Hl|].
  intros j Hj. destruct (j <? 0)%Z eqn:Ej; [reflexivity|].
  apply Z.ltb_ge in Ej. rewrite Ho; [reflexivity|]. lia.
Qed.

Lemma MoveMass_elsewhere (Options : optStruct) (state_vars : list Q)
  (from to k : Z) (rate : Q) :
  (0 <= from < Z.of_nat (length state_vars))%Z ->
  (0 <= to < Z.of_nat (length state_vars))%Z ->
  k <> from -> k <> to ->
  exists state_vars',
    MoveMass Options state_vars from to rate = Ret state_vars'
    /\ length state_vars' = length state_vars
    /\ read state_vars' k = read state_vars k.
Proof.
  intros Hf Ht Hkf Hkt. unfold MoveMass.
  destruct (from =? to)%Z.
  - destruct (read_defined _ _ Ht) as [v Hv]. rewrite Hv. cbn [bind].
    destruct (write_defined state_vars to
                (v + rate * timestep Options) Ht) as [s' [Hw [Hl [_ Ho]]]].
    exists s'. rewrite Hw. repeat split; [exact Hl|]. now apply Ho.
  - destruct (read_defined _ _ Hf) as [v Hv]. rewrite Hv. cbn [bind].
    destruct (write_defined state_vars from
                (v - rate * timestep Options) Hf) as [s1 [Hw1 [Hl1 [_ Ho1]]]].
    rewrite Hw1. cbn [bind].
    rewrite <- Hl1 in Ht.
    destruct (read_defined _ _ Ht) as [w Hw]. rewrite Hw. cbn [bind].
    destruct (write_defined s1 to
                (w + rate * timestep Options) Ht) as [s2 [Hw2 [Hl2 [_ Ho2]]]].
    exists s2. rewrite Hw2. repeat split; [congruence|].
    rewrite Ho2 by assumption. now apply Ho1.
Qed.

Lemma MoveMass_ledger (Options : optStruct) (state_vars : list Q)
  (k : Z) (rate total : Q) :
  (0 <= k < Z.of_nat (length state_vars))%Z ->
  read state_vars k = Ret total ->
  exists state_vars',
    MoveMass Options state_vars k k rate = Ret state_vars'
    /\ length state_vars' = length state_vars
    /\ read state_vars' k = Ret (total + rate * timestep Options).
Proof.
  intros Hk Hv. unfold MoveMass. rewrite Z.eqb_refl, Hv. cbn [bind].
  destruct (write_defined state_vars k
              (total + rate * timestep Options) Hk) as [s' [Hw [Hl [Hr _]]]].
  exists s'. rewrite Hw. auto.
Qed.

(* ================================================================== *)
(** ** Runs of the movers past their guards *)
(* ================================================================== *)

Lemma RemainingPET_competitive (pModel : CModel) (state_vars : list Q)
  (pHRU : CHydroUnit) (Options : optStruct) (currentAET : Q) :
  suppressCompetitiveET Options = false ->
  ~ timestep Options == 0 ->
  read state_vars (GetStateVarIndex pModel AET) = Ret currentAET ->
  RemainingPET pModel state_vars pHRU Options
  = Ret (max (max (PET (GetForcingFunctions pHRU)) 0
              - currentAET / timestep Options) 0).
Proof.
  intros Hs Hnz Hrd. unfold RemainingPET. rewrite Hs. cbn [negb].
  rewrite Hrd. cbn [bind]. rewrite (ddiv_defined _ _ Hnz). reflexivity.
Qed.

Lemma evap_Maximum_run (pModel : CModel) (state_vars : list Q)
  (pHRU : CHydroUnit) (Options : optStruct) (tt : time_struct)
  (r0 r1 storage budget : Q) :
  applicable pHRU ->
  ~ forest_coverage (GetSurfaceProps pHRU) == 0 ->
  read state_vars (GetStateVarIndex pModel CANOPY) = Ret storage ->
  RemainingPET pModel state_vars pHRU Options = Ret budget ->
  CmvCanopyEvap.GetRatesOfChange pModel
    (CmvCanopyEvap.CmvCanopyEvap pModel CANEVP_MAXIMUM)
    state_vars pHRU Options tt [r0; r1]
  = Ret [forest_coverage (GetSurfaceProps pHRU) * budget;
         forest_coverage (GetSurfaceProps pHRU) * budget].
Proof.
  intros Happ HFc0 Hsrc Hb.
  unfold CmvCanopyEvap.GetRatesOfChange.
  rewrite (applicable_guard _ Happ).
  cbn [CmvCanopyEvap.CmvCanopyEvap CmvCanopyEvap.conn CmvCanopyEvap.type
       iFrom at_ nth write replace_nth Z.ltb Z.compare Z.to_nat bind].
  rewrite (Qeq_bool_false _ _ HFc0), Hsrc. cbn [bind].
  rewrite Hb. reflexivity.
Qed.

Lemma subl_Maximum_run
  (SublimationRate :
     list Q -> CHydroUnit -> optStruct -> time_struct -> Q ->
     sublimation_type -> outcome Q)
  (pModel : CModel) (state_vars : list Q)
  (pHRU : CHydroUnit) (Options : optStruct) (tt : time_struct)
  (r0 r1 budget : Q) :
  applicable pHRU ->
  ~ forest_coverage (GetSurfaceProps pHRU) == 0 ->
  RemainingPET pModel state_vars pHRU Options = Ret budget ->
  CmvCanopySublimation.GetRatesOfChange SublimationRate pModel
    (CmvCanopySublimation.CmvCanopySublimation pModel SUBLIM_MAXIMUM)
    state_vars pHRU Options tt [r0; r1]
  = Ret [forest_coverage (GetSurfaceProps pHRU) * budget;
         forest_coverage (GetSurfaceProps pHRU) * budget].
Proof.
  intros Happ HFc0 Hb.
  unfold CmvCanopySublimation.GetRatesOfChange.
  rewrite (applicable_guard _ Happ).
  cbn [CmvCanopySublimation.CmvCanopySublimation CmvCanopySublimation.conn
       CmvCanopySublimation.type
       iFrom at_ nth write replace_nth Z.ltb Z.compare Z.to_nat bind].
  rewrite (Qeq_bool_false _ _ HFc0), Hb. reflexivity.
Qed.

Lemma read_head (x : Q) (l : list Q) : read (x :: l) 0 = Ret x.
Proof. reflexivity. Qed.

Lemma read_second (x y : Q) (l : list Q) : read (x :: y :: l) 1 = Ret y.
Proof. reflexivity. Qed.

Lemma write_head (x : Q) (l : list Q) (v : Q) :
  write (x :: l) 0 v = Ret (v :: l).
Proof. reflexivity. Qed.

Lemma write_second (x y : Q) (l : list Q) (v : Q) :
  write (x :: y :: l) 1 v = Ret (x :: v :: l).
Proof. reflexivity. Qed.

(** Steps through the accesses to a rate vector given entry by entry. *)
Ltac rate_accesses :=
  repeat progress
    (rewrite ?read_head, ?read_second, ?write_head, ?write_second;
     cbn [bind]).

Lemma evap_constraints_run (pModel : CModel) (cetype : canevap_type)
  (state_vars : list Q) (pHRU : CHydroUnit) (Options : optStruct)
  (tt : time_struct) (r0 r1 storage : Q) :
  applicable pHRU ->
  ~ timestep Options == 0 ->
  read state_vars (GetStateVarIndex pModel CANOPY) = Ret storage ->
  CmvCanopyEvap.ApplyConstraints (CmvCanopyEvap.CmvCanopyEvap pModel cetype)
    state_vars pHRU Options tt [r0; r1]
  = Ret [min (max r0 0) (storage / timestep Options);
         r1 - (r0 - min (max r0 0) (storage / timestep Options))].
Proof.
  intros Happ Hnz Hsrc.
  unfold CmvCanopyEvap.ApplyConstraints.
  rewrite (applicable_guard _ Happ).
  cbn [CmvCanopyEvap.CmvCanopyEvap CmvCanopyEvap.conn iFrom at_ nth].
  rate_accesses. rewrite Hsrc. cbn [bind].
  rewrite (ddiv_defined _ _ Hnz). cbn [bind]. rate_accesses. reflexivity.
Qed.

Lemma subl_constraints_run (pModel : CModel) (cetype : sublimation_type)
  (state_vars : list Q) (pHRU : CHydroUnit) (Options : optStruct)
  (tt : time_struct) (r0 r1 storage : Q) :
  applicable pHRU ->
  ~ timestep Options == 0 ->
  read state_vars (GetStateVarIndex pModel CANOPY_SNOW) = Ret storage ->
  CmvCanopySublimation.ApplyConstraints
    (CmvCanopySublimation.CmvCanopySublimation pModel cetype)
    state_vars pHRU Options tt [r0; r1]
  = Ret [min r0 (storage / timestep Options);
         r1 - (r0 - min r0 (storage / timestep Options))].
Proof.
  intros Happ Hnz Hsrc.
  unfold CmvCanopySublimation.ApplyConstraints.
  rewrite (applicable_guard _ Happ).
  cbn [CmvCanopySublimation.CmvCanopySublimation CmvCanopySublimation.conn
       iFrom at_ nth].
  rate_accesses. rewrite Hsrc. cbn [bind].
  rewrite (ddiv_defined _ _ Hnz). cbn [bind]. rate_accesses. reflexivity.
Qed.

(** A share [k] in [0, 1] of a non-negative budget stays within it. *)
Lemma share_within (k budget : Q) :
  0 <= k -> k <= 1 -> 0 <= budget -> 0 <= k * budget /\ k * budget <= budget.
Proof.
  intros Hk0 Hk1 Hb.
  assert (H1 : 0 <= k * budget) by (apply Qmult_le_0_compat; assumption).
  assert (H2 : 0 <= (1 - k) * budget) by (apply Qmult_le_0_compat; lra).
  split; [exact H1|]. lra.
Qed.

Lemma share_product (a b : Q) :
  0 <= a -> a <= 1 -> 0 <= b -> b <= 1 -> 0 <= a * b /\ a * b <= 1.
Proof.
  intros Ha0 Ha1 Hb0 Hb1.
  assert (H1 : 0 <= a * b) by (apply Qmult_le_0_compat; assumption).
  assert (H2 : 0 <= a * (1 - b)) by (apply Qmult_le_0_compat; lra).
  split; [exact H1|]. lra.
Qed.

Lemma saturation_share (stored full : Q) :
  0 < full -> 0 <= stored -> stored <= full ->
  0 <= stored / full /\ stored / full <= 1.
Proof.
  intros Hf H0 H1. split.
  - apply Qle_shift_div_l; [assumption | lra].
  - apply Qle_shift_div_r; [assumption | lra].
Qed.

Lemma guard_applicable (pHRU : CHydroUnit) :
  not_applicable pHRU = false -> applicable pHRU.
Proof.
  unfold applicable, not_applicable.
  destruct (GetHRUType pHRU); intros H; auto; discriminate H.
Qed.

Lemma max_least (r l c : Q) : r <= c -> l <= c -> max r l <= c.
Proof. intros; minmax; lra. Qed.

Lemma clamped_consumption_evap (r avail budget : Q) :
  r <= budget -> 0 <= budget ->
  r - (r - min (max r 0) avail) <= budget.
Proof.
  intros Hr Hb.
  pose proof (min_left (max r 0) avail) as H1.
  pose proof (max_least r 0 budget Hr Hb) as H2.
  lra.
Qed.

Lemma clamped_consumption_subl (r avail budget : Q) :
  r <= budget -> r - (r - min r avail) <= budget.
Proof.
  intros Hr. pose proof (min_left r avail) as H1. lra.
Qed.

(* ================================================================== *)
(** ** The ledger over one timestep *)
(* ================================================================== *)

Section Ledger.

Variable SublimationRate :
  list Q -> CHydroUnit -> optStruct -> time_struct -> Q ->
  sublimation_type -> outcome Q.
Variable pModel : CModel.
Variable pHRU : CHydroUnit.
Variable Options : optStruct.
Variable tt : time_struct.

Hypothesis competitive : suppressCompetitiveET Options = false.
Hypothesis positive_step : 0 < timestep Options.
Hypothesis coverage_range :
  0 <= forest_coverage (GetSurfaceProps pHRU) <= 1.
Hypothesis positive_capacity : 0 < capacity (GetVegVarProps pHRU).
Hypothesis trunk_range :
  0 <= trunk_fraction (GetVegetationProps pHRU) <= 1.

Let potential : Q := max (PET (GetForcingFunctions pHRU)) 0.
Let aet : Z := GetStateVarIndex pModel AET.

(** What a PET-limited process records after its constraint fits in the
    budget that remains. *)
Lemma limited_rates (p : CanopyProcess) (state_vars : list Q) (used : Q) :
  registered pModel state_vars ->
  constructed pModel p ->
  PET_limited p = true ->
  read state_vars aet = Ret used ->
  exists r0 r1,
    (rates <- GetRatesOfChange SublimationRate pModel p state_vars pHRU
                Options tt (repeat 0 (nConnections (connections p))) ;;
     ApplyConstraints p state_vars pHRU Options tt rates) = Ret [r0; r1]
    /\ r1 <= max (potential - used / timestep Options) 0.
Proof.
  intros [Hrange Hdistinct] Hp Hlim Hused.
  assert (Hnz : ~ timestep Options == 0) by lra.
  pose proof (max_lower (potential - used / timestep Options) 0) as Hb0.
  pose proof (RemainingPET_competitive pModel state_vars pHRU Options used
                competitive Hnz Hused) as Hbudget.
  fold potential in Hbudget.
  set (budget := max (potential - used / timestep Options) 0) in *.
  set (Fc := forest_coverage (GetSurfaceProps pHRU)) in *.
  destruct Hp as [ty | ty | ty to_index d Hd].
  - (* canopy evaporation *)
    destruct (read_defined state_vars (GetStateVarIndex pModel CANOPY))
      as [storage Hsrc]; [apply Hrange; discriminate|].
    cbn [connections CmvCanopyEvap.CmvCanopyEvap CmvCanopyEvap.conn
         nConnections repeat GetRatesOfChange ApplyConstraints].
    destruct (not_applicable pHRU) eqn:Hg.
    { unfold CmvCanopyEvap.GetRatesOfChange. rewrite Hg. cbn [bind].
      unfold CmvCanopyEvap.ApplyConstraints. rewrite Hg.
      exists 0, 0. split; [reflexivity | exact Hb0]. }
    apply guard_applicable in Hg.
    destruct (Qeq_bool Fc 0) eqn:HF.
    { unfold CmvCanopyEvap.GetRatesOfChange at 1.
      rewrite (applicable_guard _ Hg). rate_accesses.
      fold Fc. rewrite HF. cbn [bind].
      rewrite (evap_constraints_run pModel ty state_vars pHRU Options tt
                 0 0 storage Hg Hnz Hsrc).
      eexists; eexists. split; [reflexivity|].
      apply clamped_consumption_evap; [exact Hb0 | exact Hb0]. }
    assert (HFc0 : ~ Fc == 0).
    { intros H. apply Qeq_bool_iff in H. congruence. }
    destruct ty; try discriminate Hlim.
    + (* Rutter *)
      assert (Hden : 0 < capacity (GetVegVarProps pHRU) * Fc).
      { apply Qmult_lt_0_compat; [assumption | lra]. }
      assert (Hden0 : ~ capacity (GetVegVarProps pHRU) * Fc == 0) by lra.
      rewrite (Rutter_run pModel state_vars pHRU Options tt 0 0 storage
                 budget Hg Hden0 Hsrc Hbudget).
      cbn [bind].
      rewrite (evap_constraints_run pModel CANEVP_RUTTER state_vars pHRU
                 Options tt _ _ storage Hg Hnz Hsrc).
      eexists; eexists. split; [reflexivity|].
      apply clamped_consumption_evap; [|exact Hb0].
      fold Fc.
      set (Ft := if (GetStateVarIndex pModel TRUNK =? DOESNT_EXIST)%Z
                 then 0 else trunk_fraction (GetVegetationProps pHRU)).
      set (stor := min (max storage 0) (capacity (GetVegVarProps pHRU) * Fc)).
      assert (HFt : 0 <= 1 - Ft /\ 1 - Ft <= 1).
      { unfold Ft. destruct (GetStateVarIndex pModel TRUNK =? DOESNT_EXIST)%Z;
          lra. }
      assert (Hstor : 0 <= stor /\
                      stor <= capacity (GetVegVarProps pHRU) * Fc).
      { unfold stor. split; [|apply min_upper].
        apply min_lower; [apply max_lower | lra]. }
      destruct (saturation_share stor _ Hden (proj1 Hstor) (proj2 Hstor))
        as [Hs0 Hs1].
      destruct (share_product (1 - Ft) Fc) as [Hk0 Hk1]; try lra.
      destruct (share_product ((1 - Ft) * Fc)
                  (stor / (capacity (GetVegVarProps pHRU) * Fc)))
        as [Hq0 Hq1]; try assumption.
      destruct (share_within _ budget Hq0 Hq1 Hb0) as [_ Hw].
      lra.
    + (* Maximum *)
      rewrite (evap_Maximum_run pModel state_vars pHRU Options tt 0 0 storage
                 budget Hg HFc0 Hsrc Hbudget).
      cbn [bind].
      rewrite (evap_constraints_run pModel CANEVP_MAXIMUM state_vars pHRU
                 Options tt _ _ storage Hg Hnz Hsrc).
      eexists; eexists. split; [reflexivity|].
      apply clamped_consumption_evap; [|exact Hb0].
      fold Fc. apply share_within; [lra | lra | exact Hb0].
  - (* canopy sublimation *)
    destruct (read_defined state_vars (GetStateVarIndex pModel CANOPY_SNOW))
      as [storage Hsrc]; [apply Hrange; discriminate|].
    cbn [connections CmvCanopySublimation.CmvCanopySublimation
         CmvCanopySublimation.conn
         nConnections repeat GetRatesOfChange ApplyConstraints].
    destruct (not_applicable pHRU) eqn:Hg.
    { unfold CmvCanopySublimation.GetRatesOfChange. rewrite Hg. cbn [bind].
      unfold CmvCanopySublimation.ApplyConstraints. rewrite Hg.
      exists 0, 0. split; [reflexivity | exact Hb0]. }
    apply guard_applicable in Hg.
    destruct (Qeq_bool Fc 0) eqn:HF.
    { unfold CmvCanopySublimation.GetRatesOfChange at 1.
      rewrite (applicable_guard _ Hg). rate_accesses.
      fold Fc. rewrite HF. cbn [bind].
      rewrite (subl_constraints_run pModel ty state_vars pHRU Options tt
                 0 0 storage Hg Hnz Hsrc).
      eexists; eexists. split; [reflexivity|].
      apply clamped_consumption_subl. exact Hb0. }
    assert (HFc0 : ~ Fc == 0).
    { intros H. apply Qeq_bool_iff in H. congruence. }
    destruct ty; try discriminate Hlim.
    rewrite (subl_Maximum_run SublimationRate pModel state_vars pHRU Options
               tt 0 0 budget Hg HFc0 Hbudget).
    cbn [bind].
    rewrite (subl_constraints_run pModel SUBLIM_MAXIMUM state_vars pHRU
               Options tt _ _ storage Hg Hnz Hsrc).
    eexists; eexists. split; [reflexivity|].
    apply clamped_consumption_subl.
    fold Fc. apply share_within; [lra | lra | exact Hb0].
  - apply drip_source in Hd. subst d. discriminate Hlim.
Qed.

Lemma registered_length (state_vars state_vars' : list Q) :
  length state_vars' = length state_vars ->
  registered pModel state_vars -> registered pModel state_vars'.
Proof. intros Hl [Hr Hd]. split; [|exact Hd]. intros sv Hsv. rewrite Hl. auto. Qed.

(** The ledger connection of a process after its rates are applied: the
    ledger grows by [rates[1] * timestep], whatever the first connection
    moved. *)
Lemma ApplyRates_ledger (p : CanopyProcess) (state_vars : list Q)
  (r0 r1 used : Q) :
  registered pModel state_vars ->
  constructed pModel p ->
  credits_AET p = true ->
  read state_vars aet = Ret used ->
  exists state_vars',
    ApplyRates Options (iFrom (connections p)) (iTo (connections p))
      [r0; r1] state_vars = Ret state_vars'
    /\ length state_vars' = length state_vars
    /\ read state_vars' aet = Ret (used + r1 * timestep Options).
Proof.
  intros [Hrange Hdistinct] Hp Hled Hused.
  assert (Haet : (0 <= aet < Z.of_nat (length state_vars))%Z)
    by (apply Hrange; discriminate).
  assert (Hatm : (0 <= GetStateVarIndex pModel ATMOSPHERE
                  < Z.of_nat (length state_vars))%Z)
    by (apply Hrange; discriminate).
  assert (Hstep : forall from,
             (0 <= from < Z.of_nat (length state_vars))%Z ->
             from <> aet ->
             exists state_vars',
               ApplyRates Options [from; aet]
                 [GetStateVarIndex pModel ATMOSPHERE; aet]
                 [r0; r1] state_vars = Ret state_vars'
               /\ length state_vars' = length state_vars
               /\ read state_vars' aet = Ret (used + r1 * timestep Options)).
  { intros from Hfrom Hne.
    destruct (MoveMass_elsewhere Options state_vars from
                (GetStateVarIndex pModel ATMOSPHERE) aet r0 Hfrom Hatm)
      as [s1 [Hm1 [Hl1 Hr1]]].
    { intros H; apply Hne; symmetry; exact H. }
    { intros H. apply (Hdistinct ATMOSPHERE); [discriminate|].
      symmetry; exact H. }
    rewrite Hused in Hr1. rewrite <- Hl1 in Haet.
    destruct (MoveMass_ledger Options s1 aet r1 used Haet Hr1)
      as [s2 [Hm2 [Hl2 Hr2]]].
    exists s2. cbn [ApplyRates]. rewrite Hm1. cbn [bind]. rewrite Hm2.
    cbn [bind]. repeat split; [congruence | exact Hr2]. }
  destruct Hp as [ty | ty | ty to_index d Hd].
  - apply Hstep; [apply Hrange; discriminate|].
    apply Hdistinct; discriminate.
  - apply Hstep; [apply Hrange; discriminate|].
    apply Hdistinct; discriminate.
  - discriminate Hled.
Qed.

Lemma limited_credits (p : CanopyProcess) :
  PET_limited p = true -> credits_AET p = true.
Proof. destruct p; [reflexivity | reflexivity | discriminate]. Qed.

(** One PET-limited process of the timestep: it records at most the budget
    that remains and adds what it records to the ledger. *)
Lemma RunProcess_ledger (p : CanopyProcess) (state_vars : list Q) (used : Q) :
  registered pModel state_vars ->
  constructed pModel p ->
  PET_limited p = true ->
  read state_vars aet = Ret used ->
  exists state_vars' rates,
    RunProcess SublimationRate pModel p state_vars pHRU Options tt
    = Ret (state_vars', rates)
    /\ length state_vars' = length state_vars
    /\ consumption rates <= max (potential - used / timestep Options) 0
    /\ read state_vars' aet
       = Ret (used + consumption rates * timestep Options).
Proof.
  intros Hreg Hp Hlim Hused.
  destruct (limited_rates p state_vars used Hreg Hp Hlim Hused)
    as [r0 [r1 [Hrates Hle]]].
  destruct (ApplyRates_ledger p state_vars r0 r1 used Hreg Hp
              (limited_credits p Hlim) Hused) as [s' [Happly [Hl Hr]]].
  exists s', [r0; r1]. unfold RunProcess.
  destruct (GetRatesOfChange SublimationRate pModel p state_vars pHRU Options
              tt (repeat 0 (nConnections (connections p))))
    as [rates | |]; try discriminate Hrates.
  cbn [bind] in Hrates |- *. rewrite Hrates. cbn [bind].
  rewrite Happly. cbn [bind]. repeat split; assumption.
Qed.

(** The processes of a timestep in order: the ledger never passes the
    potential evapotranspiration. *)
Lemma RunTimestep_ledger (processes : list CanopyProcess) :
  Forall (fun p => constructed pModel p /\ PET_limited p = true) processes ->
  forall (state_vars : list Q) (used : Q),
    registered pModel state_vars ->
    read state_vars aet = Ret used ->
    used / timestep Options <= potential ->
    exists state_vars' log,
      RunTimestep SublimationRate pModel processes state_vars pHRU Options tt
      = Ret (state_vars', log)
      /\ used / timestep Options + total_consumption log <= potential.
Proof.
  induction 1 as [|p later [Hp Hlim] _ IH]; intros state_vars used Hreg Hused Hle.
  - exists state_vars, []. split; [reflexivity|]. simpl. lra.
  - destruct (RunProcess_ledger p state_vars used Hreg Hp Hlim Hused)
      as [s1 [rates [Hrun [Hl [Hc Hr]]]]].
    assert (Hnz : ~ timestep Options == 0) by lra.
    assert (Hbudget : max (potential - used / timestep Options) 0
                      == potential - used / timestep Options).
    { minmax; lra. }
    assert (Hnew : (used + consumption rates * timestep Options)
                   / timestep Options
                   == used / timestep Options + consumption rates).
    { field. exact Hnz. }
    destruct (IH s1 (used + consumption rates * timestep Options))
      as [s2 [log [Hrest Htotal]]].
    { exact (registered_length _ _ Hl Hreg). }
    { exact Hr. }
    { rewrite Hnew. lra. }
    exists s2, (rates :: log). cbn [RunTimestep]. rewrite Hrun. cbn [bind].
    rewrite Hrest. cbn [bind]. split; [reflexivity|].
    cbn [total_consumption]. rewrite Hnew in Htotal. lra.
Qed.

End Ledger.

(** C4, as stated, fails.  The All variant of canopy evaporation records
    the whole storage over the timestep as consumed, whatever the potential
    evapotranspiration: with 10 mm stored and a potential of 1 mm/d the
    ledger takes 10 mm/d.  The Maximum variant records [Fc * PET], which
    passes the potential when the coverage passes 1. *)
Lemma RunTimestep_ledger_overdrawn :
  (suppressCompetitiveET (mkOptions 1 false) = false
   /\ read [10; 0; 0; 0] (GetStateVarIndex registry_no_trunk AET) = Ret 0
   /\ RunTimestep NoSublimationRate registry_no_trunk
        [Evaporation
           (CmvCanopyEvap.CmvCanopyEvap registry_no_trunk CANEVP_ALL)]
        [10; 0; 0; 0] (mkHRU HRU_STANDARD 0.5 4 0 0 0 1) (mkOptions 1 false)
        t0 = Ret ([0; 0; 10; 10], [[10; 10]])
   /\ ~ total_consumption [[10; 10]]
        <= max (PET (GetForcingFunctions (mkHRU HRU_STANDARD 0.5 4 0 0 0 1)))
             0)
  /\
  (RunTimestep NoSublimationRate registry_no_trunk
     [Evaporation
        (CmvCanopyEvap.CmvCanopyEvap registry_no_trunk CANEVP_MAXIMUM)]
     [10; 0; 0; 0] (mkHRU HRU_STANDARD 2 4 0 0 0 1) (mkOptions 1 false)
     t0 = Ret ([8; 0; 2; 2], [[2; 2]])
   /\ ~ total_consumption [[2; 2]]
        <= max (PET (GetForcingFunctions (mkHRU HRU_STANDARD 2 4 0 0 0 1)))
             0).
Proof.
  split.
  - split; [reflexivity|]. split; [reflexivity|]. split; [reflexivity|].
    vm_compute. intros H. apply H. reflexivity.
  - split; [reflexivity|].
    vm_compute. intros H. apply H. reflexivity.
Qed.

(** C4 (amended).  Take a unit whose forest coverage and trunk fraction lie
    in [0, 1] and whose canopy capacity is positive, a positive timestep,
    competitive-ET suppression disabled and a ledger that starts at 0.  For
    every ordered sequence of Rutter or Maximum canopy evaporation and
    Maximum canopy sublimation processes, each computing its rates from the
    ledger the earlier ones left and then constrained, the timestep returns
    and the sum of the constrained consumptions [rates[1]] is at most
    [max PET 0]. *)
Theorem RunTimestep_within_potential
  (SublimationRate :
     list Q -> CHydroUnit -> optStruct -> time_struct -> Q ->
     sublimation_type -> outcome Q)
  (pModel : CModel) (processes : list CanopyProcess) (state_vars : list Q)
  (pHRU : CHydroUnit) (Options : optStruct) (tt : time_struct) (ledger : Q) :
  registered pModel state_vars ->
  read state_vars (GetStateVarIndex pModel AET) = Ret ledger ->
  ledger == 0 ->
  suppressCompetitiveET Options = false ->
  0 < timestep Options ->
  0 <= forest_coverage (GetSurfaceProps pHRU) <= 1 ->
  0 < capacity (GetVegVarProps pHRU) ->
  0 <= trunk_fraction (GetVegetationProps pHRU) <= 1 ->
  Forall (fun p => constructed pModel p /\ PET_limited p = true) processes ->
  exists state_vars' log,
    RunTimestep SublimationRate pModel processes state_vars pHRU Options tt
    = Ret (state_vars', log)
    /\ total_consumption log <= max (PET (GetForcingFunctions pHRU)) 0.
Proof.
  intros Hreg Hled Hzero Hsup Hdt HFc Hcap HFt Hall.
  assert (Hstart : ledger / timestep Options == 0).
  { rewrite Hzero. field. lra. }
  destruct (RunTimestep_ledger SublimationRate pModel pHRU Options tt
              Hsup Hdt HFc Hcap HFt processes Hall state_vars ledger
              Hreg Hled) as [s' [log [Hrun Htotal]]].
  { rewrite Hstart. apply max_lower. }
  exists s', log. split; [exact Hrun|].
  rewrite Hstart in Htotal. lra.
Qed.

Lemma registry_no_trunk_registered (a b c d : Q) :
  registered registry_no_trunk [a; b; c; d].
Proof.
  split; intros sv Hsv; destruct sv; simpl; try lia; try discriminate;
    contradiction.
Defined.

Lemma RunTimestep_within_potential_witness :
  exists state_vars' log,
    RunTimestep NoSublimationRate registry_no_trunk
      [Evaporation
         (CmvCanopyEvap.CmvCanopyEvap registry_no_trunk CANEVP_MAXIMUM);
       Sublimation
         (CmvCanopySublimation.CmvCanopySublimation registry_no_trunk
            SUBLIM_MAXIMUM);
       Evaporation
         (CmvCanopyEvap.CmvCanopyEvap registry_no_trunk CANEVP_RUTTER)]
      [10; 10; 0; 0] (mkHRU HRU_STANDARD 0.5 4 0 0 0 1) (mkOptions 1 false) t0
    = Ret (state_vars', log)
    /\ total_consumption log
       <= max (PET (GetForcingFunctions (mkHRU HRU_STANDARD 0.5 4 0 0 0 1))) 0.
Proof.
  apply (RunTimestep_within_potential NoSublimationRate registry_no_trunk
           _ [10; 10; 0; 0] (mkHRU HRU_STANDARD 0.5 4 0 0 0 1)
           (mkOptions 1 false) t0 0).
  - apply registry_no_trunk_registered.
  - reflexivity.
  - reflexivity.
  - reflexivity.
  - reflexivity.
  - split; unfold Qle; simpl; lia.
  - reflexivity.
  - split; unfold Qle; simpl; lia.
  - repeat constructor.
Defined.

(* ================================================================== *)
(** ** Construction, initialization and the participating lists *)
(* ================================================================== *)

Lemma sv_type_eqb_eq (a b : sv_type) : sv_type_eqb a b = true <-> a = b.
Proof. destruct a, b; simpl; split; intros H; congruence. Qed.

(** X1.  The constructor of canopy drip fails, with code [BAD_DATA],
    exactly when the destination index is [DOESNT_EXIST]; otherwise it
    builds one connection from the canopy index of the registry to the
    destination, whether or not the canopy is registered. *)
Theorem CmvCanopyDrip_constructor (pModel : CModel) (cdtype : candrip_type)
  (to_index : Z) :
  (to_index = DOESNT_EXIST <->
   exists statement,
     CmvCanopyDrip.CmvCanopyDrip pModel cdtype to_index
     = Exit statement BAD_DATA)
  /\
  (to_index <> DOESNT_EXIST <->
   exists d,
     CmvCanopyDrip.CmvCanopyDrip pModel cdtype to_index = Ret d
     /\ CmvCanopyDrip.type d = cdtype
     /\ nConnections (CmvCanopyDrip.conn d) = 1%nat
     /\ iFrom (CmvCanopyDrip.conn d) = [GetStateVarIndex pModel CANOPY]
     /\ iTo (CmvCanopyDrip.conn d) = [to_index]).
Proof.
  unfold CmvCanopyDrip.CmvCanopyDrip, ExitGracefullyIf.
  destruct (to_index =? DOESNT_EXIST)%Z eqn:E; cbn [bind].
  - apply Z.eqb_eq in E. split; split.
    + intros _. eexists. reflexivity.
    + intros _. exact E.
    + intros H. contradiction.
    + intros [d [H _]]. discriminate H.
  - apply Z.eqb_neq in E. split; split.
    + intros H. contradiction.
    + intros [st H]. discriminate H.
    + intros _. eexists. repeat split.
    + intros _. exact E.
Qed.

Lemma CmvCanopyDrip_constructor_witness :
  exists statement,
    CmvCanopyDrip.CmvCanopyDrip registry_no_trunk CANDRIP_RUTTER DOESNT_EXIST
    = Exit statement BAD_DATA.
Proof.
  apply (proj1 (proj1 (CmvCanopyDrip_constructor registry_no_trunk
                         CANDRIP_RUTTER DOESNT_EXIST))).
  reflexivity.
Defined.

(** X2.  [Initialize] of a constructed process passes exactly when the
    registry gives its source index the type the process draws from and,
    for evaporation and sublimation, gives the atmosphere index the type
    [ATMOSPHERE]; the destination of a drip and the ledger connection are
    not checked.  When it does not pass it exits with code [BAD_DATA]. *)
Theorem Initialize_constructed (pModel : CModel)
  (GetStateVarType : Z -> sv_type) (p : CanopyProcess) :
  constructed pModel p ->
  let source_ok :=
    GetStateVarType (GetStateVarIndex pModel (source_type p)) = source_type p in
  let target_ok :=
    credits_AET p = true ->
    GetStateVarType (GetStateVarIndex pModel ATMOSPHERE) = ATMOSPHERE in
  (Initialize GetStateVarType p = Ret tt <-> source_ok /\ target_ok)
  /\ (Initialize GetStateVarType p = Ret tt
      \/ exists statement,
           Initialize GetStateVarType p = Exit statement BAD_DATA).
Proof.
  intros Hp. destruct Hp as [ty | ty | ty to_index d Hd].
  - cbn [Initialize source_type credits_AET].
    unfold CmvCanopyEvap.Initialize, ExitGracefullyIf.
    cbn [CmvCanopyEvap.CmvCanopyEvap CmvCanopyEvap.conn iFrom iTo at_ nth].
    destruct (sv_type_eqb (GetStateVarType (GetStateVarIndex pModel CANOPY))
                CANOPY) eqn:E1;
      destruct (sv_type_eqb
                  (GetStateVarType (GetStateVarIndex pModel ATMOSPHERE))
                  ATMOSPHERE) eqn:E2; cbn [negb bind].
    + apply sv_type_eqb_eq in E1, E2. split; [|left; reflexivity].
      split; [auto | reflexivity].
    + split; [|right; eexists; reflexivity]. split; [discriminate|].
      intros [_ H]. apply sv_type_eqb_eq in H; [congruence | reflexivity].
    + split; [|right; eexists; reflexivity]. split; [discriminate|].
      intros [H _]. apply sv_type_eqb_eq in H. congruence.
    + split; [|right; eexists; reflexivity]. split; [discriminate|].
      intros [H _]. apply sv_type_eqb_eq in H. congruence.
  - cbn [Initialize source_type credits_AET].
    unfold CmvCanopySublimation.Initialize, ExitGracefullyIf.
    cbn [CmvCanopySublimation.CmvCanopySublimation CmvCanopySublimation.conn
         iFrom iTo at_ nth].
    destruct (sv_type_eqb
                (GetStateVarType (GetStateVarIndex pModel CANOPY_SNOW))
                CANOPY_SNOW) eqn:E1;
      destruct (sv_type_eqb
                  (GetStateVarType (GetStateVarIndex pModel ATMOSPHERE))
                  ATMOSPHERE) eqn:E2; cbn [negb bind].
    + apply sv_type_eqb_eq in E1, E2. split; [|left; reflexivity].
      split; [auto | reflexivity].
    + split; [|right; eexists; reflexivity]. split; [discriminate|].
      intros [_ H]. apply sv_type_eqb_eq in H; [congruence | reflexivity].
    + split; [|right; eexists; reflexivity]. split; [discriminate|].
      intros [H _]. apply sv_type_eqb_eq in H. congruence.
    + split; [|right; eexists; reflexivity]. split; [discriminate|].
      intros [H _]. apply sv_type_eqb_eq in H. congruence.
  - apply drip_source in Hd. subst d.
    cbn [Initialize source_type credits_AET].
    unfold CmvCanopyDrip.Initialize, ExitGracefullyIf.
    cbn [CmvCanopyDrip.conn iFrom at_ nth].
    destruct (sv_type_eqb (GetStateVarType (GetStateVarIndex pModel CANOPY))
                CANOPY) eqn:E1; cbn [negb].
    + apply sv_type_eqb_eq in E1. split; [|left; reflexivity].
      split; [|reflexivity]. intros _. split; [exact E1 | discriminate].
    + split; [|right; eexists; reflexivity]. split; [discriminate|].
      intros [H _]. apply sv_type_eqb_eq in H. congruence.
Qed.

(** A registry for concrete runs that gives every index of
    [registry_no_trunk] its type. *)
Lemma Initialize_constructed_witness :
  Initialize
    (fun i => if (i =? 0)%Z then CANOPY
              else if (i =? 1)%Z then CANOPY_SNOW
              else if (i =? 2)%Z then ATMOSPHERE else AET)
    (Sublimation
       (CmvCanopySublimation.CmvCanopySublimation registry_no_trunk
          SUBLIM_ALL)) = Ret tt
  \/ exists statement,
       Initialize
         (fun i => if (i =? 0)%Z then CANOPY
                   else if (i =? 1)%Z then CANOPY_SNOW
                   else if (i =? 2)%Z then ATMOSPHERE else AET)
         (Sublimation
            (CmvCanopySublimation.CmvCanopySublimation registry_no_trunk
               SUBLIM_ALL)) = Exit statement BAD_DATA.
Proof.
  apply (Initialize_constructed registry_no_trunk).
  constructor.
Defined.

(** X3.  On arrays of three entries or more, [GetParticipatingParamList]
    of canopy evaporation and of canopy drip exits with code [BAD_DATA]
    exactly for a selector outside the enumerators, and canopy sublimation
    never exits.  When the query returns, it declares at most three
    parameters, keeps the length of both arrays and leaves every entry past
    the declared ones as it was. *)
Theorem GetParticipatingParamList_outcome (p : CanopyProcess)
  (aP : list string) (aPC : list class_type) :
  (3 <= length aP)%nat ->
  (3 <= length aPC)%nat ->
  (selector_defined p = true ->
   exists aP' aPC' nP,
     GetParticipatingParamList p aP aPC = Ret (aP', aPC', nP)
     /\ (0 <= nP <= 3)%Z
     /\ length aP' = length aP
     /\ length aPC' = length aPC
     /\ forall i, (Z.to_nat nP <= i)%nat ->
                  nth_error aP' i = nth_error aP i
                  /\ nth_error aPC' i = nth_error aPC i)
  /\
  (selector_defined p = false ->
   exists statement,
     GetParticipatingParamList p aP aPC = Exit statement BAD_DATA).
Proof.
  intros HP HPC.
  destruct aP as [|n0 [|n1 [|n2 names]]]; simpl in HP; try lia.
  destruct aPC as [|c0 [|c1 [|c2 kinds]]]; simpl in HPC; try lia.
  destruct p as [[ty c] | [ty c] | [ty c]]; destruct ty; simpl;
    (split; [intros Hsel; try discriminate Hsel
            | intros Hsel; try discriminate Hsel;
              try (eexists; reflexivity)]);
    (eexists; eexists; eexists; split; [reflexivity|];
     split; [lia|]; split; [reflexivity|]; split; [reflexivity|];
     intros i Hi; split;
     destruct i as [|[|[|i]]]; simpl in Hi |- *; try lia; reflexivity).
Qed.

Lemma GetParticipatingParamList_outcome_witness :
  exists statement,
    GetParticipatingParamList (Drip
      {| CmvCanopyDrip.type := CANDRIP_UNDEFINED;
         CmvCanopyDrip.conn :=
           {| nConnections := 1; iFrom := [0%Z]; iTo := [2%Z] |} |})
      [""%string; ""%string; ""%string]
      [CLASS_GLOBAL; CLASS_GLOBAL; CLASS_GLOBAL]
    = Exit statement BAD_DATA.
Proof.
  apply (proj2 (GetParticipatingParamList_outcome _
                  [""%string; ""%string; ""%string]
                  [CLASS_GLOBAL; CLASS_GLOBAL; CLASS_GLOBAL]
                  (le_n 3) (le_n 3))).
  reflexivity.
Defined.

(** What a returned query declares is the table entry of its selector. *)
Lemma declared_is_table (p : CanopyProcess) (aP : list string)
  (aPC : list class_type) (r : list string * list class_type * Z) :
  GetParticipatingParamList p aP aPC = Ret r ->
  declared r = parameter_table p.
Proof.
  assert (H0 : forall (A : Type) (a a' : list A) (v : A),
             store a 0 v = Ret a' -> exists l, a' = v :: l).
  { intros A a a' v H. destruct a; [discriminate H|].
    injection H as <-. eauto. }
  assert (H1 : forall (A : Type) (u : A) (l a' : list A) (v : A),
             store (u :: l) 1 v = Ret a' -> exists l', a' = u :: v :: l').
  { intros A u l a' v H. destruct l; [discriminate H|].
    injection H as <-. eauto. }
  assert (H2 : forall (A : Type) (u w : A) (l a' : list A) (v : A),
             store (u :: w :: l) 2 v = Ret a' ->
             exists l', a' = u :: w :: v :: l').
  { intros A u w l a' v H. destruct l; [discriminate H|].
    injection H as <-. eauto. }
  destruct p as [[ty c] | [ty c] | [ty c]]; destruct ty;
    cbn [GetParticipatingParamList CmvCanopyEvap.GetParticipatingParamList
         CmvCanopySublimation.GetParticipatingParamList
         CmvCanopyDrip.GetParticipatingParamList
         CmvCanopyEvap.type CmvCanopySublimation.type CmvCanopyDrip.type
         parameter_table ExitGracefully];
    intros H; try discriminate H;
    repeat match type of H with
      | bind (store ?a 0 ?v) _ = _ =>
          let E := fresh "E" in
          destruct (store a 0 v) as [x| |] eqn:E; try discriminate H;
          apply H0 in E; destruct E as [? ->]; cbn [bind] in H
      | bind (store (?u :: ?l) 1 ?v) _ = _ =>
          let E := fresh "E" in
          destruct (store (u :: l) 1 v) as [x| |] eqn:E; try discriminate H;
          apply H1 in E; destruct E as [? ->]; cbn [bind] in H
      | bind (store (?u :: ?w :: ?l) 2 ?v) _ = _ =>
          let E := fresh "E" in
          destruct (store (u :: w :: l) 2 v) as [x| |] eqn:E;
          try discriminate H;
          apply H2 in E; destruct E as [? ->]; cbn [bind] in H
      end;
    injection H as <-; reflexivity.
Qed.

(** X4.  Whatever arrays they are given, two returned parameter queries
    never disagree on the class of a parameter name, and no query declares
    a name twice. *)
Theorem declared_parameters_consistent (p q : CanopyProcess)
  (aP aP' : list string) (aPC aPC' : list class_type)
  (declared_p declared_q : list string * list class_type * Z) :
  GetParticipatingParamList p aP aPC = Ret declared_p ->
  GetParticipatingParamList q aP' aPC' = Ret declared_q ->
  NoDup (map fst (declared declared_p))
  /\ forall (name : string) (c1 c2 : class_type),
       In (name, c1) (declared declared_p) ->
       In (name, c2) (declared declared_q) -> c1 = c2.
Proof.
  intros Hp Hq.
  rewrite (declared_is_table _ _ _ _ Hp), (declared_is_table _ _ _ _ Hq).
  clear Hp Hq. split.
  - destruct p as [[ty c] | [ty c] | [ty c]]; destruct ty; simpl;
      repeat constructor; simpl; intuition discriminate.
  - intros name c1 c2 H1 H2.
    destruct p as [[ty c] | [ty c] | [ty c]]; destruct ty; simpl in H1;
      repeat (destruct H1 as [H1 | H1]; [injection H1 as <- <- |]);
      try contradiction;
      destruct q as [[ty' c'] | [ty' c'] | [ty' c']]; destruct ty';
      simpl in H2;
      repeat (destruct H2 as [H2 | H2];
              [first [discriminate H2 | injection H2 as <-; reflexivity] |]);
      contradiction.
Qed.

Lemma declared_parameters_consistent_witness :
  NoDup (map fst
           (declared
              (["FOREST_COVERAGE"%string; "MAX_CAPACITY"%string;
                "TRUNK_FRACTION"%string],
               [CLASS_LANDUSE; CLASS_VEGETATION; CLASS_VEGETATION], 3%Z)))
  /\ forall (name : string) (c1 c2 : class_type),
       In (name, c1)
          (declared
             (["FOREST_COVERAGE"%string; "MAX_CAPACITY"%string;
               "TRUNK_FRACTION"%string],
              [CLASS_LANDUSE; CLASS_VEGETATION; CLASS_VEGETATION], 3%Z)) ->
       In (name, c2)
          (declared
             (["DRIP_PROPORTION"%string; "MAX_CAPACITY"%string;
               "FOREST_COVERAGE"%string; ""%string],
              [CLASS_VEGETATION; CLASS_VEGETATION; CLASS_LANDUSE;
               CLASS_GLOBAL], 3%Z)) -> c1 = c2.
Proof.
  apply (declared_parameters_consistent
           (Evaporation
              (CmvCanopyEvap.CmvCanopyEvap registry_no_trunk CANEVP_RUTTER))
           (Drip
              {| CmvCanopyDrip.type := CANDRIP_SLOWDRAIN;
                 CmvCanopyDrip.conn :=
                   {| nConnections := 1; iFrom := [0%Z]; iTo := [2%Z] |} |})
           [""%string; ""%string; ""%string]
           [""%string; ""%string; ""%string; ""%string]
           [CLASS_GLOBAL; CLASS_GLOBAL; CLASS_GLOBAL]
           [CLASS_GLOBAL; CLASS_GLOBAL; CLASS_GLOBAL; CLASS_GLOBAL]).
  - reflexivity.
  - reflexivity.
Defined.

(** X5.  Every state variable a constructed process connects is one its
    class declares: the source index of the process, and for evaporation
    and sublimation both ends of both connections, are registry indices of
    the state variables [GetParticipatingStateVarList] declares; the
    levels it declares are all [DOESNT_EXIST].  The arrays must hold the
    three entries (one for drip) the query writes. *)
Theorem connections_are_declared (pModel : CModel) (p : CanopyProcess)
  (aSV : list sv_type) (aLev : list Z) :
  constructed pModel p ->
  (nConnections (connections p) + (if credits_AET p then 1 else 0)
   <= length aSV)%nat ->
  (nConnections (connections p) + (if credits_AET p then 1 else 0)
   <= length aLev)%nat ->
  exists r,
    GetParticipatingStateVarList p aSV aLev = Ret r
    /\ (forall sv lev, In (sv, lev) (declared r) -> lev = DOESNT_EXIST)
    /\ In (source p) (map (GetStateVarIndex pModel) (map fst (declared r)))
    /\ (credits_AET p = true ->
        forall q, (q < nConnections (connections p))%nat ->
          In (at_ (iFrom (connections p)) q)
             (map (GetStateVarIndex pModel) (map fst (declared r)))
          /\ In (at_ (iTo (connections p)) q)
                (map (GetStateVarIndex pModel) (map fst (declared r)))).
Proof.
  intros Hp HSV HLev.
  destruct Hp as [ty | ty | ty to_index d Hd].
  - simpl in HSV, HLev.
    destruct aSV as [|s0 [|s1 [|s2 svs]]]; simpl in HSV; try lia.
    destruct aLev as [|l0 [|l1 [|l2 levs]]]; simpl in HLev; try lia.
    eexists. split; [reflexivity|]. simpl. split; [|split].
    + intros sv lev [H | [H | [H | H]]]; try contradiction;
        injection H as <- <-; reflexivity.
    + left; reflexivity.
    + intros _ q Hq. destruct q as [|[|q]]; try lia; simpl; auto.
  - simpl in HSV, HLev.
    destruct aSV as [|s0 [|s1 [|s2 svs]]]; simpl in HSV; try lia.
    destruct aLev as [|l0 [|l1 [|l2 levs]]]; simpl in HLev; try lia.
    eexists. split; [reflexivity|]. simpl. split; [|split].
    + intros sv lev [H | [H | [H | H]]]; try contradiction;
        injection H as <- <-; reflexivity.
    + left; reflexivity.
    + intros _ q Hq. destruct q as [|[|q]]; try lia; simpl; auto.
  - apply drip_source in Hd. subst d. simpl in HSV, HLev.
    destruct aSV as [|s0 svs]; simpl in HSV; try lia.
    destruct aLev as [|l0 levs]; simpl in HLev; try lia.
    eexists. split; [reflexivity|]. simpl. split; [|split].
    + intros sv lev [H | H]; try contradiction.
      injection H as <- <-; reflexivity.
    + left; reflexivity.
    + discriminate.
Qed.

Lemma connections_are_declared_witness :
  exists r,
    GetParticipatingStateVarList
      (Evaporation
         (CmvCanopyEvap.CmvCanopyEvap registry_no_trunk CANEVP_RUTTER))
      [TRUNK; TRUNK; TRUNK] [0%Z; 0%Z; 0%Z] = Ret r
    /\ (forall sv lev, In (sv, lev) (declared r) -> lev = DOESNT_EXIST)
    /\ In (source
             (Evaporation
                (CmvCanopyEvap.CmvCanopyEvap registry_no_trunk
                   CANEVP_RUTTER)))
          (map (GetStateVarIndex registry_no_trunk) (map fst (declared r)))
    /\ (credits_AET
          (Evaporation
             (CmvCanopyEvap.CmvCanopyEvap registry_no_trunk CANEVP_RUTTER))
        = true ->
        forall q,
          (q < nConnections
                 (connections
                    (Evaporation
                       (CmvCanopyEvap.CmvCanopyEvap registry_no_trunk
                          CANEVP_RUTTER))))%nat ->
          In (at_ (iFrom
                     (connections
                        (Evaporation
                           (CmvCanopyEvap.CmvCanopyEvap registry_no_trunk
                              CANEVP_RUTTER)))) q)
             (map (GetStateVarIndex registry_no_trunk)
                (map fst (declared r)))
          /\ In (at_ (iTo
                        (connections
                           (Evaporation
                              (CmvCanopyEvap.CmvCanopyEvap registry_no_trunk
                                 CANEVP_RUTTER)))) q)
                (map (GetStateVarIndex registry_no_trunk)
                   (map fst (declared r)))).
Proof.
  apply (connections_are_declared registry_no_trunk
           (Evaporation
              (CmvCanopyEvap.CmvCanopyEvap registry_no_trunk CANEVP_RUTTER))
           [TRUNK; TRUNK; TRUNK] [0%Z; 0%Z; 0%Z]).
  - constructor.
  - simpl. lia.
  - simpl. lia.
Defined.

(* ================================================================== *)
(** ** More on the rates *)
(* ================================================================== *)

Lemma max_eq_left (r l : Q) : l <= r -> max r l = r.
Proof. intros H. unfold max. apply Qle_bool_iff in H. now rewrite H. Qed.

Lemma max_eq_right (r l : Q) : r < l -> max r l = l.
Proof.
  intros H. unfold max. destruct (Qle_bool l r) eqn:E; [|reflexivity].
  apply Qle_bool_iff in E. lra.
Qed.

Lemma min_eq_left (r l : Q) : r <= l -> min r l = r.
Proof. intros H. unfold min. apply Qle_bool_iff in H. now rewrite H. Qed.

Lemma min_eq_right (r l : Q) : l < r -> min r l = l.
Proof.
  intros H. unfold min. destruct (Qle_bool r l) eqn:E; [|reflexivity].
  apply Qle_bool_iff in E. lra.
Qed.

Lemma clamp_of_whole (a : Q) : min (max a 0) a == a.
Proof.
  apply Qle_antisym; [apply min_upper|].
  apply min_lower; [apply max_left | lra].
Qed.

Lemma evap_All_run (pModel : CModel) (state_vars : list Q)
  (pHRU : CHydroUnit) (Options : optStruct) (tt : time_struct)
  (r0 r1 storage budget : Q) :
  applicable pHRU ->
  ~ forest_coverage (GetSurfaceProps pHRU) == 0 ->
  ~ timestep Options == 0 ->
  read state_vars (GetStateVarIndex pModel CANOPY) = Ret storage ->
  RemainingPET pModel state_vars pHRU Options = Ret budget ->
  CmvCanopyEvap.GetRatesOfChange pModel
    (CmvCanopyEvap.CmvCanopyEvap pModel CANEVP_ALL)
    state_vars pHRU Options tt [r0; r1]
  = Ret [storage / timestep Options; storage / timestep Options].
Proof.
  intros Happ HFc0 Hnz Hsrc Hb.
  unfold CmvCanopyEvap.GetRatesOfChange.
  rewrite (applicable_guard _ Happ).
  cbn [CmvCanopyEvap.CmvCanopyEvap CmvCanopyEvap.conn CmvCanopyEvap.type
       iFrom at_ nth].
  rate_accesses.
  rewrite (Qeq_bool_false _ _ HFc0), Hsrc. cbn [bind].
  rewrite Hb. cbn [bind]. rewrite (ddiv_defined _ _ Hnz). reflexivity.
Qed.

Lemma subl_All_run
  (SublimationRate :
     list Q -> CHydroUnit -> optStruct -> time_struct -> Q ->
     sublimation_type -> outcome Q)
  (pModel : CModel) (state_vars : list Q)
  (pHRU : CHydroUnit) (Options : optStruct) (tt : time_struct)
  (r0 r1 storage budget : Q) :
  applicable pHRU ->
  ~ forest_coverage (GetSurfaceProps pHRU) == 0 ->
  ~ timestep Options == 0 ->
  read state_vars (GetStateVarIndex pModel CANOPY_SNOW) = Ret storage ->
  RemainingPET pModel state_vars pHRU Options = Ret budget ->
  CmvCanopySublimation.GetRatesOfChange SublimationRate pModel
    (CmvCanopySublimation.CmvCanopySublimation pModel SUBLIM_ALL)
    state_vars pHRU Options tt [r0; r1]
  = Ret [storage / timestep Options; storage / timestep Options].
Proof.
  intros Happ HFc0 Hnz Hsrc Hb.
  unfold CmvCanopySublimation.GetRatesOfChange.
  rewrite (applicable_guard _ Happ).
  cbn [CmvCanopySublimation.CmvCanopySublimation CmvCanopySublimation.conn
       CmvCanopySublimation.type iFrom at_ nth].
  rate_accesses.
  rewrite (Qeq_bool_false _ _ HFc0), Hb. cbn [bind].
  rewrite Hsrc. cbn [bind]. rewrite (ddiv_defined _ _ Hnz). reflexivity.
Qed.

(** X6.  The All variants of canopy evaporation and canopy sublimation, on
    an applicable unit with forest, set both entries to
    [storage / timestep], whatever the potential evapotranspiration, the
    capacity and the budget left; the constraint keeps that rate, for a
    negative storage too, and the ledger entry is the rate. *)
Theorem All_variant_takes_whole_storage
  (SublimationRate :
     list Q -> CHydroUnit -> optStruct -> time_struct -> Q ->
     sublimation_type -> outcome Q)
  (pModel : CModel) (p : CanopyProcess) (state_vars : list Q)
  (pHRU : CHydroUnit) (Options : optStruct) (tt : time_struct)
  (r0 r1 storage budget : Q) :
  p = Evaporation (CmvCanopyEvap.CmvCanopyEvap pModel CANEVP_ALL)
  \/ p = Sublimation
           (CmvCanopySublimation.CmvCanopySublimation pModel SUBLIM_ALL) ->
  applicable pHRU ->
  ~ forest_coverage (GetSurfaceProps pHRU) == 0 ->
  ~ timestep Options == 0 ->
  read state_vars (source p) = Ret storage ->
  RemainingPET pModel state_vars pHRU Options = Ret budget ->
  GetRatesOfChange SublimationRate pModel p state_vars pHRU Options tt
    [r0; r1]
  = Ret [storage / timestep Options; storage / timestep Options]
  /\ exists rate ledger,
       ConstrainedRates SublimationRate pModel p state_vars pHRU Options tt
         [r0; r1] = Ret [rate; ledger]
       /\ rate == storage / timestep Options
       /\ ledger == rate.
Proof.
  intros Hp Happ HFc0 Hnz Hsrc Hb.
  destruct Hp as [-> | ->]; unfold source in Hsrc; simpl in Hsrc;
    unfold ConstrainedRates; cbn [GetRatesOfChange ApplyConstraints].
  - rewrite (evap_All_run pModel state_vars pHRU Options tt r0 r1 storage
               budget Happ HFc0 Hnz Hsrc Hb).
    split; [reflexivity|]. cbn [bind].
    rewrite (evap_constraints_run pModel CANEVP_ALL state_vars pHRU Options
               tt _ _ storage Happ Hnz Hsrc).
    eexists; eexists. split; [reflexivity|].
    pose proof (clamp_of_whole (storage / timestep Options)) as Hc.
    split; [exact Hc|]. lra.
  - rewrite (subl_All_run SublimationRate pModel state_vars pHRU Options tt
               r0 r1 storage budget Happ HFc0 Hnz Hsrc Hb).
    split; [reflexivity|]. cbn [bind].
    rewrite (subl_constraints_run pModel SUBLIM_ALL state_vars pHRU Options
               tt _ _ storage Happ Hnz Hsrc).
    eexists; eexists. split; [reflexivity|].
    assert (Hc : min (storage / timestep Options)
                   (storage / timestep Options)
                 == storage / timestep Options).
    { rewrite min_eq_left; lra. }
    split; [exact Hc|]. lra.
Qed.

Lemma All_variant_takes_whole_storage_witness :
  GetRatesOfChange NoSublimationRate registry_no_trunk
    (Evaporation (CmvCanopyEvap.CmvCanopyEvap registry_no_trunk CANEVP_ALL))
    [1.2; 0; 0; 0] (mkHRU HRU_STANDARD 0.5 4 0 0 0 4) (mkOptions 1 false) t0
    [0; 0]
  = Ret [1.2 / timestep (mkOptions 1 false);
         1.2 / timestep (mkOptions 1 false)]
  /\ exists rate ledger,
       ConstrainedRates NoSublimationRate registry_no_trunk
         (Evaporation
            (CmvCanopyEvap.CmvCanopyEvap registry_no_trunk CANEVP_ALL))
         [1.2; 0; 0; 0] (mkHRU HRU_STANDARD 0.5 4 0 0 0 4)
         (mkOptions 1 false) t0 [0; 0] = Ret [rate; ledger]
       /\ rate == 1.2 / timestep (mkOptions 1 false)
       /\ ledger == rate.
Proof.
  apply (All_variant_takes_whole_storage NoSublimationRate registry_no_trunk
           _ [1.2; 0; 0; 0] (mkHRU HRU_STANDARD 0.5 4 0 0 0 4)
           (mkOptions 1 false) t0 0 0 1.2 4).
  - left; reflexivity.
  - left; reflexivity.
  - discriminate.
  - discriminate.
  - reflexivity.
  - reflexivity.
Defined.

(** X7.  The Rutter variant reads the storage through the clamp to
    [0, cap * Fc]: a storage at or below zero gives the rate zero, and a
    storage at or above [cap * Fc] gives the rate of a saturated canopy,
    [(1 - Ft) * Fc * budget], the same for every such storage.  The unit is
    applicable with positive forest coverage and capacity; [Ft] is the
    trunk fraction, 0 when no TRUNK state variable is registered. *)
Theorem Rutter_storage_clamp (pModel : CModel) (state_vars : list Q)
  (pHRU : CHydroUnit) (Options : optStruct) (tt : time_struct)
  (r0 r1 storage budget : Q) :
  let Fc := forest_coverage (GetSurfaceProps pHRU) in
  let cap := capacity (GetVegVarProps pHRU) in
  let Ft := if (GetStateVarIndex pModel TRUNK =? DOESNT_EXIST)%Z
            then 0 else trunk_fraction (GetVegetationProps pHRU) in
  applicable pHRU ->
  0 < Fc ->
  0 < cap ->
  read state_vars (GetStateVarIndex pModel CANOPY) = Ret storage ->
  RemainingPET pModel state_vars pHRU Options = Ret budget ->
  exists rate,
    CmvCanopyEvap.GetRatesOfChange pModel
      (CmvCanopyEvap.CmvCanopyEvap pModel CANEVP_RUTTER)
      state_vars pHRU Options tt [r0; r1] = Ret [rate; rate]
    /\ (storage <= 0 -> rate == 0)
    /\ (cap * Fc <= storage -> rate == (1 - Ft) * Fc * budget).
Proof.
  intros Fc cap Ft Happ HFc Hcap Hsrc Hb.
  assert (Hpos : 0 < cap * Fc) by (apply Qmult_lt_0_compat; assumption).
  assert (Hden : ~ cap * Fc == 0) by lra.
  rewrite (Rutter_run pModel state_vars pHRU Options tt r0 r1 storage budget
             Happ Hden Hsrc Hb).
  eexists. split; [reflexivity|]. fold Fc cap Ft.
  split; intros Hs.
  - assert (Hm : max storage 0 == 0).
    { destruct (Qlt_le_dec storage 0) as [Hlt | Hge].
      - rewrite max_eq_right by exact Hlt. reflexivity.
      - rewrite max_eq_left by exact Hge. lra. }
    assert (Hst : min (max storage 0) (cap * Fc) == 0).
    { rewrite min_eq_left by lra. exact Hm. }
    unfold Qdiv. rewrite Hst. ring.
  - assert (Hm : cap * Fc <= max storage 0).
    { pose proof (max_left storage 0). lra. }
    assert (Hst : min (max storage 0) (cap * Fc) == cap * Fc).
    { apply Qle_antisym; [apply min_upper|].
      apply min_lower; [exact Hm | lra]. }
    rewrite Hst. field. split; lra.
Qed.

Lemma Rutter_storage_clamp_witness :
  exists rate,
    CmvCanopyEvap.GetRatesOfChange registry_no_trunk
      (CmvCanopyEvap.CmvCanopyEvap registry_no_trunk CANEVP_RUTTER)
      [-3; 0; 0; 0] (mkHRU HRU_STANDARD 0.6 5 0.3 0 0 4)
      (mkOptions 1 true) t0 [0; 0] = Ret [rate; rate]
    /\ (-3 <= 0 -> rate == 0)
    /\ (5 * 0.6 <= -3 ->
        rate == (1 - (if (GetStateVarIndex registry_no_trunk TRUNK
                          =? DOESNT_EXIST)%Z
                      then 0 else 0.3)) * 0.6 * 4).
Proof.
  apply (Rutter_storage_clamp registry_no_trunk [-3; 0; 0; 0]
           (mkHRU HRU_STANDARD 0.6 5 0.3 0 0 4) (mkOptions 1 true) t0
           0 0 (-3) 4).
  - left; reflexivity.
  - reflexivity.
  - reflexivity.
  - reflexivity.
  - reflexivity.
Defined.

Lemma RemainingPET_nonnegative (pModel : CModel) (state_vars : list Q)
  (pHRU : CHydroUnit) (Options : optStruct) (budget : Q) :
  RemainingPET pModel state_vars pHRU Options = Ret budget -> 0 <= budget.
Proof.
  unfold RemainingPET. intros Hb.
  destruct (negb (suppressCompetitiveET Options)).
  - destruct (read state_vars (GetStateVarIndex pModel AET)) as [used| |];
      try discriminate Hb. cbn [bind] in Hb.
    destruct (used // timestep Options) as [share| |]; try discriminate Hb.
    cbn [bind] in Hb. injection Hb as <-. apply max_lower.
  - injection Hb as <-. apply max_lower.
Qed.

(** X8.  On the same applicable unit and state, with forest coverage in
    (0, 1], positive capacity and trunk fraction in [0, 1], the Rutter
    rate of canopy evaporation lies between zero and the Maximum rate, and
    the Maximum rate is at most the budget of potential evapotranspiration
    that remains. *)
Theorem Rutter_below_Maximum (pModel : CModel) (state_vars : list Q)
  (pHRU : CHydroUnit) (Options : optStruct) (tt : time_struct)
  (r0 r1 storage budget : Q) :
  applicable pHRU ->
  0 < forest_coverage (GetSurfaceProps pHRU) <= 1 ->
  0 < capacity (GetVegVarProps pHRU) ->
  0 <= trunk_fraction (GetVegetationProps pHRU) <= 1 ->
  read state_vars (GetStateVarIndex pModel CANOPY) = Ret storage ->
  RemainingPET pModel state_vars pHRU Options = Ret budget ->
  exists rutter maximum,
    CmvCanopyEvap.GetRatesOfChange pModel
      (CmvCanopyEvap.CmvCanopyEvap pModel CANEVP_RUTTER)
      state_vars pHRU Options tt [r0; r1] = Ret [rutter; rutter]
    /\ CmvCanopyEvap.GetRatesOfChange pModel
         (CmvCanopyEvap.CmvCanopyEvap pModel CANEVP_MAXIMUM)
         state_vars pHRU Options tt [r0; r1] = Ret [maximum; maximum]
    /\ 0 <= rutter /\ rutter <= maximum /\ maximum <= budget.
Proof.
  intros Happ [HFc0 HFc1] Hcap [HFt0 HFt1] Hsrc Hb.
  set (Fc := forest_coverage (GetSurfaceProps pHRU)) in *.
  set (cap := capacity (GetVegVarProps pHRU)) in *.
  assert (Hpos : 0 < cap * Fc) by (apply Qmult_lt_0_compat; assumption).
  assert (Hden : ~ cap * Fc == 0) by lra.
  assert (HFcnz : ~ Fc == 0) by lra.
  pose proof (RemainingPET_nonnegative _ _ _ _ _ Hb) as Hbudget.
  rewrite (Rutter_run pModel state_vars pHRU Options tt r0 r1 storage budget
             Happ Hden Hsrc Hb).
  rewrite (evap_Maximum_run pModel state_vars pHRU Options tt r0 r1 storage
             budget Happ HFcnz Hsrc Hb).
  eexists; eexists. split; [reflexivity|]. split; [reflexivity|].
  fold Fc cap.
  set (Ft := if (GetStateVarIndex pModel TRUNK =? DOESNT_EXIST)%Z
             then 0 else trunk_fraction (GetVegetationProps pHRU)).
  set (stor := min (max storage 0) (cap * Fc)).
  assert (HFt : 0 <= 1 - Ft /\ 1 - Ft <= 1).
  { unfold Ft. destruct (GetStateVarIndex pModel TRUNK =? DOESNT_EXIST)%Z;
      lra. }
  assert (Hstor : 0 <= stor /\ stor <= cap * Fc).
  { unfold stor. split; [|apply min_upper].
    apply min_lower; [apply max_lower | lra]. }
  destruct (saturation_share stor _ Hpos (proj1 Hstor) (proj2 Hstor))
    as [Hs0 Hs1].
  destruct (share_product (1 - Ft) (stor / (cap * Fc))) as [Hk0 Hk1];
    try lra.
  destruct (share_within Fc budget) as [Hm0 Hm1]; try lra.
  destruct (share_within ((1 - Ft) * (stor / (cap * Fc))) (Fc * budget)
              Hk0 Hk1 Hm0) as [Hr0 Hr1].
  split; [|split]; lra.
Qed.

Lemma Rutter_below_Maximum_witness :
  exists rutter maximum,
    CmvCanopyEvap.GetRatesOfChange registry_with_trunk
      (CmvCanopyEvap.CmvCanopyEvap registry_with_trunk CANEVP_RUTTER)
      [2; 0; 0; 1; 0] (mkHRU HRU_STANDARD 0.6 5 0.25 0 0 4)
      (mkOptions 1 false) t0 [0; 0] = Ret [rutter; rutter]
    /\ CmvCanopyEvap.GetRatesOfChange registry_with_trunk
         (CmvCanopyEvap.CmvCanopyEvap registry_with_trunk CANEVP_MAXIMUM)
         [2; 0; 0; 1; 0] (mkHRU HRU_STANDARD 0.6 5 0.25 0 0 4)
         (mkOptions 1 false) t0 [0; 0] = Ret [maximum; maximum]
    /\ 0 <= rutter /\ rutter <= maximum /\ maximum <= 3.
Proof.
  apply (Rutter_below_Maximum registry_with_trunk [2; 0; 0; 1; 0]
           (mkHRU HRU_STANDARD 0.6 5 0.25 0 0 4) (mkOptions 1 false) t0
           0 0 2 3).
  - left; reflexivity.
  - split; [reflexivity | unfold Qle; simpl; lia].
  - reflexivity.
  - split; unfold Qle; simpl; lia.
  - reflexivity.
  - reflexivity.
Defined.

(** X9.  The budget of potential evapotranspiration is never negative and,
    with a positive timestep and a ledger that is not negative, never
    above [max PET 0].  Once the ledger over the timestep has reached
    [max PET 0] (suppression disabled), Rutter and Maximum canopy
    evaporation and Maximum canopy sublimation compute the rate zero on an
    applicable unit with positive forest coverage and capacity. *)
Theorem budget_bounds_and_exhaustion
  (SublimationRate :
     list Q -> CHydroUnit -> optStruct -> time_struct -> Q ->
     sublimation_type -> outcome Q)
  (pModel : CModel) (state_vars : list Q) (pHRU : CHydroUnit)
  (Options : optStruct) (tt : time_struct) :
  0 < timestep Options ->
  (forall budget used,
      RemainingPET pModel state_vars pHRU Options = Ret budget ->
      read state_vars (GetStateVarIndex pModel AET) = Ret used ->
      0 <= used ->
      0 <= budget /\ budget <= max (PET (GetForcingFunctions pHRU)) 0)
  /\
  (forall (p : CanopyProcess) (r0 r1 storage used : Q),
      constructed pModel p ->
      PET_limited p = true ->
      applicable pHRU ->
      0 < forest_coverage (GetSurfaceProps pHRU) ->
      0 < capacity (GetVegVarProps pHRU) ->
      suppressCompetitiveET Options = false ->
      read state_vars (GetStateVarIndex pModel AET) = Ret used ->
      max (PET (GetForcingFunctions pHRU)) 0 <= used / timestep Options ->
      read state_vars (source p) = Ret storage ->
      exists rate,
        GetRatesOfChange SublimationRate pModel p state_vars pHRU Options tt
          [r0; r1] = Ret [rate; rate]
        /\ rate == 0).
Proof.
  intros Hdt. assert (Hnz : ~ timestep Options == 0) by lra. split.
  - intros budget used Hb Hused Hu.
    split; [exact (RemainingPET_nonnegative _ _ _ _ _ Hb)|].
    destruct (suppressCompetitiveET Options) eqn:Hs.
    + unfold RemainingPET in Hb. rewrite Hs in Hb. cbn [negb] in Hb.
      injection Hb as <-. lra.
    + rewrite (RemainingPET_competitive pModel state_vars pHRU Options used
                 Hs Hnz Hused) in Hb.
      injection Hb as <-.
      assert (0 <= used / timestep Options).
      { apply Qle_shift_div_l; [exact Hdt | lra]. }
      pose proof (max_lower (PET (GetForcingFunctions pHRU)) 0).
      apply max_least; lra.
  - intros p r0 r1 storage used Hp Hlim Happ HFc Hcap Hs Hused Hfull Hsrc.
    pose proof (RemainingPET_competitive pModel state_vars pHRU Options used
                  Hs Hnz Hused) as Hb.
    set (budget := max (max (PET (GetForcingFunctions pHRU)) 0
                        - used / timestep Options) 0) in *.
    assert (Hzero : budget == 0).
    { apply Qle_antisym; [|apply max_lower].
      apply max_least; lra. }
    assert (HFc0 : ~ forest_coverage (GetSurfaceProps pHRU) == 0) by lra.
    destruct Hp as [ty | ty | ty to_index d Hd].
    + unfold source in Hsrc. simpl in Hsrc. cbn [GetRatesOfChange].
      destruct ty; try discriminate Hlim.
      * assert (Hden : ~ capacity (GetVegVarProps pHRU)
                         * forest_coverage (GetSurfaceProps pHRU) == 0).
        { assert (0 < capacity (GetVegVarProps pHRU)
                      * forest_coverage (GetSurfaceProps pHRU))
            by (apply Qmult_lt_0_compat; assumption).
          lra. }
        rewrite (Rutter_run pModel state_vars pHRU Options tt r0 r1 storage
                   budget Happ Hden Hsrc Hb).
        eexists. split; [reflexivity|]. rewrite Hzero. ring.
      * rewrite (evap_Maximum_run pModel state_vars pHRU Options tt r0 r1
                   storage budget Happ HFc0 Hsrc Hb).
        eexists. split; [reflexivity|]. rewrite Hzero. ring.
    + cbn [GetRatesOfChange]. destruct ty; try discriminate Hlim.
      rewrite (subl_Maximum_run SublimationRate pModel state_vars pHRU
                 Options tt r0 r1 budget Happ HFc0 Hb).
      eexists. split; [reflexivity|]. rewrite Hzero. ring.
    + apply drip_source in Hd. subst d. discriminate Hlim.
Qed.

Lemma budget_bounds_and_exhaustion_witness :
  exists rate,
    GetRatesOfChange NoSublimationRate registry_no_trunk
      (Evaporation
         (CmvCanopyEvap.CmvCanopyEvap registry_no_trunk CANEVP_RUTTER))
      [2; 0; 0; 8] (mkHRU HRU_STANDARD 0.6 5 0.3 0 0 4) (mkOptions 2 false)
      t0 [0; 0] = Ret [rate; rate]
    /\ rate == 0.
Proof.
  apply (proj2 (budget_bounds_and_exhaustion NoSublimationRate
                  registry_no_trunk [2; 0; 0; 8]
                  (mkHRU HRU_STANDARD 0.6 5 0.3 0 0 4) (mkOptions 2 false)
                  t0 eq_refl) _ 0 0 2 8).
  - constructor.
  - reflexivity.
  - left; reflexivity.
  - reflexivity.
  - reflexivity.
  - reflexivity.
  - reflexivity.
  - unfold Qle; simpl; lia.
  - reflexivity.
Defined.

(** X10.  The movers read two entries of the state vector at most: the
    source of the process and, unless competitive-ET suppression is
    enabled, the ledger.  Two state vectors that agree there give the same
    outcome of [GetRatesOfChange], and two that agree on the source give
    the same outcome of [ApplyConstraints]. *)
Theorem movers_read_source_and_ledger
  (SublimationRate :
     list Q -> CHydroUnit -> optStruct -> time_struct -> Q ->
     sublimation_type -> outcome Q)
  (pModel : CModel) (p : CanopyProcess) (state_vars state_vars' : list Q)
  (pHRU : CHydroUnit) (Options : optStruct) (tt : time_struct)
  (rates : list Q) :
  read state_vars (source p) = read state_vars' (source p) ->
  (suppressCompetitiveET Options = false ->
   read state_vars (GetStateVarIndex pModel AET)
   = read state_vars' (GetStateVarIndex pModel AET)) ->
  GetRatesOfChange SublimationRate pModel p state_vars pHRU Options tt rates
  = GetRatesOfChange SublimationRate pModel p state_vars' pHRU Options tt
      rates
  /\ ApplyConstraints p state_vars pHRU Options tt rates
     = ApplyConstraints p state_vars' pHRU Options tt rates.
Proof.
  intros Hsrc Hled.
  assert (Hpet : RemainingPET pModel state_vars pHRU Options
                 = RemainingPET pModel state_vars' pHRU Options).
  { unfold RemainingPET.
    destruct (suppressCompetitiveET Options); cbn [negb]; [reflexivity|].
    rewrite Hled; reflexivity. }
  unfold source in Hsrc.
  destruct p as [e | s | d]; cbn [connections] in Hsrc;
    cbn [GetRatesOfChange ApplyConstraints].
  - unfold CmvCanopyEvap.GetRatesOfChange, CmvCanopyEvap.ApplyConstraints.
    rewrite Hsrc, Hpet. split; reflexivity.
  - unfold CmvCanopySublimation.GetRatesOfChange,
      CmvCanopySublimation.ApplyConstraints.
    rewrite Hsrc, Hpet. split; reflexivity.
  - unfold CmvCanopyDrip.GetRatesOfChange, CmvCanopyDrip.ApplyConstraints.
    rewrite Hsrc. split; reflexivity.
Qed.

Lemma movers_read_source_and_ledger_witness :
  GetRatesOfChange NoSublimationRate registry_no_trunk
    (Evaporation
       (CmvCanopyEvap.CmvCanopyEvap registry_no_trunk CANEVP_MAXIMUM))
    [2; 7; 7; 1] (mkHRU HRU_STANDARD 0.6 5 0.3 0 0 4) (mkOptions 1 true) t0
    [0; 0]
  = GetRatesOfChange NoSublimationRate registry_no_trunk
      (Evaporation
         (CmvCanopyEvap.CmvCanopyEvap registry_no_trunk CANEVP_MAXIMUM))
      [2] (mkHRU HRU_STANDARD 0.6 5 0.3 0 0 4) (mkOptions 1 true) t0 [0; 0]
  /\ ApplyConstraints
       (Evaporation
          (CmvCanopyEvap.CmvCanopyEvap registry_no_trunk CANEVP_MAXIMUM))
       [2; 7; 7; 1] (mkHRU HRU_STANDARD 0.6 5 0.3 0 0 4) (mkOptions 1 true)
       t0 [0; 0]
     = ApplyConstraints
         (Evaporation
            (CmvCanopyEvap.CmvCanopyEvap registry_no_trunk CANEVP_MAXIMUM))
         [2] (mkHRU HRU_STANDARD 0.6 5 0.3 0 0 4) (mkOptions 1 true) t0
         [0; 0].
Proof.
  apply (movers_read_source_and_ledger NoSublimationRate registry_no_trunk).
  - reflexivity.
  - discriminate.
Defined.

(* ================================================================== *)
(** ** Canopy drip and the pair of calls *)
(* ================================================================== *)

Lemma drip_Rutter_run (pModel : CModel) (to_index : Z)
  (state_vars : list Q) (pHRU : CHydroUnit) (Options : optStruct)
  (tt : time_struct) (r0 storage : Q) (rest : list Q) :
  applicable pHRU ->
  ~ forest_coverage (GetSurfaceProps pHRU) == 0 ->
  ~ timestep Options == 0 ->
  read state_vars (GetStateVarIndex pModel CANOPY) = Ret storage ->
  CmvCanopyDrip.GetRatesOfChange pModel
    {| CmvCanopyDrip.type := CANDRIP_RUTTER;
       CmvCanopyDrip.conn :=
         {| nConnections := 1;
            iFrom := [GetStateVarIndex pModel CANOPY];
            iTo := [to_index] |} |}
    state_vars pHRU Options tt (r0 :: rest)
  = Ret ((1 - (if (GetStateVarIndex pModel TRUNK <? 0)%Z then 0
               else stemflow_frac (GetVegetationProps pHRU)))
         * max ((storage
                 - forest_coverage (GetSurfaceProps pHRU)
                   * capacity (GetVegVarProps pHRU)) / timestep Options) 0
         :: rest).
Proof.
  intros Happ HFc0 Hnz Hsrc.
  unfold CmvCanopyDrip.GetRatesOfChange.
  rewrite (applicable_guard _ Happ).
  cbn [CmvCanopyDrip.conn CmvCanopyDrip.type iFrom at_ nth].
  rate_accesses.
  rewrite (Qeq_bool_false _ _ HFc0), Hsrc. cbn [bind].
  rewrite (ddiv_defined _ _ Hnz). cbn [bind]. rate_accesses.
  reflexivity.
Qed.

Lemma drip_Slowdrain_run (pModel : CModel) (to_index : Z)
  (state_vars : list Q) (pHRU : CHydroUnit) (Options : optStruct)
  (tt : time_struct) (r0 storage : Q) (rest : list Q) :
  applicable pHRU ->
  ~ forest_coverage (GetSurfaceProps pHRU) == 0 ->
  ~ timestep Options == 0 ->
  read state_vars (GetStateVarIndex pModel CANOPY) = Ret storage ->
  CmvCanopyDrip.GetRatesOfChange pModel
    {| CmvCanopyDrip.type := CANDRIP_SLOWDRAIN;
       CmvCanopyDrip.conn :=
         {| nConnections := 1;
            iFrom := [GetStateVarIndex pModel CANOPY];
            iTo := [to_index] |} |}
    state_vars pHRU Options tt (r0 :: rest)
  = Ret (max ((storage
               - forest_coverage (GetSurfaceProps pHRU)
                 * capacity (GetVegVarProps pHRU)) / timestep Options) 0
         + min (drip_proportion (GetVegetationProps pHRU)
                * (storage / forest_coverage (GetSurfaceProps pHRU)))
             (storage / forest_coverage (GetSurfaceProps pHRU)
              / timestep Options)
         :: rest).
Proof.
  intros Happ HFc0 Hnz Hsrc.
  unfold CmvCanopyDrip.GetRatesOfChange.
  rewrite (applicable_guard _ Happ).
  cbn [CmvCanopyDrip.conn CmvCanopyDrip.type iFrom at_ nth].
  rate_accesses.
  rewrite (Qeq_bool_false _ _ HFc0), Hsrc. cbn [bind].
  rewrite (ddiv_defined _ _ Hnz). cbn [bind].
  rewrite (ddiv_defined _ _ HFc0). cbn [bind].
  rewrite (ddiv_defined _ _ Hnz). cbn [bind]. rate_accesses.
  reflexivity.
Qed.

Lemma drip_constraints_run (pModel : CModel) (cdtype : candrip_type)
  (to_index : Z) (state_vars : list Q) (pHRU : CHydroUnit)
  (Options : optStruct) (tt : time_struct) (r0 storage : Q)
  (rest : list Q) :
  applicable pHRU ->
  ~ timestep Options == 0 ->
  read state_vars (GetStateVarIndex pModel CANOPY) = Ret storage ->
  CmvCanopyDrip.ApplyConstraints
    {| CmvCanopyDrip.type := cdtype;
       CmvCanopyDrip.conn :=
         {| nConnections := 1;
            iFrom := [GetStateVarIndex pModel CANOPY];
            iTo := [to_index] |} |}
    state_vars pHRU Options tt (r0 :: rest)
  = Ret (min r0 (storage / timestep Options) :: rest).
Proof.
  intros Happ Hnz Hsrc.
  unfold CmvCanopyDrip.ApplyConstraints.
  rewrite (applicable_guard _ Happ).
  cbn [CmvCanopyDrip.conn iFrom at_ nth].
  rate_accesses. rewrite Hsrc. cbn [bind].
  rewrite (ddiv_defined _ _ Hnz). cbn [bind]. rate_accesses.
  reflexivity.
Qed.

(** X11.  Rutter drip is the overflow above [Fc * cap]: on an applicable
    unit with forest and a positive timestep the rate is zero while the
    storage is at most [Fc * cap]; from there on it is the share [1 - p]
    of the overflow per timestep, [(storage - Fc * cap) / timestep], where
    the stemflow fraction [p] is 0 when no TRUNK state variable is
    registered. *)
Theorem drip_Rutter_overflow (pModel : CModel) (to_index : Z)
  (d : CmvCanopyDrip.t) (state_vars : list Q) (pHRU : CHydroUnit)
  (Options : optStruct) (tt : time_struct) (r0 storage : Q) :
  let Fc := forest_coverage (GetSurfaceProps pHRU) in
  let cap := capacity (GetVegVarProps pHRU) in
  let p := if (GetStateVarIndex pModel TRUNK <? 0)%Z then 0
           else stemflow_frac (GetVegetationProps pHRU) in
  CmvCanopyDrip.CmvCanopyDrip pModel CANDRIP_RUTTER to_index = Ret d ->
  applicable pHRU ->
  ~ Fc == 0 ->
  0 < timestep Options ->
  read state_vars (GetStateVarIndex pModel CANOPY) = Ret storage ->
  exists rate,
    CmvCanopyDrip.GetRatesOfChange pModel d state_vars pHRU Options tt [r0]
    = Ret [rate]
    /\ (storage <= Fc * cap -> rate == 0)
    /\ (Fc * cap <= storage ->
        rate == (1 - p) * ((storage - Fc * cap) / timestep Options)).
Proof.
  intros Fc cap p Hd Happ HFc0 Hdt Hsrc.
  assert (Hnz : ~ timestep Options == 0) by lra.
  apply drip_source in Hd. subst d.
  rewrite (drip_Rutter_run pModel to_index state_vars pHRU Options tt r0
             storage [] Happ HFc0 Hnz Hsrc).
  eexists. split; [reflexivity|]. fold Fc cap p.
  split; intros Hs.
  - assert (Hover : (storage - Fc * cap) / timestep Options <= 0).
    { apply Qle_shift_div_r; [exact Hdt | lra]. }
    assert (Hm : max ((storage - Fc * cap) / timestep Options) 0 == 0).
    { apply Qle_antisym; [apply max_least; lra | apply max_lower]. }
    rewrite Hm. ring.
  - assert (Hover : 0 <= (storage - Fc * cap) / timestep Options).
    { apply Qle_shift_div_l; [exact Hdt | lra]. }
    rewrite (max_eq_left _ _ Hover). reflexivity.
Qed.

Lemma drip_Rutter_overflow_witness :
  exists rate,
    CmvCanopyDrip.GetRatesOfChange registry_no_trunk drip_to_atmosphere
      [3; 0; 0; 0] (mkHRU HRU_WETLAND 0.5 4 0 0.2 0 0)
      (mkOptions 2 false) t0 [7] = Ret [rate]
    /\ (3 <= 0.5 * 4 -> rate == 0)
    /\ (0.5 * 4 <= 3 ->
        rate == (1 - (if (GetStateVarIndex registry_no_trunk TRUNK <? 0)%Z
                      then 0 else 0.2))
                * ((3 - 0.5 * 4) / timestep (mkOptions 2 false))).
Proof.
  apply (drip_Rutter_overflow registry_no_trunk 2%Z drip_to_atmosphere
           [3; 0; 0; 0] (mkHRU HRU_WETLAND 0.5 4 0 0.2 0 0)
           (mkOptions 2 false) t0 7 3).
  - reflexivity.
  - right; reflexivity.
  - discriminate.
  - reflexivity.
  - reflexivity.
Defined.

(** X12.  Slow-drain drip, on an applicable unit with forest and a
    timestep other than zero, is the overflow above [Fc * cap] plus a slow
    release, the smaller of [drip * (storage / Fc)] and
    [(storage / Fc) / timestep]; with positive coverage and timestep, a
    storage and a drip proportion that are not negative, the release is
    not negative, so the rate is at least the overflow. *)
Theorem drip_Slowdrain_release (pModel : CModel) (to_index : Z)
  (d : CmvCanopyDrip.t) (state_vars : list Q) (pHRU : CHydroUnit)
  (Options : optStruct) (tt : time_struct) (r0 storage : Q) :
  let Fc := forest_coverage (GetSurfaceProps pHRU) in
  let cap := capacity (GetVegVarProps pHRU) in
  let drip := drip_proportion (GetVegetationProps pHRU) in
  let overflow := max ((storage - Fc * cap) / timestep Options) 0 in
  CmvCanopyDrip.CmvCanopyDrip pModel CANDRIP_SLOWDRAIN to_index = Ret d ->
  applicable pHRU ->
  ~ Fc == 0 ->
  ~ timestep Options == 0 ->
  read state_vars (GetStateVarIndex pModel CANOPY) = Ret storage ->
  exists release,
    CmvCanopyDrip.GetRatesOfChange pModel d state_vars pHRU Options tt [r0]
    = Ret [overflow + release]
    /\ release <= drip * (storage / Fc)
    /\ release <= storage / Fc / timestep Options
    /\ (release = drip * (storage / Fc)
        \/ release = storage / Fc / timestep Options)
    /\ (0 < Fc -> 0 < timestep Options -> 0 <= storage -> 0 <= drip ->
        0 <= release /\ 0 <= overflow).
Proof.
  intros Fc cap drip overflow Hd Happ HFc0 Hnz Hsrc.
  apply drip_source in Hd. subst d.
  rewrite (drip_Slowdrain_run pModel to_index state_vars pHRU Options tt r0
             storage [] Happ HFc0 Hnz Hsrc).
  fold Fc cap drip overflow.
  exists (min (drip * (storage / Fc)) (storage / Fc / timestep Options)).
  split; [reflexivity|]. split; [apply min_left|].
  split; [apply min_upper|]. split.
  - unfold min. destruct (Qle_bool _ _); auto.
  - intros HFc Hdt Hs Hdrip.
    assert (H1 : 0 <= storage / Fc).
    { apply Qle_shift_div_l; [exact HFc | lra]. }
    assert (H2 : 0 <= storage / Fc / timestep Options).
    { apply Qle_shift_div_l; [exact Hdt | lra]. }
    split; [|apply max_lower].
    apply min_lower; [|exact H2].
    apply Qmult_le_0_compat; assumption.
Qed.

Lemma drip_Slowdrain_release_witness :
  exists release,
    CmvCanopyDrip.GetRatesOfChange registry_no_trunk
      {| CmvCanopyDrip.type := CANDRIP_SLOWDRAIN;
         CmvCanopyDrip.conn :=
           {| nConnections := 1; iFrom := [0%Z]; iTo := [2%Z] |} |}
      [3; 0; 0; 0] (mkHRU HRU_STANDARD 0.5 4 0 0 0.1 0) (mkOptions 1 false)
      t0 [0]
    = Ret [max ((3 - 0.5 * 4) / timestep (mkOptions 1 false)) 0 + release]
    /\ release <= 0.1 * (3 / 0.5)
    /\ release <= 3 / 0.5 / timestep (mkOptions 1 false)
    /\ (release = 0.1 * (3 / 0.5)
        \/ release = 3 / 0.5 / timestep (mkOptions 1 false))
    /\ (0 < 0.5 -> 0 < timestep (mkOptions 1 false) -> 0 <= 3 -> 0 <= 0.1 ->
        0 <= release
        /\ 0 <= max ((3 - 0.5 * 4) / timestep (mkOptions 1 false)) 0).
Proof.
  apply (drip_Slowdrain_release registry_no_trunk 2%Z _ [3; 0; 0; 0]
           (mkHRU HRU_STANDARD 0.5 4 0 0 0.1 0) (mkOptions 1 false) t0 0 3).
  - reflexivity.
  - left; reflexivity.
  - discriminate.
  - discriminate.
  - reflexivity.
Defined.

Lemma clamp_evap_feasible (r avail : Q) :
  0 <= avail -> 0 <= min (max r 0) avail /\ min (max r 0) avail <= avail.
Proof.
  intros Ha. split; [|apply min_upper].
  apply min_lower; [apply max_lower | exact Ha].
Qed.

Lemma clamp_feasible (r avail : Q) :
  0 <= r -> 0 <= avail -> 0 <= min r avail /\ min r avail <= avail.
Proof.
  intros Hr Ha. split; [|apply min_upper]. apply min_lower; assumption.
Qed.

(** X13.  The pair of calls on an applicable unit leaves a feasible rate.
    Take a constructed process whose selector has a formula, forest
    coverage and capacity positive, stemflow fraction at most 1, drip
    proportion not negative, a positive timestep and a source storage that
    is not negative.  Then [GetRatesOfChange] followed by
    [ApplyConstraints] returns, whatever the rate vector held before, a
    rate in entry 0 between zero and [storage / timestep]. *)
Theorem ConstrainedRates_feasible
  (SublimationRate :
     list Q -> CHydroUnit -> optStruct -> time_struct -> Q ->
     sublimation_type -> outcome Q)
  (pModel : CModel) (p : CanopyProcess) (state_vars : list Q)
  (pHRU : CHydroUnit) (Options : optStruct) (tt : time_struct)
  (rates : list Q) (storage : Q) :
  constructed pModel p ->
  has_formula p = true ->
  applicable pHRU ->
  0 < forest_coverage (GetSurfaceProps pHRU) ->
  0 < capacity (GetVegVarProps pHRU) ->
  stemflow_frac (GetVegetationProps pHRU) <= 1 ->
  0 <= drip_proportion (GetVegetationProps pHRU) ->
  0 < timestep Options ->
  0 <= storage ->
  read state_vars (source p) = Ret storage ->
  (credits_AET p = true ->
   exists budget, RemainingPET pModel state_vars pHRU Options = Ret budget) ->
  length rates = nConnections (connections p) ->
  exists rates' rate,
    ConstrainedRates SublimationRate pModel p state_vars pHRU Options tt rates
    = Ret rates'
    /\ nth_error rates' 0 = Some rate
    /\ 0 <= rate /\ rate <= storage / timestep Options.
Proof.
  intros Hp Hform Happ HFc Hcap Hstem Hdrip Hdt Hsto Hsrc Hbud Hlen.
  assert (Hnz : ~ timestep Options == 0) by lra.
  assert (HFc0 : ~ forest_coverage (GetSurfaceProps pHRU) == 0) by lra.
  assert (Hav : 0 <= storage / timestep Options).
  { apply Qle_shift_div_l; [exact Hdt | lra]. }
  unfold ConstrainedRates.
  destruct Hp as [ty | ty | ty to_index d Hd].
  - destruct (Hbud eq_refl) as [budget Hb].
    destruct rates as [|r0 [|r1 [|]]]; try discriminate Hlen.
    unfold source in Hsrc. simpl in Hsrc.
    cbn [GetRatesOfChange ApplyConstraints credits_AET].
    assert (Hdone : forall r,
               CmvCanopyEvap.GetRatesOfChange pModel
                 (CmvCanopyEvap.CmvCanopyEvap pModel ty) state_vars pHRU
                 Options tt [r0; r1] = Ret [r; r] ->
               exists rates' rate,
                 (rates <- CmvCanopyEvap.GetRatesOfChange pModel
                             (CmvCanopyEvap.CmvCanopyEvap pModel ty)
                             state_vars pHRU Options tt [r0; r1] ;;
                  CmvCanopyEvap.ApplyConstraints
                    (CmvCanopyEvap.CmvCanopyEvap pModel ty) state_vars pHRU
                    Options tt rates) = Ret rates'
                 /\ nth_error rates' 0 = Some rate
                 /\ 0 <= rate /\ rate <= storage / timestep Options).
    { intros r Hr. rewrite Hr. cbn [bind].
      rewrite (evap_constraints_run pModel ty state_vars pHRU Options tt
                 _ _ storage Happ Hnz Hsrc).
      destruct (clamp_evap_feasible r _ Hav) as [H0 H1].
      eexists; eexists. split; [reflexivity|]. split; [reflexivity|].
      split; [exact H0 | exact H1]. }
    destruct ty; try discriminate Hform.
    + assert (Hden : ~ capacity (GetVegVarProps pHRU)
                       * forest_coverage (GetSurfaceProps pHRU) == 0).
      { assert (0 < capacity (GetVegVarProps pHRU)
                    * forest_coverage (GetSurfaceProps pHRU))
          by (apply Qmult_lt_0_compat; assumption).
        lra. }
      eapply Hdone.
      exact (Rutter_run pModel state_vars pHRU Options tt r0 r1 storage
               budget Happ Hden Hsrc Hb).
    + eapply Hdone. eapply evap_Maximum_run; eassumption.
    + eapply Hdone. eapply evap_All_run; eassumption.
  - destruct (Hbud eq_refl) as [budget Hb].
    pose proof (RemainingPET_nonnegative _ _ _ _ _ Hb) as Hb0.
    destruct rates as [|r0 [|r1 [|]]]; try discriminate Hlen.
    unfold source in Hsrc. simpl in Hsrc.
    cbn [GetRatesOfChange ApplyConstraints credits_AET].
    assert (Hdone : forall r,
               0 <= r ->
               CmvCanopySublimation.GetRatesOfChange SublimationRate pModel
                 (CmvCanopySublimation.CmvCanopySublimation pModel ty)
                 state_vars pHRU Options tt [r0; r1] = Ret [r; r] ->
               exists rates' rate,
                 (rates <- CmvCanopySublimation.GetRatesOfChange
                             SublimationRate pModel
                             (CmvCanopySublimation.CmvCanopySublimation
                                pModel ty)
                             state_vars pHRU Options tt [r0; r1] ;;
                  CmvCanopySublimation.ApplyConstraints
                    (CmvCanopySublimation.CmvCanopySublimation pModel ty)
                    state_vars pHRU Options tt rates) = Ret rates'
                 /\ nth_error rates' 0 = Some rate
                 /\ 0 <= rate /\ rate <= storage / timestep Options).
    { intros r Hr0 Hr. rewrite Hr. cbn [bind].
      rewrite (subl_constraints_run pModel ty state_vars pHRU Options tt
                 _ _ storage Happ Hnz Hsrc).
      destruct (clamp_feasible r _ Hr0 Hav) as [H0 H1].
      eexists; eexists. split; [reflexivity|]. split; [reflexivity|].
      split; [exact H0 | exact H1]. }
    destruct ty; try discriminate Hform.
    + eapply Hdone; [|eapply subl_Maximum_run; eassumption].
      apply Qmult_le_0_compat; lra.
    + eapply Hdone; [exact Hav|]. eapply subl_All_run; eassumption.
  - apply drip_source in Hd. subst d.
    destruct rates as [|r0 [|]]; try discriminate Hlen.
    unfold source, at_ in Hsrc. simpl in Hsrc.
    cbn [GetRatesOfChange ApplyConstraints credits_AET].
    assert (Hdone : forall r,
               0 <= r ->
               CmvCanopyDrip.GetRatesOfChange pModel
                 {| CmvCanopyDrip.type := ty;
                    CmvCanopyDrip.conn :=
                      {| nConnections := 1;
                         iFrom := [GetStateVarIndex pModel CANOPY];
                         iTo := [to_index] |} |}
                 state_vars pHRU Options tt [r0] = Ret [r] ->
               exists rates' rate,
                 (rates <- CmvCanopyDrip.GetRatesOfChange pModel
                             {| CmvCanopyDrip.type := ty;
                                CmvCanopyDrip.conn :=
                                  {| nConnections := 1;
                                     iFrom := [GetStateVarIndex pModel CANOPY];
                                     iTo := [to_index] |} |}
                             state_vars pHRU Options tt [r0] ;;
                  CmvCanopyDrip.ApplyConstraints
                    {| CmvCanopyDrip.type := ty;
                       CmvCanopyDrip.conn :=
                         {| nConnections := 1;
                            iFrom := [GetStateVarIndex pModel CANOPY];
                            iTo := [to_index] |} |}
                    state_vars pHRU Options tt rates) = Ret rates'
                 /\ nth_error rates' 0 = Some rate
                 /\ 0 <= rate /\ rate <= storage / timestep Options).
    { intros r Hr0 Hr. rewrite Hr. cbn [bind].
      rewrite (drip_constraints_run pModel ty to_index state_vars pHRU
                 Options tt r storage [] Happ Hnz Hsrc).
      destruct (clamp_feasible r _ Hr0 Hav) as [H0 H1].
      eexists; eexists. split; [reflexivity|]. split; [reflexivity|].
      split; [exact H0 | exact H1]. }
    destruct ty.
    + eapply Hdone; [|apply drip_Rutter_run; eassumption].
      apply Qmult_le_0_compat; [|apply max_lower].
      destruct (GetStateVarIndex pModel TRUNK <? 0)%Z; lra.
    + eapply Hdone; [|apply drip_Slowdrain_run; eassumption].
      assert (H1 : 0 <= storage / forest_coverage (GetSurfaceProps pHRU)).
      { apply Qle_shift_div_l; [exact HFc | lra]. }
      assert (H2 : 0 <= storage / forest_coverage (GetSurfaceProps pHRU)
                        / timestep Options).
      { apply Qle_shift_div_l; [exact Hdt | lra]. }
      assert (H3 : 0 <= drip_proportion (GetVegetationProps pHRU)
                        * (storage / forest_coverage (GetSurfaceProps pHRU)))
        by (apply Qmult_le_0_compat; assumption).
      pose proof (min_lower _ _ 0 H3 H2).
      pose proof (max_lower
                    ((storage
                      - forest_coverage (GetSurfaceProps pHRU)
                        * capacity (GetVegVarProps pHRU))
                     / timestep Options) 0).
      lra.
    + eapply (Hdone 0); [lra|].
      unfold CmvCanopyDrip.GetRatesOfChange.
      rewrite (applicable_guard _ Happ).
      cbn [CmvCanopyDrip.conn CmvCanopyDrip.type iFrom at_ nth].
      rate_accesses. rewrite (Qeq_bool_false _ _ HFc0), Hsrc. reflexivity.
Qed.

Lemma ConstrainedRates_feasible_witness :
  exists rates' rate,
    ConstrainedRates NoSublimationRate registry_no_trunk
      (Sublimation
         (CmvCanopySublimation.CmvCanopySublimation registry_no_trunk
            SUBLIM_MAXIMUM))
      [0; 1; 0; 0] (mkHRU HRU_STANDARD 0.5 4 0 0 0 4) (mkOptions 1 false) t0
      [9; 9] = Ret rates'
    /\ nth_error rates' 0 = Some rate
    /\ 0 <= rate /\ rate <= 1 / timestep (mkOptions 1 false).
Proof.
  apply (ConstrainedRates_feasible NoSublimationRate registry_no_trunk).
  - constructor.
  - reflexivity.
  - left; reflexivity.
  - reflexivity.
  - reflexivity.
  - unfold Qle; simpl; lia.
  - unfold Qle; simpl; lia.
  - reflexivity.
  - unfold Qle; simpl; lia.
  - reflexivity.
  - intros _. eexists. reflexivity.
  - reflexivity.
Defined.

(* ================================================================== *)
(** ** The constraint as a projection *)
(* ================================================================== *)

Lemma same_rates_refl (a : list Q) : same_rates a a.
Proof. induction a; constructor; [reflexivity | assumption]. Qed.

Lemma clamp_evap_twice (r avail : Q) :
  min (max (min (max r 0) avail) 0) avail = min (max r 0) avail.
Proof.
  pose proof (max_lower r 0) as Hm.
  destruct (Qlt_le_dec avail 0) as [Hneg | Hpos].
  - assert (H1 : min (max r 0) avail = avail) by (apply min_eq_right; lra).
    rewrite H1.
    rewrite (max_eq_right avail 0 Hneg). apply min_eq_right. exact Hneg.
  - assert (H1 : 0 <= min (max r 0) avail) by (apply min_lower; assumption).
    rewrite (max_eq_left _ 0 H1). apply min_eq_left. apply min_upper.
Qed.

Lemma clamp_twice (r avail : Q) : min (min r avail) avail = min r avail.
Proof. apply min_eq_left. apply min_upper. Qed.

Lemma read_nothing (i : Z) : read [] i = Fault OutOfRange.
Proof.
  unfold read. destruct (i <? 0)%Z; [reflexivity|].
  destruct (Z.to_nat i); reflexivity.
Qed.

(** X14.  Constraining twice is constraining once: when [ApplyConstraints]
    returns a rate vector, [ApplyConstraints] on that vector returns it
    again, entry by entry, for every process, unit, state and incoming
    vector. *)
Theorem ApplyConstraints_idempotent (p : CanopyProcess)
  (state_vars : list Q) (pHRU : CHydroUnit) (Options : optStruct)
  (tt : time_struct) (rates rates' : list Q) :
  ApplyConstraints p state_vars pHRU Options tt rates = Ret rates' ->
  exists rates'',
    ApplyConstraints p state_vars pHRU Options tt rates' = Ret rates''
    /\ same_rates rates'' rates'.
Proof.
  destruct p as [e | s | d]; cbn [ApplyConstraints].
  - unfold CmvCanopyEvap.ApplyConstraints.
    destruct (not_applicable pHRU).
    { intros H. injection H as <-. exists rates.
      split; [reflexivity | apply same_rates_refl]. }
    destruct rates as [|r0 [|r1 rest]].
    + rewrite read_nothing. discriminate.
    + rate_accesses.
      destruct (read state_vars (at_ (iFrom (CmvCanopyEvap.conn e)) 0))
        as [storage| |]; try discriminate. cbn [bind].
      destruct (storage // timestep Options) as [avail| |]; discriminate.
    + rate_accesses.
      destruct (read state_vars (at_ (iFrom (CmvCanopyEvap.conn e)) 0))
        as [storage| |]; try discriminate. cbn [bind].
      destruct (storage // timestep Options) as [avail| |];
        try discriminate. cbn [bind]. rate_accesses.
      intros H. injection H as <-. rate_accesses.
      eexists. split; [reflexivity|].
      rewrite clamp_evap_twice.
      constructor; [reflexivity|].
      constructor; [lra | apply same_rates_refl].
  - unfold CmvCanopySublimation.ApplyConstraints.
    destruct (not_applicable pHRU).
    { intros H. injection H as <-. exists rates.
      split; [reflexivity | apply same_rates_refl]. }
    destruct rates as [|r0 [|r1 rest]].
    + rewrite read_nothing. discriminate.
    + rate_accesses.
      destruct (read state_vars
                  (at_ (iFrom (CmvCanopySublimation.conn s)) 0))
        as [storage| |]; try discriminate. cbn [bind].
      destruct (storage // timestep Options) as [avail| |]; discriminate.
    + rate_accesses.
      destruct (read state_vars
                  (at_ (iFrom (CmvCanopySublimation.conn s)) 0))
        as [storage| |]; try discriminate. cbn [bind].
      destruct (storage // timestep Options) as [avail| |];
        try discriminate. cbn [bind]. rate_accesses.
      intros H. injection H as <-. rate_accesses.
      eexists. split; [reflexivity|].
      rewrite clamp_twice.
      constructor; [reflexivity|].
      constructor; [lra | apply same_rates_refl].
  - unfold CmvCanopyDrip.ApplyConstraints.
    destruct (not_applicable pHRU).
    { intros H. injection H as <-. exists rates.
      split; [reflexivity | apply same_rates_refl]. }
    destruct rates as [|r0 rest].
    + rewrite read_nothing. discriminate.
    + rate_accesses.
      destruct (read state_vars (at_ (iFrom (CmvCanopyDrip.conn d)) 0))
        as [storage| |]; try discriminate. cbn [bind].
      destruct (storage // timestep Options) as [avail| |];
        try discriminate. cbn [bind]. rate_accesses.
      intros H. injection H as <-. rate_accesses.
      eexists. split; [reflexivity|].
      unfold threshMin. rewrite clamp_twice. apply same_rates_refl.
Qed.

Lemma ApplyConstraints_idempotent_witness :
  exists rates'',
    ApplyConstraints
      (Evaporation
         (CmvCanopyEvap.CmvCanopyEvap registry_no_trunk CANEVP_MAXIMUM))
      [2; 0; 0; 0] (mkHRU HRU_STANDARD 0.5 4 0 0 0 4) (mkOptions 1 false) t0
      [2; 2] = Ret rates''
    /\ same_rates rates'' [2; 2].
Proof.
  apply (ApplyConstraints_idempotent
           (Evaporation
              (CmvCanopyEvap.CmvCanopyEvap registry_no_trunk CANEVP_MAXIMUM))
           [2; 0; 0; 0] (mkHRU HRU_STANDARD 0.5 4 0 0 0 4)
           (mkOptions 1 false) t0 [5; 5] [2; 2]).
  reflexivity.
Defined.

(** X15.  A feasible rate passes the constraint as it is: on an applicable
    unit, when the incoming [rates[0]] is at most [storage / timestep] and,
    for canopy evaporation, not negative, [ApplyConstraints] of a
    constructed process returns the incoming vector, entry by entry; the
    ledger entry is not moved. *)
Theorem ApplyConstraints_keeps_feasible (pModel : CModel)
  (p : CanopyProcess) (state_vars : list Q) (pHRU : CHydroUnit)
  (Options : optStruct) (tt : time_struct) (rates : list Q)
  (storage r0 : Q) :
  constructed pModel p ->
  applicable pHRU ->
  ~ timestep Options == 0 ->
  length rates = nConnections (connections p) ->
  read state_vars (source p) = Ret storage ->
  nth_error rates 0 = Some r0 ->
  r0 <= storage / timestep Options ->
  (lower_clamp p = true -> 0 <= r0) ->
  exists rates',
    ApplyConstraints p state_vars pHRU Options tt rates = Ret rates'
    /\ same_rates rates' rates.
Proof.
  intros Hp Happ Hnz Hlen Hsrc Hr0 Hup Hlow.
  destruct Hp as [ty | ty | ty to_index d Hd].
  - destruct rates as [|x [|r1 [|]]]; try discriminate Hlen.
    injection Hr0 as ->. unfold source in Hsrc. simpl in Hsrc.
    cbn [ApplyConstraints].
    rewrite (evap_constraints_run pModel ty state_vars pHRU Options tt
               r0 r1 storage Happ Hnz Hsrc).
    eexists. split; [reflexivity|].
    rewrite (max_eq_left r0 0 (Hlow eq_refl)), (min_eq_left _ _ Hup).
    constructor; [reflexivity|]. constructor; [lra | constructor].
  - destruct rates as [|x [|r1 [|]]]; try discriminate Hlen.
    injection Hr0 as ->. unfold source in Hsrc. simpl in Hsrc.
    cbn [ApplyConstraints].
    rewrite (subl_constraints_run pModel ty state_vars pHRU Options tt
               r0 r1 storage Happ Hnz Hsrc).
    eexists. split; [reflexivity|].
    rewrite (min_eq_left _ _ Hup).
    constructor; [reflexivity|]. constructor; [lra | constructor].
  - apply drip_source in Hd. subst d.
    destruct rates as [|x [|]]; try discriminate Hlen.
    injection Hr0 as ->. unfold source, at_ in Hsrc. simpl in Hsrc.
    cbn [ApplyConstraints].
    rewrite (drip_constraints_run pModel ty to_index state_vars pHRU
               Options tt r0 storage [] Happ Hnz Hsrc).
    eexists. split; [reflexivity|].
    rewrite (min_eq_left _ _ Hup). apply same_rates_refl.
Qed.

Lemma ApplyConstraints_keeps_feasible_witness :
  exists rates',
    ApplyConstraints
      (Evaporation
         (CmvCanopyEvap.CmvCanopyEvap registry_no_trunk CANEVP_RUTTER))
      [4; 0; 0; 0] (mkHRU HRU_STANDARD 0.5 4 0 0 0 4) (mkOptions 2 false) t0
      [1; 3] = Ret rates'
    /\ same_rates rates' [1; 3].
Proof.
  apply (ApplyConstraints_keeps_feasible registry_no_trunk _ _ _ _ _ _ 4 1).
  - constructor.
  - left; reflexivity.
  - discriminate.
  - reflexivity.
  - reflexivity.
  - reflexivity.
  - unfold Qle; simpl; lia.
  - intros _. unfold Qle; simpl; lia.
Defined.

(* ================================================================== *)
(** ** What the movers leave alone *)
(* ================================================================== *)

Lemma bind_returned {A B : Type} (c : outcome A) (k : A -> outcome B)
  (b : B) :
  bind c k = Ret b -> exists a, c = Ret a /\ k a = Ret b.
Proof. destruct c; simpl; intros H; try discriminate H. eauto. Qed.

Lemma replace_nth_frame (a b : list Q) (i : nat) (v : Q) :
  replace_nth a i v = Some b ->
  length b = length a /\ forall j, j <> i -> nth_error b j = nth_error a j.
Proof.
  revert b i. induction a as [|x a IH]; intros b i H; [discriminate H|].
  destruct i as [|i]; simpl in H.
  - injection H as <-. split; [reflexivity|].
    intros j Hj. destruct j; [contradiction | reflexivity].
  - destruct (replace_nth a i v) as [r|] eqn:E; [|discriminate H].
    injection H as <-. destruct (IH r i E) as [Hl Ho].
    split; [simpl; now rewrite Hl|].
    intros j Hj. destruct j; [reflexivity|]. simpl. apply Ho.
    intros ->. contradiction.
Qed.

Lemma write_frame (n : nat) (a b : list Q) (i : Z) (v : Q) :
  write a i v = Ret b -> (Z.to_nat i < n)%nat -> frame n a b.
Proof.
  unfold write. destruct (i <? 0)%Z; [discriminate|].
  destruct (replace_nth a (Z.to_nat i) v) as [r|] eqn:E; [|discriminate].
  intros H Hn. injection H as <-.
  destruct (replace_nth_frame _ _ _ _ E) as [Hl Ho].
  split; [exact Hl|]. intros j Hj. apply Ho. lia.
Qed.

Lemma frame_refl (n : nat) (a : list Q) : frame n a a.
Proof. split; auto. Qed.

Lemma frame_trans (n : nat) (a b c : list Q) :
  frame n a b -> frame n b c -> frame n a c.
Proof.
  intros [H1 H2] [H3 H4]. split; [congruence|].
  intros i Hi. rewrite H4, H2; auto.
Qed.

(** Inverts a run that returned, call by call. *)
Ltac returned H :=
  repeat match type of H with
    | bind ?c ?k = Ret _ =>
        let a := fresh "a" in
        let E := fresh "E" in
        apply bind_returned in H; destruct H as [a [E H]]; cbn beta in H
    | (if ?b then _ else _) = Ret _ => destruct b
    | (let '(_, _) := ?x in _) = Ret _ => destruct x
    | Ret _ = Ret _ => injection H as H; subst
    end.

(** The frame a chain of writes to the first [n] entries leaves. *)
Ltac frames n :=
  repeat match goal with
    | H : write ?a ?i ?v = Ret ?b |- _ =>
        apply (write_frame n) in H; [|simpl; lia]
    end;
  repeat match goal with
    | H : frame n ?a ?b |- frame n ?a ?c =>
        apply (frame_trans n a b c H); clear H
    end;
  try apply frame_refl.

(** X16.  The movers write nothing but the entries of their connections:
    when [GetRatesOfChange] or [ApplyConstraints] returns, the rate vector
    has the length it had, and every entry from index 2 on (from index 1
    on for canopy drip) is as it was. *)
Theorem movers_keep_the_frame
  (SublimationRate :
     list Q -> CHydroUnit -> optStruct -> time_struct -> Q ->
     sublimation_type -> outcome Q)
  (pModel : CModel) (p : CanopyProcess) (state_vars : list Q)
  (pHRU : CHydroUnit) (Options : optStruct) (tt : time_struct)
  (rates rates' : list Q) :
  (GetRatesOfChange SublimationRate pModel p state_vars pHRU Options tt
     rates = Ret rates' -> frame (entries_written p) rates rates')
  /\ (ApplyConstraints p state_vars pHRU Options tt rates = Ret rates' ->
      frame (entries_written p) rates rates').
Proof.
  destruct p as [e | s | d];
    cbn [GetRatesOfChange ApplyConstraints entries_written credits_AET];
    split; intros H.
  - unfold CmvCanopyEvap.GetRatesOfChange in H. returned H; frames 2%nat.
    destruct (CmvCanopyEvap.type e); returned E2; try discriminate E2;
      returned H; frames 2%nat.
  - unfold CmvCanopyEvap.ApplyConstraints in H. returned H; frames 2%nat.
  - unfold CmvCanopySublimation.GetRatesOfChange in H.
    returned H; frames 2%nat.
    destruct (CmvCanopySublimation.type s); returned E1;
      try discriminate E1; returned H; frames 2%nat.
  - unfold CmvCanopySublimation.ApplyConstraints in H.
    returned H; frames 2%nat.
  - unfold CmvCanopyDrip.GetRatesOfChange in H. returned H; frames 1%nat.
    destruct (CmvCanopyDrip.type d); returned H; frames 1%nat.
  - unfold CmvCanopyDrip.ApplyConstraints in H. returned H; frames 1%nat.
Qed.

Lemma movers_keep_the_frame_witness :
  frame
    (entries_written
       (Evaporation
          (CmvCanopyEvap.CmvCanopyEvap registry_no_trunk CANEVP_MAXIMUM)))
    [5; 5; 8] [2; 2; 8].
Proof.
  apply (proj2 (movers_keep_the_frame NoSublimationRate registry_no_trunk
                  (Evaporation
                     (CmvCanopyEvap.CmvCanopyEvap registry_no_trunk
                        CANEVP_MAXIMUM))
                  [2; 0; 0; 0] (mkHRU HRU_STANDARD 0.5 4 0 0 0 4)
                  (mkOptions 1 false) t0 [5; 5; 8] [2; 2; 8])).
  reflexivity.
Defined.

Lemma bind_exited {A B : Type} (c : outcome A) (k : A -> outcome B)
  (statement : string) (code : exitcode) :
  bind c k = Exit statement code ->
  c = Exit statement code
  \/ exists a, c = Ret a /\ k a = Exit statement code.
Proof.
  destruct c; simpl; intros H;
    [right; eauto | left; injection H as -> ->; reflexivity
    | discriminate H].
Qed.

Lemma write_never_exits (a : list Q) (i : Z) (v : Q)
  (statement : string) (code : exitcode) :
  write a i v <> Exit statement code.
Proof.
  unfold write. destruct (i <? 0)%Z; [discriminate|].
  destruct (replace_nth a (Z.to_nat i) v); discriminate.
Qed.

Lemma read_never_exits (a : list Q) (i : Z)
  (statement : string) (code : exitcode) :
  read a i <> Exit statement code.
Proof.
  unfold read. destruct (i <? 0)%Z; [discriminate|].
  destruct (nth_error a (Z.to_nat i)); discriminate.
Qed.

Lemma ddiv_never_exits (a b : Q) (statement : string) (code : exitcode) :
  a // b <> Exit statement code.
Proof. unfold ddiv. destruct (Qeq_bool b 0); discriminate. Qed.

Lemma RemainingPET_never_exits (pModel : CModel) (state_vars : list Q)
  (pHRU : CHydroUnit) (Options : optStruct)
  (statement : string) (code : exitcode) :
  RemainingPET pModel state_vars pHRU Options <> Exit statement code.
Proof.
  unfold RemainingPET.
  destruct (negb (suppressCompetitiveET Options)); [|discriminate].
  intros H. apply bind_exited in H.
  destruct H as [H | [a [_ H]]]; [now apply read_never_exits in H|].
  apply bind_exited in H.
  destruct H as [H | [b [_ H]]]; [now apply ddiv_never_exits in H|].
  discriminate H.
Qed.

(** Inverts a run that exited, call by call; the accesses and quotients
    never exit. *)
Ltac exited H :=
  repeat match type of H with
    | bind ?c ?k = Exit _ _ =>
        let a := fresh "a" in
        let E := fresh "E" in
        apply bind_exited in H;
        destruct H as [E | [a [E H]]];
        [first [ now apply write_never_exits in E
               | now apply read_never_exits in E
               | now apply ddiv_never_exits in E
               | now apply RemainingPET_never_exits in E
               | idtac ]
        | first [ discriminate E | cbn beta in H ] ]
    | (let '(_, _) := ?x in _) = Exit _ _ => destruct x
    | Ret _ = Exit _ _ => discriminate H
    | write _ _ _ = Exit _ _ => now apply write_never_exits in H
    end.

(** X17.  The only fatal exit of the per-timestep interface is the stub:
    [ApplyConstraints] never exits, and when [GetRatesOfChange] exits the
    code is [STUB], the selector of the process has no formula, the unit
    is applicable and its forest coverage is not zero.  Canopy drip never
    exits. *)
Theorem exits_are_stubs
  (SublimationRate :
     list Q -> CHydroUnit -> optStruct -> time_struct -> Q ->
     sublimation_type -> outcome Q)
  (pModel : CModel) (p : CanopyProcess) (state_vars : list Q)
  (pHRU : CHydroUnit) (Options : optStruct) (tt : time_struct)
  (rates : list Q) (statement : string) (code : exitcode) :
  (GetRatesOfChange SublimationRate pModel p state_vars pHRU Options tt
     rates = Exit statement code ->
   code = STUB /\ has_formula p = false /\ applicable pHRU
   /\ ~ forest_coverage (GetSurfaceProps pHRU) == 0)
  /\ ApplyConstraints p state_vars pHRU Options tt rates
     <> Exit statement code.
Proof.
  destruct p as [e | s | d]; cbn [GetRatesOfChange ApplyConstraints has_formula];
    split; intros H.
  - unfold CmvCanopyEvap.GetRatesOfChange in H.
    destruct (not_applicable pHRU) eqn:Hg; [discriminate H|].
    apply guard_applicable in Hg.
    apply bind_exited in H.
    destruct H as [H | [rates0 [_ H]]]; [now apply write_never_exits in H|].
    cbn beta in H.
    destruct (Qeq_bool (forest_coverage (GetSurfaceProps pHRU)) 0) eqn:HF;
      [discriminate H|].
    assert (HFc : ~ forest_coverage (GetSurfaceProps pHRU) == 0).
    { intros H0. apply Qeq_bool_iff in H0. congruence. }
    exited H.
    destruct (CmvCanopyEvap.type e); exited E1.
    injection E1 as _ <-. auto.
  - unfold CmvCanopyEvap.ApplyConstraints in H.
    destruct (not_applicable pHRU); [discriminate H|]. exited H.
  - unfold CmvCanopySublimation.GetRatesOfChange in H.
    destruct (not_applicable pHRU) eqn:Hg; [discriminate H|].
    apply guard_applicable in Hg.
    apply bind_exited in H.
    destruct H as [H | [rates0 [_ H]]]; [now apply write_never_exits in H|].
    cbn beta in H.
    destruct (Qeq_bool (forest_coverage (GetSurfaceProps pHRU)) 0) eqn:HF;
      [discriminate H|].
    assert (HFc : ~ forest_coverage (GetSurfaceProps pHRU) == 0).
    { intros H0. apply Qeq_bool_iff in H0. congruence. }
    exited H.
    destruct (CmvCanopySublimation.type s); exited E0;
      match goal with
      | Hexit : ExitGracefully _ _ = Exit _ _ |- _ =>
          injection Hexit as _ <-; auto
      end.
  - unfold CmvCanopySublimation.ApplyConstraints in H.
    destruct (not_applicable pHRU); [discriminate H|]. exited H.
  - exfalso. unfold CmvCanopyDrip.GetRatesOfChange in H.
    destruct (not_applicable pHRU); [discriminate H|].
    exited H.
    destruct (Qeq_bool (forest_coverage (GetSurfaceProps pHRU)) 0);
      [discriminate H|].
    exited H. destruct (CmvCanopyDrip.type d); exited H.
  - unfold CmvCanopyDrip.ApplyConstraints in H.
    destruct (not_applicable pHRU); [discriminate H|]. exited H.
Qed.

Lemma exits_are_stubs_witness :
  STUB = STUB
  /\ has_formula
       (Evaporation
          (CmvCanopyEvap.CmvCanopyEvap registry_no_trunk CANEVP_UNDEFINED))
     = false
  /\ applicable (mkHRU HRU_STANDARD 0.5 4 0 0 0 4)
  /\ ~ forest_coverage (GetSurfaceProps (mkHRU HRU_STANDARD 0.5 4 0 0 0 4))
       == 0.
Proof.
  apply (proj1 (exits_are_stubs NoSublimationRate registry_no_trunk
                  (Evaporation
                     (CmvCanopyEvap.CmvCanopyEvap registry_no_trunk
                        CANEVP_UNDEFINED))
                  [2; 0; 0; 0] (mkHRU HRU_STANDARD 0.5 4 0 0 0 4)
                  (mkOptions 1 false) t0 [0; 0]
                  "CmvCanopyEvap: this process not coded yet" STUB)).
  reflexivity.
Defined.
